(** * Stateless block validator: position algebra, validation entries, dispatch

    A shallow embedding of [staker/stateless_block_validator.go].

    Conventions of the embedding:
    - [uint64] values (and [arbutil.MessageIndex], which is a [uint64]) are
      integers of [Z]; every arithmetic operation of the source is written
      with its wrap-around modulo 2^64 ([wrap64]).
    - a Go function returning [(T, error)] becomes a function into
      [result T]; a method that mutates its receiver returns the receiver's
      new state next to its error.
    - Go interfaces (inbox tracker, streamer, recorder, spawners, ...) are
      records of functions, one field per method the validator calls.
    - [context.Context] arguments and logging calls do not influence any
      returned value and are left out. *)

From Stdlib Require Import ZArith Lia List Ascii String.
From stdpp Require Import base option list gmap strings pretty.

Local Open Scope Z_scope.

(** ** Machine integers *)

Definition uint64 := Z.
Definition MessageIndex := uint64.

Definition wrap64 (z : Z) : uint64 := z mod 2 ^ 64.

(** The values a [uint64] variable can hold. *)
Definition u64 (z : Z) : Prop := 0 <= z < 2 ^ 64.

Definition MaxUint64 : uint64 := 2 ^ 64 - 1.

(** ** Bytes, hashes, targets *)

Abbreviation bytes := (list Byte.byte).

(** [common.Hash] is a 32-byte array; it is represented by the number its
    bytes spell in big-endian order. The zero hash is [0]. *)
Abbreviation Hash := N.

(** [ethdb.WasmTarget] is a string. *)
Abbreviation WasmTarget := string.

(** [arbutil.PreimageType] is a [uint8]. *)
Abbreviation PreimageType := Z.

Abbreviation PreimagesMap := (gmap Z (gmap N bytes)).

(** [state.ActivatedWasm] maps a target to compiled code; [state.UserWasms]
    maps a code hash to its activated wasm. *)
Abbreviation ActivatedWasm := (gmap string bytes).
Abbreviation UserWasms := (gmap N (gmap string bytes)).

(** ** Formatting helpers for error messages *)

Definition hex_char (d : N) : ascii :=
  match d with
  | 0 => "0" | 1 => "1" | 2 => "2" | 3 => "3" | 4 => "4"
  | 5 => "5" | 6 => "6" | 7 => "7" | 8 => "8" | 9 => "9"
  | 10 => "a" | 11 => "b" | 12 => "c" | 13 => "d" | 14 => "e"
  | _ => "f"
  end%N%char.

(** The [n] low hexadecimal digits of [x], most significant first, in front
    of [acc]. *)
Fixpoint hex_digits (n : nat) (x : N) (acc : string) : string :=
  match n with
  | O => acc
  | S n' => hex_digits n' (x / 16)%N (String (hex_char (x mod 16)%N) acc)
  end.

(** [%v] of a [common.Hash]: [0x] followed by 64 hexadecimal digits. *)
Definition Hash_String (h : Hash) : string :=
  String.append "0x" (hex_digits 64 h EmptyString).

(** [strings.Contains]. *)
Definition strings_Contains (s substr : string) : bool :=
  match String.index 0 substr s with
  | Some _ => true
  | None => false
  end.

(** ** Validation entry stages *)

Inductive ValidationEntryStage :=
| Empty
| ReadyForRecord
| Ready.

Global Instance ValidationEntryStage_eq_dec : EqDecision ValidationEntryStage.
Proof. solve_decision. Defined.

(** The [iota] value of a stage, as [%v] prints it. *)
Definition stage_value (s : ValidationEntryStage) : Z :=
  match s with
  | Empty => 0
  | ReadyForRecord => 1
  | Ready => 2
  end.

(** ** Errors *)

(** One constructor per error the file creates, carrying the values its
    format string mentions; [ErrExternal] is an error value produced by a
    collaborator, known only by its message. *)
Inductive error :=
| ErrExternal (msg : string)
| ErrBatchMsgCount (batch msgCountMinusOne count : uint64)
| ErrBatchStartsFrom (batch firstInBatch count : uint64)
| ErrNonReadyEntry
| ErrStylusRequired
| ErrStylusArchNotSupported (stylusArch : WasmTarget)
| ErrFullBatchInfoNil
| ErrWrongBatch (expected got : uint64)
| ErrIllegalDelayedMessage (delayedMessagesRead prevDelayed : uint64)
| ErrPostedBatchNotFound (batchNum : uint64)
| ErrNotReadyForRecord (stage : ValidationEntryStage)
| ErrRecordingFailed (pos : MessageIndex) (expected got : Hash)
| ErrReadDelayedMsg (cause : error)
| ErrNoInitialState
| ErrBatchNotFoundOnL1
| ErrCalculatingPosition (cause : error)
| ErrFullBatchNotFound (batch : uint64)
| ErrModuleRootNotSupported (moduleRoot : Hash).

(** [err.Error()]. *)
Fixpoint Error (e : error) : string :=
  match e with
  | ErrExternal msg => msg
  | ErrBatchMsgCount batch m count =>
      "batch " +:+ pretty batch +:+ " has msgCount " +:+ pretty m
        +:+ ", failed getting for " +:+ pretty count
  | ErrBatchStartsFrom batch first count =>
      "batch " +:+ pretty batch +:+ " starts from " +:+ pretty first
        +:+ ", failed getting for " +:+ pretty count
  | ErrNonReadyEntry => "cannot create input from non-ready entry"
  | ErrStylusRequired => "stylus support is required"
  | ErrStylusArchNotSupported a =>
      "stylusArch not supported by block validator: " +:+ a
  | ErrFullBatchInfoNil => "fullbatchInfo cannot be nil"
  | ErrWrongBatch expected got =>
      "got wrong batch expected: " +:+ pretty expected +:+ " got: " +:+ pretty got
  | ErrIllegalDelayedMessage d p =>
      "illegal validation entry delayedMessage " +:+ pretty d
        +:+ ", previous " +:+ pretty p
  | ErrPostedBatchNotFound n => "batch not found: " +:+ pretty n
  | ErrNotReadyForRecord s =>
      "validation entry should be ReadyForRecord, is: " +:+ pretty (stage_value s)
  | ErrRecordingFailed pos expected got =>
      "recording failed: pos " +:+ pretty pos +:+ ", hash expected "
        +:+ Hash_String expected +:+ ", got " +:+ Hash_String got
  | ErrReadDelayedMsg cause =>
      "error while trying to read delayed msg for proving: " +:+ Error cause
  | ErrNoInitialState => "no initial state for count==0"
  | ErrBatchNotFoundOnL1 => "batch not found on L1 yet"
  | ErrCalculatingPosition cause =>
      "failed calculating position for validation: " +:+ Error cause
  | ErrFullBatchNotFound b => "batch " +:+ pretty b +:+ " not found"
  | ErrModuleRootNotSupported r =>
      "validation with WasmModuleRoot " +:+ Hash_String r
        +:+ " not supported by node"
  end.

(** ** Results *)

Inductive result (A : Type) :=
| Ok (a : A)
| Err (e : error).
Arguments Ok {A} a.
Arguments Err {A} e.

Global Instance result_ret : MRet result := fun A a => Ok a.

Global Instance result_bind : MBind result := fun A B k r =>
  match r with
  | Ok a => k a
  | Err e => Err e
  end.

Definition is_Err {A} (r : result A) : Prop := exists e, r = Err e.

(** ** Inbox tracker *)

Module InboxTrackerInterface.
Record t := mk {
  GetDelayedMessageBytes : uint64 -> result bytes;
  GetBatchMessageCount : uint64 -> result MessageIndex;
  GetBatchAcc : uint64 -> result Hash;
  GetBatchCount : result uint64;
  FindInboxBatchContainingMessage : MessageIndex -> result (uint64 * bool)
}.
End InboxTrackerInterface.
Import InboxTrackerInterface (GetDelayedMessageBytes, GetBatchMessageCount,
  GetBatchAcc, GetBatchCount, FindInboxBatchContainingMessage).

(** ** Global state positions *)

Module GlobalStatePosition.
Record t := mk {
  BatchNumber : uint64;
  PosInBatch : uint64
}.
(** The zero value [GlobalStatePosition{}]. *)
Definition zero : t := mk 0 0.
End GlobalStatePosition.

(** Positions before and after processing the message at [count]; the
    caller provides the batch number. *)
Definition GlobalStatePositionsAtCount
    (tracker : InboxTrackerInterface.t) (count : MessageIndex) (batch : uint64)
  : result (GlobalStatePosition.t * GlobalStatePosition.t) :=
  msgCountInBatch ← GetBatchMessageCount tracker batch;
  firstInBatch ←
    (if 0 <? batch then GetBatchMessageCount tracker (wrap64 (batch - 1))
     else Ok 0);
  if msgCountInBatch <? count then
    Err (ErrBatchMsgCount batch (wrap64 (msgCountInBatch - 1)) count)
  else if count <=? firstInBatch then
    Err (ErrBatchStartsFrom batch firstInBatch count)
  else
    let posInBatch := wrap64 (wrap64 (count - firstInBatch) - 1) in
    let startPos := GlobalStatePosition.mk batch posInBatch in
    if msgCountInBatch =? count then
      Ok (startPos, GlobalStatePosition.mk (wrap64 (batch + 1)) 0)
    else
      Ok (startPos, GlobalStatePosition.mk batch (wrap64 (posInBatch + 1))).

(** ** Records of the validator package *)

(** [validator.GoGlobalState]. *)
Module GoGlobalState.
Record t := mk {
  BlockHash : Hash;
  SendRoot : Hash;
  Batch : uint64;
  PosInBatch : uint64
}.
(** The zero value. *)
Definition zero : t := mk 0%N 0%N 0 0.
End GoGlobalState.

Global Instance GoGlobalState_eq_dec : EqDecision GoGlobalState.t.
Proof. solve_decision. Defined.

(** [execution.MessageResult]. *)
Module MessageResult.
Record t := mk {
  BlockHash : Hash;
  SendRoot : Hash
}.
(** The zero value [execution.MessageResult{}]. *)
Definition zero : t := mk 0%N 0%N.
End MessageResult.

(** [validator.BatchInfo]. *)
Module BatchInfo.
Record t := mk {
  Number : uint64;
  Data : bytes
}.
End BatchInfo.

Module FullBatchInfo.
Record t := mk {
  Number : uint64;
  PostedData : bytes;
  MsgCount : MessageIndex;
  Preimages : PreimagesMap
}.
End FullBatchInfo.

(** [arbostypes.MessageWithMetadata]. The validator reads the counter of
    delayed messages and calls [Message.PastBatchesRequired()]; the
    message type lives outside this package, so the method is carried as
    the value it returns, next to the message payload. *)
Module MessageWithMetadata.
Record t := mk {
  L2msg : bytes;
  PastBatchesRequired : result (list uint64);
  DelayedMessagesRead : uint64
}.
End MessageWithMetadata.

(** [params.ChainConfig], of which the validator only asks [DebugMode()].
    The configuration pointer is the streamer's and is taken to be
    non-nil. *)
Module ChainConfig.
Record t := mk {
  DebugMode : bool
}.
End ChainConfig.

(** [validator.ValidationInput]. *)
Module ValidationInput.
Record t := mk {
  Id : uint64;
  HasDelayedMsg : bool;
  DelayedMsgNr : uint64;
  Preimages : PreimagesMap;
  UserWasms : gmap string (gmap N bytes);
  BatchInfo : list BatchInfo.t;
  DelayedMsg : bytes;
  StartState : GoGlobalState.t;
  DebugChain : bool
}.
End ValidationInput.

(** [execution.RecordResult]; [Preimages] is a map that may be nil. *)
Module RecordResult.
Record t := mk {
  Pos : MessageIndex;
  BlockHash : Hash;
  Preimages : option (gmap N bytes);
  UserWasms : UserWasms
}.
End RecordResult.

(** ** Collaborator interfaces *)

Module TransactionStreamerInterface.
Record t := mk {
  GetProcessedMessageCount : result MessageIndex;
  GetMessage : MessageIndex -> result MessageWithMetadata.t;
  ResultAtMessageIndex : MessageIndex -> result MessageResult.t;
  ChainConfig : ChainConfig.t
}.
End TransactionStreamerInterface.

Module InboxReaderInterface.
Record t := mk {
  GetSequencerMessageBytes : uint64 -> result (bytes * Hash);
  GetFinalizedMsgCount : result MessageIndex
}.
End InboxReaderInterface.

(** [execution.ExecutionRecorder]; the message pointer it receives may be
    nil. *)
Module ExecutionRecorder.
Record t := mk {
  RecordBlockCreation :
    MessageIndex -> option MessageWithMetadata.t -> result RecordResult.t
}.
End ExecutionRecorder.

(** [daprovider.Reader]. [RecoverPayloadFromBatch] receives the caller's
    preimage map by reference and may write into it: next to its result it
    returns the contents of that map after the call. *)
Module DAReader.
Record t := mk {
  IsValidHeaderByte : Byte.byte -> bool;
  RecoverPayloadFromBatch :
    uint64 -> Hash -> bytes -> PreimagesMap -> bool ->
    PreimagesMap * result (bytes * PreimagesMap)
}.
End DAReader.

(** [validator.ValidationRun]: [Await] returns a global state and an
    error, both of which the caller reads. *)
Module ValidationRun.
Record t := mk {
  Await : GoGlobalState.t * option error
}.
End ValidationRun.

(** [validator.ExecutionSpawner], also the shape of the Redis validation
    client. [Launch] returns an interface value, which may be nil. *)
Module ExecutionSpawner.
Record t := mk {
  StylusArchs : list WasmTarget;
  SupportsModule : Hash -> bool;
  Launch : ValidationInput.t -> Hash -> option ValidationRun.t
}.
End ExecutionSpawner.

(** Modelled from the spec: [validator.SpawnerSupportsModule] is defined
    outside these sources; the spec gives every spawner the capability
    [supportsModule(moduleRoot) -> bool], which this helper asks for. *)
Definition SpawnerSupportsModule (spawner : ExecutionSpawner.t) (requested : Hash)
  : bool :=
  ExecutionSpawner.SupportsModule spawner requested.

(** ** Validation entries *)

Module validationEntry.
Record t := mk {
  Stage : ValidationEntryStage;
  Pos : MessageIndex;
  Start : GoGlobalState.t; End : GoGlobalState.t;
  HasDelayedMsg : bool;
  DelayedMsgNr : uint64;
  ChainConfig : ChainConfig.t;
  msg : option MessageWithMetadata.t;
  BatchInfo : list BatchInfo.t;
  Preimages : PreimagesMap;
  UserWasms : UserWasms;
  DelayedMsg : bytes
}.

Definition set_Stage (s : ValidationEntryStage) (e : t) : t :=
  mk s (Pos e) (Start e) (End e) (HasDelayedMsg e) (DelayedMsgNr e)
     (ChainConfig e) (msg e) (BatchInfo e) (Preimages e) (UserWasms e)
     (DelayedMsg e).

Definition set_msg (m : option MessageWithMetadata.t) (e : t) : t :=
  mk (Stage e) (Pos e) (Start e) (End e) (HasDelayedMsg e) (DelayedMsgNr e)
     (ChainConfig e) m (BatchInfo e) (Preimages e) (UserWasms e)
     (DelayedMsg e).

Definition set_Preimages (p : PreimagesMap) (e : t) : t :=
  mk (Stage e) (Pos e) (Start e) (End e) (HasDelayedMsg e) (DelayedMsgNr e)
     (ChainConfig e) (msg e) (BatchInfo e) p (UserWasms e) (DelayedMsg e).

Definition set_UserWasms (w : gmap N (gmap string bytes)) (e : t) : t :=
  mk (Stage e) (Pos e) (Start e) (End e) (HasDelayedMsg e) (DelayedMsgNr e)
     (ChainConfig e) (msg e) (BatchInfo e) (Preimages e) w (DelayedMsg e).

Definition set_DelayedMsg (d : bytes) (e : t) : t :=
  mk (Stage e) (Pos e) (Start e) (End e) (HasDelayedMsg e) (DelayedMsgNr e)
     (ChainConfig e) (msg e) (BatchInfo e) (Preimages e) (UserWasms e) d.

(** The map [res.UserWasms] after the first loop of [ToInput]: an empty
    inner map under every listed target. *)
Definition initTargets (stylusArchs : list WasmTarget)
  : gmap string (gmap N bytes) :=
  foldl (fun res stylusArch => <[stylusArch := ∅]> res) ∅ stylusArchs.

(** The inner loop of [ToInput] for one code hash: copy the code of every
    listed target, failing at the first target the hash has no code for. *)
Fixpoint addWasm (hash : Hash) (asmMap : gmap string bytes)
    (stylusArchs : list WasmTarget) (res : gmap string (gmap N bytes))
  : result (gmap string (gmap N bytes)) :=
  match stylusArchs with
  | [] => Ok res
  | stylusArch :: rest =>
      match asmMap !! stylusArch with
      | Some asm =>
          addWasm hash asmMap rest (alter (insert hash asm) stylusArch res)
      | None => Err (ErrStylusArchNotSupported stylusArch)
      end
  end.

(** The outer loop of [ToInput], over the entries of [e.UserWasms] in the
    order the [range] statement visits them. *)
Fixpoint addWasms (visited : list (Hash * gmap string bytes))
    (stylusArchs : list WasmTarget) (res : gmap string (gmap N bytes))
  : result (gmap string (gmap N bytes)) :=
  match visited with
  | [] => Ok res
  | (hash, asmMap) :: rest =>
      res' ← addWasm hash asmMap stylusArchs res;
      addWasms rest stylusArchs res'
  end.

Section ToInput.
(** Go leaves the iteration order of a map unspecified; [rangeOrder] is the
    order a [range] over [e.UserWasms] takes. *)
Variable rangeOrder : gmap N (gmap string bytes) -> list (Hash * gmap string bytes).

Definition ToInput (e : t) (stylusArchs : list WasmTarget)
  : result ValidationInput.t :=
  if decide (Stage e ≠ Ready) then Err ErrNonReadyEntry
  else if (length stylusArchs =? 0)%nat && (0 <? size (UserWasms e))%nat then
    Err ErrStylusRequired
  else
    userWasms ← addWasms (rangeOrder (UserWasms e)) stylusArchs
                         (initTargets stylusArchs);
    Ok (ValidationInput.mk (Pos e) (HasDelayedMsg e) (DelayedMsgNr e)
          (Preimages e) userWasms (BatchInfo e) (DelayedMsg e) (Start e)
          (ChainConfig.DebugMode (ChainConfig e))).
End ToInput.
End validationEntry.

(** A [range] order visits every entry of the map exactly once. *)
Definition RangeOrder
    (rangeOrder : gmap N (gmap string bytes) -> list (Hash * gmap string bytes))
  : Prop :=
  forall m, rangeOrder m ≡ₚ map_to_list m.

(** [copyPreimagesInto(dest, source)]: [dest] is updated in place; the
    function returns its new contents. *)
Definition copyPreimagesInto (dest source : PreimagesMap) : PreimagesMap :=
  map_fold
    (fun piType piMap dest =>
       let inner := default ∅ (dest !! piType) in
       <[piType := map_fold (fun hash preimage inner => <[hash := preimage]> inner)
                            inner piMap]> dest)
    dest source.

(** [msg] is dereferenced without a nil check; the caller passes the
    message the streamer returned. *)
Definition newValidationEntry
    (pos : MessageIndex) (start end_ : GoGlobalState.t)
    (msg : MessageWithMetadata.t) (fullBatchInfo : option FullBatchInfo.t)
    (prevBatches : list BatchInfo.t) (prevDelayed : uint64)
    (chainConfig : ChainConfig.t)
  : result validationEntry.t :=
  let preimages : PreimagesMap := ∅ in
  match fullBatchInfo with
  | None => Err ErrFullBatchInfoNil
  | Some fullBatchInfo =>
      if negb (FullBatchInfo.Number fullBatchInfo =? GoGlobalState.Batch start) then
        Err (ErrWrongBatch (GoGlobalState.Batch start)
                           (FullBatchInfo.Number fullBatchInfo))
      else
        let valBatches :=
          [BatchInfo.mk (FullBatchInfo.Number fullBatchInfo)
                        (FullBatchInfo.PostedData fullBatchInfo)]
            ++ prevBatches in
        let preimages :=
          copyPreimagesInto preimages (FullBatchInfo.Preimages fullBatchInfo) in
        let entry (hasDelayed : bool) (delayedNum : uint64) :=
          validationEntry.mk ReadyForRecord pos start end_ hasDelayed delayedNum
            chainConfig (Some msg) valBatches preimages ∅ [] in
        if MessageWithMetadata.DelayedMessagesRead msg =? wrap64 (prevDelayed + 1) then
          Ok (entry true prevDelayed)
        else if negb (MessageWithMetadata.DelayedMessagesRead msg =? prevDelayed) then
          Err (ErrIllegalDelayedMessage
                 (MessageWithMetadata.DelayedMessagesRead msg) prevDelayed)
        else
          Ok (entry false 0)
  end.

Definition BuildGlobalState (res : MessageResult.t) (pos : GlobalStatePosition.t)
  : GoGlobalState.t :=
  GoGlobalState.mk (MessageResult.BlockHash res) (MessageResult.SendRoot res)
    (GlobalStatePosition.BatchNumber pos) (GlobalStatePosition.PosInBatch pos).

(** Message counts are [uint64] values: what a tracker returns lies in the
    range of the type. *)
Definition TrackerCountsInRange (tracker : InboxTrackerInterface.t) : Prop :=
  forall batch msgCount,
    GetBatchMessageCount tracker batch = Ok msgCount -> u64 msgCount.

(** The package-level function, under a name that stays visible where the
    validator's method of the same name is in scope. *)
Abbreviation GlobalStatePositionsAtCountOf := GlobalStatePositionsAtCount.

(** ** The stateless block validator *)

Module StatelessBlockValidator.
(** The fields the operations below read; the configuration, the database
    handle, the node stack and the BOLD views of the spawners take no part
    in them. A nil Redis client is [None]; a nil entry of [dapReaders] is
    [None]. *)
Record t := mk {
  execSpawners : list ExecutionSpawner.t;
  redisValidator : option ExecutionSpawner.t;
  recorder : ExecutionRecorder.t;
  inboxReader : InboxReaderInterface.t;
  inboxTracker : InboxTrackerInterface.t;
  streamer : TransactionStreamerInterface.t;
  dapReaders : list (option DAReader.t);
  latestWasmModuleRoot : Hash
}.

Definition readPostedBatch (v : t) (batchNum : uint64) : result bytes :=
  batchCount ← GetBatchCount (inboxTracker v);
  if batchCount <=? batchNum then Err (ErrPostedBatchNotFound batchNum)
  else
    '(postedData, _) ←
      InboxReaderInterface.GetSequencerMessageBytes (inboxReader v) batchNum;
    Ok postedData.

(** Return the global state positions before and after processing the
    message at the specified count. *)
Definition GlobalStatePositionsAtCount (v : t) (count : MessageIndex)
  : result (GlobalStatePosition.t * GlobalStatePosition.t) :=
  if count =? 0 then Err ErrNoInitialState
  else if count =? 1 then
    Ok (GlobalStatePosition.zero, GlobalStatePosition.mk 1 0)
  else
    '(batch, found) ←
      FindInboxBatchContainingMessage (inboxTracker v) (wrap64 (count - 1));
    if negb found then Err ErrBatchNotFoundOnL1
    else GlobalStatePositionsAtCountOf (inboxTracker v) count batch.

Section Externals.
(** Names of other packages that the source refers to: the sentinel error
    [daprovider.ErrSeqMsgValidation], the predicate
    [daprovider.IsDASMessageHeaderByte], the constant
    [arbutil.Keccak256PreimageType], and the order in which a [range] visits
    a user-wasm map. *)
Variable ErrSeqMsgValidation : error.
Variable IsDASMessageHeaderByte : Byte.byte -> bool.
Variable Keccak256PreimageType : PreimageType.
Variable rangeOrder : gmap N (gmap string bytes) -> list (Hash * gmap string bytes).

(** The loop of [readFullBatch] over the data-availability readers: the
    first reader that accepts the header byte is asked to recover the
    payload. Returns [foundDA] and the preimage map the function goes on
    with. *)
Fixpoint recoverFromReaders (readers : list (option DAReader.t))
    (batchNum : uint64) (batchBlockHash : Hash) (postedData : bytes)
    (headerByte : Byte.byte) (preimages : PreimagesMap)
  : result (bool * PreimagesMap) :=
  match readers with
  | [] => Ok (false, preimages)
  | Some dapReader :: rest =>
      if DAReader.IsValidHeaderByte dapReader headerByte then
        let '(preimages', recovered) :=
          DAReader.RecoverPayloadFromBatch dapReader batchNum batchBlockHash
            postedData preimages true in
        match recovered with
        | Err err =>
            if strings_Contains (Error err) (Error ErrSeqMsgValidation)
               && IsDASMessageHeaderByte headerByte
            then Ok (true, preimages')
            else Err err
        | Ok (_, preimagesRecorded) => Ok (true, preimagesRecorded)
        end
      else
        recoverFromReaders rest batchNum batchBlockHash postedData headerByte
          preimages
  | None :: rest =>
      recoverFromReaders rest batchNum batchBlockHash postedData headerByte
        preimages
  end.

Definition readFullBatch (v : t) (batchNum : uint64)
  : result (bool * option FullBatchInfo.t) :=
  batchCount ← GetBatchCount (inboxTracker v);
  if batchCount <=? batchNum then Ok (false, None)
  else
    batchMsgCount ← GetBatchMessageCount (inboxTracker v) batchNum;
    '(postedData, batchBlockHash) ←
      InboxReaderInterface.GetSequencerMessageBytes (inboxReader v) batchNum;
    preimages ←
      (match postedData !! 40%nat with
       | Some headerByte =>
           '(_, preimages) ←
             recoverFromReaders (dapReaders v) batchNum batchBlockHash
               postedData headerByte ∅;
           Ok preimages
       | None => Ok ∅
       end);
    Ok (true, Some (FullBatchInfo.mk batchNum postedData batchMsgCount preimages)).

(** The first half of [ValidationEntryRecord]: the local re-execution and
    what it writes into the entry. *)
Definition recordBlock (v : t) (e : validationEntry.t)
  : result validationEntry.t :=
  if negb (validationEntry.Pos e =? 0) then
    recording ←
      ExecutionRecorder.RecordBlockCreation (recorder v)
        (validationEntry.Pos e) (validationEntry.msg e);
    if negb (RecordResult.BlockHash recording
               =? GoGlobalState.BlockHash (validationEntry.End e))%N then
      Err (ErrRecordingFailed (validationEntry.Pos e)
             (GoGlobalState.BlockHash (validationEntry.End e))
             (RecordResult.BlockHash recording))
    else
      let e1 :=
        match RecordResult.Preimages recording with
        | Some recorded =>
            validationEntry.set_Preimages
              (copyPreimagesInto (validationEntry.Preimages e)
                 {[Keccak256PreimageType := recorded]}) e
        | None => e
        end in
      Ok (validationEntry.set_UserWasms (RecordResult.UserWasms recording) e1)
  else Ok e.

(** [ValidationEntryRecord] writes through its entry pointer: the result
    is the entry as the call leaves it, and the returned error. *)
Definition ValidationEntryRecord (v : t) (e : validationEntry.t)
  : validationEntry.t * option error :=
  if decide (validationEntry.Stage e ≠ ReadyForRecord) then
    (e, Some (ErrNotReadyForRecord (validationEntry.Stage e)))
  else
    match recordBlock v e with
    | Err err => (e, Some err)
    | Ok e1 =>
        let fetched :=
          if validationEntry.HasDelayedMsg e1 then
            match GetDelayedMessageBytes (inboxTracker v)
                    (validationEntry.DelayedMsgNr e1) with
            | Err err => Err (ErrReadDelayedMsg err)
            | Ok delayedMsg => Ok (validationEntry.set_DelayedMsg delayedMsg e1)
            end
          else Ok e1 in
        match fetched with
        | Err err => (e1, Some err)
        | Ok e2 =>
            (validationEntry.set_Stage Ready (validationEntry.set_msg None e2),
             None)
        end
    end.

(** The loop of [CreateReadyValidationEntry] over the batch numbers the
    message refers to. *)
Fixpoint readPrevBatches (v : t) (prevBatchNums : list uint64)
  : result (list BatchInfo.t) :=
  match prevBatchNums with
  | [] => Ok []
  | batchNum :: rest =>
      data ← readPostedBatch v batchNum;
      prevBatches ← readPrevBatches v rest;
      Ok (BatchInfo.mk batchNum data :: prevBatches)
  end.

Definition CreateReadyValidationEntry (v : t) (pos : MessageIndex)
  : result validationEntry.t :=
  msg ← TransactionStreamerInterface.GetMessage (streamer v) pos;
  result ← TransactionStreamerInterface.ResultAtMessageIndex (streamer v) pos;
  '(prevDelayed, prevResult) ←
    (if 0 <? pos then
       prev ← TransactionStreamerInterface.GetMessage (streamer v)
                (wrap64 (pos - 1));
       prevResult ← TransactionStreamerInterface.ResultAtMessageIndex
                      (streamer v) (wrap64 (pos - 1));
       Ok (MessageWithMetadata.DelayedMessagesRead prev, prevResult)
     else Ok (0, MessageResult.zero));
  match GlobalStatePositionsAtCount v (wrap64 (pos + 1)) with
  | Err err => Err (ErrCalculatingPosition err)
  | Ok (startPos, endPos) =>
      let start := BuildGlobalState prevResult startPos in
      let end_ := BuildGlobalState result endPos in
      '(found, fullBatchInfo) ← readFullBatch v (GoGlobalState.Batch start);
      if negb found then
        Err (ErrFullBatchNotFound (GlobalStatePosition.BatchNumber startPos))
      else
        prevBatchNums ← MessageWithMetadata.PastBatchesRequired msg;
        prevBatches ← readPrevBatches v prevBatchNums;
        entry ← newValidationEntry pos start end_ msg fullBatchInfo
                  prevBatches prevDelayed
                  (TransactionStreamerInterface.ChainConfig (streamer v));
        match ValidationEntryRecord v entry with
        | (_, Some err) => Err err
        | (entry', None) => Ok entry'
        end
  end.

(** The loop of [ValidateResult] over the execution spawners: the first one
    that supports the module root gets the input; the loop ends there
    whatever [Launch] returns. *)
Fixpoint launchOnSpawners (spawners : list ExecutionSpawner.t)
    (entry : validationEntry.t) (moduleRoot : Hash)
  : result (option ValidationRun.t) :=
  match spawners with
  | [] => Ok None
  | spawner :: rest =>
      if SpawnerSupportsModule spawner moduleRoot then
        input ← validationEntry.ToInput rangeOrder entry
                  (ExecutionSpawner.StylusArchs spawner);
        Ok (ExecutionSpawner.Launch spawner input moduleRoot)
      else launchOnSpawners rest entry moduleRoot
  end.

(** The part of [ValidateResult] that picks a backend and launches the run:
    the Redis client first, unless [useExec], then the spawners. *)
Definition launchRun (v : t) (entry : validationEntry.t) (useExec : bool)
    (moduleRoot : Hash)
  : result (option ValidationRun.t) :=
  run ←
    (match redisValidator v with
     | Some redis =>
         if negb useExec && SpawnerSupportsModule redis moduleRoot then
           input ← validationEntry.ToInput rangeOrder entry
                     (ExecutionSpawner.StylusArchs redis);
           Ok (ExecutionSpawner.Launch redis input moduleRoot)
         else Ok None
     | None => Ok None
     end);
  match run with
  | Some run => Ok (Some run)
  | None => launchOnSpawners (execSpawners v) entry moduleRoot
  end.

(** The deferred [run.Cancel()] has no part in the returned triple. *)
Definition ValidateResult (v : t) (pos : MessageIndex) (useExec : bool)
    (moduleRoot : Hash)
  : bool * option GoGlobalState.t * option error :=
  match CreateReadyValidationEntry v pos with
  | Err err => (false, None, Some err)
  | Ok entry =>
      match launchRun v entry useExec moduleRoot with
      | Err err => (false, None, Some err)
      | Ok None => (false, None, Some (ErrModuleRootNotSupported moduleRoot))
      | Ok (Some run) =>
          let '(gsEnd, err) := ValidationRun.Await run in
          if bool_decide (err ≠ None)
             || bool_decide (gsEnd ≠ validationEntry.End entry)
          then (false, Some gsEnd, err)
          else (true, Some (validationEntry.End entry), None)
      end
  end.

(** [server_api.InputJSON] and [server_api.ValidationInputToJson] belong to
    another package: the transport form is a type of its own and the
    conversion a function into it. *)
Variable InputJSON : Type.
Variable ValidationInputToJson : ValidationInput.t -> InputJSON.

Definition ValidationInputsAt (v : t) (pos : MessageIndex)
    (targets : list WasmTarget) : result InputJSON :=
  entry ← CreateReadyValidationEntry v pos;
  input ← validationEntry.ToInput rangeOrder entry targets;
  Ok (ValidationInputToJson input).

End Externals.

Definition ExecutionSpawners (v : t) : list ExecutionSpawner.t :=
  execSpawners v.

Definition OverrideRecorder (v : t) (recorder' : ExecutionRecorder.t) : t :=
  mk (execSpawners v) (redisValidator v) recorder' (inboxReader v)
     (inboxTracker v) (streamer v) (dapReaders v) (latestWasmModuleRoot v).

Definition GetLatestWasmModuleRoot (v : t) : Hash :=
  latestWasmModuleRoot v.

(** The error [Start] returns: the Redis client's error wrapped with the
    prefix "starting execution spawner: ", or a spawner's error as it
    is. *)
Inductive startError :=
| ErrStartingRedis (cause : error)
| ErrStartingSpawner (err : error).

Definition startError_Error (e : startError) : string :=
  match e with
  | ErrStartingRedis cause => "starting execution spawner: " +:+ Error cause
  | ErrStartingSpawner err => Error err
  end.

Section Lifecycle.
(** [Start(ctx)] of a backend is a call into another package; [startOf] is
    the error it returns, if any. [Start] and [Stop] of the validator are
    described by the list of backends they call, in the order of the
    calls. *)
Variable startOf : ExecutionSpawner.t -> option error.

(** The loop of [Start] over the execution spawners, which returns at the
    first error. *)
Fixpoint startSpawners (spawners : list ExecutionSpawner.t)
  : list ExecutionSpawner.t * option error :=
  match spawners with
  | [] => ([], None)
  | spawner :: rest =>
      match startOf spawner with
      | Some err => ([spawner], Some err)
      | None =>
          let '(started, err) := startSpawners rest in
          (spawner :: started, err)
      end
  end.

Definition Start (v : t) : list ExecutionSpawner.t * option startError :=
  match redisValidator v with
  | Some redis =>
      match startOf redis with
      | Some err => ([redis], Some (ErrStartingRedis err))
      | None =>
          let '(started, err) := startSpawners (execSpawners v) in
          (redis :: started, ErrStartingSpawner <$> err)
      end
  | None =>
      let '(started, err) := startSpawners (execSpawners v) in
      (started, ErrStartingSpawner <$> err)
  end.
End Lifecycle.

(** The backends [Stop] stops, in the order of the calls. *)
Definition Stop (v : t) : list ExecutionSpawner.t :=
  execSpawners v
  ++ match redisValidator v with
     | Some redis => [redis]
     | None => []
     end.

End StatelessBlockValidator.

(** A slot of [dapReaders] that the loop of [readFullBatch] passes over for
    the header byte [headerByte]: a nil reader, or one that does not
    recognise the byte. *)
Definition readerDeclines (headerByte : Byte.byte) (reader : option DAReader.t)
  : Prop :=
  match reader with
  | Some dapReader => DAReader.IsValidHeaderByte dapReader headerByte = false
  | None => True
  end.

(** The last lines of [ValidateResult], for a run that was launched: the
    awaited global state compared with the entry's end state. *)
Definition runOutcome (run : ValidationRun.t) (entry : validationEntry.t)
  : bool * option GoGlobalState.t * option error :=
  let '(gsEnd, err) := ValidationRun.Await run in
  if bool_decide (err ≠ None)
     || bool_decide (gsEnd ≠ validationEntry.End entry)
  then (false, Some gsEnd, err)
  else (true, Some (validationEntry.End entry), None).

(** ** Stand-ins for the collaborators *)

Module Examples.

(** The batch, if any, whose message range contains [pos], searching the
    cumulative message counts from batch number [batch] on. *)
Fixpoint findBatch (counts : list MessageIndex) (batch : uint64)
    (pos : MessageIndex) : option uint64 :=
  match counts with
  | [] => None
  | c :: rest => if pos <? c then Some batch else findBatch rest (batch + 1) pos
  end.

(** An inbox tracker backed by the list of cumulative message counts of its
    batches. *)
Definition listTracker (counts : list MessageIndex) (delayed : list bytes)
  : InboxTrackerInterface.t :=
  InboxTrackerInterface.mk
    (fun n => match delayed !! Z.to_nat n with
              | Some d => Ok d
              | None => Err (ErrExternal "delayed message not found")
              end)
    (fun b => match counts !! Z.to_nat b with
              | Some c => Ok c
              | None => Err (ErrExternal "batch metadata not found")
              end)
    (fun _ => Ok 0%N)
    (Ok (Z.of_nat (length counts)))
    (fun pos => match findBatch counts 0 pos with
                | Some b => Ok (b, true)
                | None => Ok (0, false)
                end).

(** A tracker every lookup of which fails. *)
Definition failingTracker : InboxTrackerInterface.t :=
  InboxTrackerInterface.mk
    (fun _ => Err (ErrExternal "unavailable"))
    (fun _ => Err (ErrExternal "unavailable"))
    (fun _ => Err (ErrExternal "unavailable"))
    (Err (ErrExternal "unavailable"))
    (fun _ => Err (ErrExternal "unavailable")).

(** Block hash and send root the sample streamer stores for a message. *)
Definition blockHashAt (pos : MessageIndex) : Hash := (Z.to_N pos + 160)%N.

Definition sampleMessage (delayedMessagesRead : uint64) : MessageWithMetadata.t :=
  MessageWithMetadata.mk [] (Ok []) delayedMessagesRead.

(** A streamer in which no message reads a delayed message. *)
Definition sampleStreamer : TransactionStreamerInterface.t :=
  TransactionStreamerInterface.mk
    (Ok 5)
    (fun _ => Ok (sampleMessage 0))
    (fun pos => Ok (MessageResult.mk (blockHashAt pos) 7%N))
    (ChainConfig.mk false).

Definition sampleReader : InboxReaderInterface.t :=
  InboxReaderInterface.mk (fun _ => Ok ([], 9%N)) (Ok 5).

(** A recorder whose re-execution arrives at the block hash [blockHash pos]
    and records neither preimages nor user wasms. *)
Definition recorderWith (blockHash : MessageIndex -> Hash) : ExecutionRecorder.t :=
  ExecutionRecorder.mk
    (fun pos _ => Ok (RecordResult.mk pos (blockHash pos) None ∅)).

(** A spawner for the module roots [roots] whose runs end in [gsEnd]. *)
Definition spawnerWith (roots : list Hash) (gsEnd : GoGlobalState.t)
  : ExecutionSpawner.t :=
  ExecutionSpawner.mk ["wavm"]
    (fun root => bool_decide (root ∈ roots))
    (fun _ _ => Some (ValidationRun.mk (gsEnd, None))).

(** Batches 0 and 1 hold messages 0..2 and 3..4. *)
Definition sampleValidator (spawners : list ExecutionSpawner.t)
    (redis : option ExecutionSpawner.t) : StatelessBlockValidator.t :=
  StatelessBlockValidator.mk spawners redis (recorderWith blockHashAt)
    sampleReader (listTracker [3; 5] []) sampleStreamer [] 1%N.

(** The post-state of message 2 in the sample validator's view. *)
Definition sampleEnd : GoGlobalState.t :=
  GoGlobalState.mk (blockHashAt 2) 7%N 1 0.

(** An entry as the constructor leaves it, for message [pos] with the
    post-state block hash [endHash]. *)
Definition sampleEntry (stage : ValidationEntryStage) (pos : MessageIndex)
    (endHash : Hash) : validationEntry.t :=
  validationEntry.mk stage pos
    (GoGlobalState.mk 1%N 7%N 0 1) (GoGlobalState.mk endHash 7%N 0 2)
    false 0 (ChainConfig.mk false) (Some (sampleMessage 0))
    [BatchInfo.mk 0 []] ∅ ∅ [].

(** A global state no honest run of message 2 ends in. *)
Definition otherEnd : GoGlobalState.t :=
  GoGlobalState.mk 4660%N 7%N 1 0.

(** Values for the names of other packages; [range] visits a map in the
    order of its list of entries. *)
Definition sampleErrSeqMsgValidation : error :=
  ErrExternal "error validating recovered payload from batch".

Definition sampleIsDASMessageHeaderByte (b : Byte.byte) : bool :=
  Byte.eqb b Byte.x80.

Definition sampleKeccak256PreimageType : PreimageType := 0.

Definition sampleRangeOrder (m : gmap N (gmap string bytes))
  : list (Hash * gmap string bytes) :=
  map_to_list m.

(** A Ready entry that recorded, for the code hash 17, code for the targets
    wavm and arm64. *)
Definition wasmEntry : validationEntry.t :=
  validationEntry.set_UserWasms
    {[ 17%N := {[ "wavm" := [Byte.x00]; "arm64" := [Byte.x01] ]} ]}
    (sampleEntry Ready 2 187%N).

(** Another [range] order: the entries of the map, last to first. *)
Definition reverseRangeOrder (m : gmap N (gmap string bytes))
  : list (Hash * gmap string bytes) :=
  reverse (map_to_list m).

(** A Ready entry with two code hashes, each with code for wavm; only the
    first has code for arm64. *)
Definition twoWasmsEntry : validationEntry.t :=
  validationEntry.set_UserWasms
    {[ 17%N := {[ "wavm" := [Byte.x00]; "arm64" := [Byte.x01] ]};
       18%N := {[ "wavm" := [Byte.x02] ]} ]}
    (sampleEntry Ready 2 187%N).

(** A recorder that also records a preimage and a user wasm. *)
Definition richRecorder : ExecutionRecorder.t :=
  ExecutionRecorder.mk
    (fun pos _ =>
       Ok (RecordResult.mk pos (blockHashAt pos)
             (Some {[ 5%N := [Byte.x01] ]})
             {[ 17%N := {[ "wavm" := [Byte.x00] ]} ]})).

(** The sample validator with [richRecorder] and a tracker that holds the
    delayed messages [delayed]. *)
Definition recordingValidator (delayed : list bytes) : StatelessBlockValidator.t :=
  StatelessBlockValidator.mk [] None richRecorder sampleReader
    (listTracker [3; 5] delayed) sampleStreamer [] 1%N.

(** An entry for message 2 that consumes delayed message 0. *)
Definition delayedEntry : validationEntry.t :=
  validationEntry.mk ReadyForRecord 2
    (GoGlobalState.mk 1%N 7%N 0 1) (GoGlobalState.mk (blockHashAt 2) 7%N 0 2)
    true 0 (ChainConfig.mk false) (Some (sampleMessage 1))
    [BatchInfo.mk 0 []] ∅ ∅ [].

(** A data-availability reader that recognises the header bytes [accepts]
    says it does and answers every recovery with [recovered]. *)
Definition daReader (accepts : Byte.byte -> bool)
    (recovered : PreimagesMap * result (bytes * PreimagesMap)) : DAReader.t :=
  DAReader.mk accepts (fun _ _ _ _ _ => recovered).

(** Posted batch data of 41 bytes whose header byte is 0x80. *)
Definition dasBatchData : bytes := repeat Byte.x00 40 ++ [Byte.x80].

(** The sample validator reading [dasBatchData] for every batch, with the
    data-availability readers [readers]. *)
Definition daValidator (readers : list (option DAReader.t))
  : StatelessBlockValidator.t :=
  StatelessBlockValidator.mk [] None (recorderWith blockHashAt)
    (InboxReaderInterface.mk (fun _ => Ok (dasBatchData, 9%N)) (Ok 5))
    (listTracker [3; 5] []) sampleStreamer readers 1%N.

(** A spawner for the module roots [roots] whose launch returns no run. *)
Definition silentSpawner (roots : list Hash) : ExecutionSpawner.t :=
  ExecutionSpawner.mk ["wavm"]
    (fun root => bool_decide (root ∈ roots))
    (fun _ _ => None).

(** The Ready entry the sample validator builds for message 2. *)
Definition readyEntry2 : validationEntry.t :=
  validationEntry.mk Ready 2
    (GoGlobalState.mk (blockHashAt 1) 7%N 0 2) sampleEnd
    false 0 (ChainConfig.mk false) None [BatchInfo.mk 0 []] ∅ ∅ [].

(** Backends for module root 9 fail to start; all others start. *)
Definition failsOnRoot9 (spawner : ExecutionSpawner.t) : option error :=
  if ExecutionSpawner.SupportsModule spawner 9%N
  then Some (ErrExternal "dial failed")
  else None.

(** The sample validator with a streamer whose messages refer to the past
    batch 1. *)
Definition reportValidator : StatelessBlockValidator.t :=
  StatelessBlockValidator.mk [] None (recorderWith blockHashAt) sampleReader
    (listTracker [3; 5] [])
    (TransactionStreamerInterface.mk (Ok 5)
       (fun _ => Ok (MessageWithMetadata.mk [] (Ok [1]) 0))
       (fun pos => Ok (MessageResult.mk (blockHashAt pos) 7%N))
       (ChainConfig.mk false))
    [] 1%N.

End Examples.

(** * Properties *)

(** ** Arithmetic on machine integers *)

Lemma wrap64_u64 z : u64 z -> wrap64 z = z.
Proof. unfold u64, wrap64. intros H. apply Z.mod_small. lia. Qed.

Lemma wrap64_succ_ne z : u64 z -> wrap64 (z + 1) <> z.
Proof.
  unfold u64, wrap64. intros H.
  destruct (Z.eq_dec z (2 ^ 64 - 1)) as [-> | Hne].
  - vm_compute. discriminate.
  - rewrite Z.mod_small; lia.
Qed.

Lemma result_bind_Ok {A B} (r : result A) (k : A -> result B) a :
  r = Ok a -> (r ≫= k) = k a.
Proof. intros ->. reflexivity. Qed.

(** ** Position algebra *)

(** The lookup of [firstInBatch], as the function performs it. *)
Lemma firstInBatch_lookup tracker batch firstInBatch :
  u64 batch ->
  (batch = 0 -> firstInBatch = 0) ->
  (0 < batch -> GetBatchMessageCount tracker (batch - 1) = Ok firstInBatch) ->
  (if 0 <? batch then GetBatchMessageCount tracker (wrap64 (batch - 1))
   else Ok 0) = Ok firstInBatch.
Proof.
  intros Hb H0 Hpos. destruct (Z.ltb_spec 0 batch) as [Hlt | Hge].
  - rewrite wrap64_u64 by (unfold u64 in *; lia). auto.
  - f_equal. symmetry. apply H0. unfold u64 in Hb. lia.
Qed.

(** C1. When both message-count lookups succeed, the batch covers [count]
    ([msgCountInBatch >= count]) and starts before it
    ([firstInBatch < count], with [firstInBatch = 0] for batch 0), the
    function returns [start = (batch, count - firstInBatch - 1)] and
    [end = (batch+1, 0)] if [msgCountInBatch = count], else
    [end = (batch, posInBatch + 1)]; the end position is the rollover
    position exactly when [count] is the batch's message count. The sum
    [batch+1] is the [uint64] sum, which is [batch + 1] for every batch
    number below the largest. *)
Theorem GlobalStatePositionsAtCount_positions
    tracker count batch msgCountInBatch firstInBatch :
  u64 count -> u64 batch -> u64 firstInBatch ->
  GetBatchMessageCount tracker batch = Ok msgCountInBatch ->
  (batch = 0 -> firstInBatch = 0) ->
  (0 < batch -> GetBatchMessageCount tracker (batch - 1) = Ok firstInBatch) ->
  count <= msgCountInBatch ->
  firstInBatch < count ->
  let posInBatch := count - firstInBatch - 1 in
  exists start end_,
    GlobalStatePositionsAtCount tracker count batch = Ok (start, end_)
    /\ start = GlobalStatePosition.mk batch posInBatch
    /\ (msgCountInBatch = count ->
        end_ = GlobalStatePosition.mk (wrap64 (batch + 1)) 0)
    /\ (msgCountInBatch <> count ->
        end_ = GlobalStatePosition.mk batch (posInBatch + 1))
    /\ (end_ = GlobalStatePosition.mk (wrap64 (batch + 1)) 0
        <-> msgCountInBatch = count)
    /\ (batch < MaxUint64 -> wrap64 (batch + 1) = batch + 1).
Proof.
  intros Hc Hb Hf Hm H0 Hpos Hcover Hfirst posInBatch.
  unfold GlobalStatePositionsAtCount.
  rewrite (result_bind_Ok _ _ _ Hm).
  rewrite (result_bind_Ok _ _ _ (firstInBatch_lookup _ _ _ Hb H0 Hpos)).
  assert (Hp : wrap64 (wrap64 (count - firstInBatch) - 1) = posInBatch).
  { unfold u64 in *. subst posInBatch.
    rewrite (wrap64_u64 (count - firstInBatch)) by (unfold u64; lia).
    apply wrap64_u64. unfold u64. lia. }
  assert (Hp1 : wrap64 (posInBatch + 1) = posInBatch + 1).
  { apply wrap64_u64. unfold u64 in *. subst posInBatch. lia. }
  destruct (Z.ltb_spec msgCountInBatch count) as [? | _]; [lia |].
  destruct (Z.leb_spec count firstInBatch) as [? | _]; [lia |].
  rewrite Hp, Hp1.
  destruct (Z.eqb_spec msgCountInBatch count) as [Heq | Hne].
  - eexists _, _. split; [reflexivity |].
    repeat split; try tauto; try congruence.
    intros Hlt. apply wrap64_u64. unfold u64, MaxUint64 in *. lia.
  - eexists _, _. split; [reflexivity |].
    repeat split; try tauto; try congruence.
    + intros Heq. exfalso. injection Heq as Hbatch _.
      symmetry in Hbatch. revert Hbatch. now apply wrap64_succ_ne.
    + intros Hlt. apply wrap64_u64. unfold u64, MaxUint64 in *. lia.
Qed.

Lemma GlobalStatePositionsAtCount_positions_witness :
  exists start end_,
    GlobalStatePositionsAtCount (Examples.listTracker [3; 5] []) 3 0
      = Ok (start, end_)
    /\ start = GlobalStatePosition.mk 0 2
    /\ end_ = GlobalStatePosition.mk 1 0.
Proof.
  destruct (GlobalStatePositionsAtCount_positions
              (Examples.listTracker [3; 5] []) 3 0 3 0)
    as (start & end_ & Hrun & Hstart & Hlast & _);
    try (unfold u64; lia); try reflexivity.
  exists start, end_. split; [exact Hrun |]. split; [exact Hstart |].
  apply Hlast. reflexivity.
Defined.

(** C9. The function returns an error exactly when a message-count lookup
    fails (that of [batch], or that of [batch-1] when [batch > 0]), or
    [msgCountInBatch < count], or [firstInBatch >= count], where
    [firstInBatch] is 0 for batch 0 and the message count of [batch-1]
    otherwise. *)
Theorem GlobalStatePositionsAtCount_fails_iff tracker count batch :
  u64 batch ->
  is_Err (GlobalStatePositionsAtCount tracker count batch)
  <-> (is_Err (GetBatchMessageCount tracker batch)
       \/ (0 < batch /\ is_Err (GetBatchMessageCount tracker (batch - 1)))
       \/ exists msgCountInBatch firstInBatch,
            GetBatchMessageCount tracker batch = Ok msgCountInBatch
            /\ (batch = 0 -> firstInBatch = 0)
            /\ (0 < batch ->
                GetBatchMessageCount tracker (batch - 1) = Ok firstInBatch)
            /\ (msgCountInBatch < count \/ firstInBatch >= count)).
Proof.
  intros Hb. unfold GlobalStatePositionsAtCount.
  destruct (GetBatchMessageCount tracker batch) as [m | e] eqn:Hm; simpl.
  2: { split; [intros _; left; eexists; reflexivity | intros _; eexists; reflexivity]. }
  destruct (Z.ltb_spec 0 batch) as [Hlt | Hge].
  - rewrite (wrap64_u64 (batch - 1)) by (unfold u64 in *; lia).
    destruct (GetBatchMessageCount tracker (batch - 1)) as [f | e] eqn:Hf; simpl.
    2: { split; [intros _; right; left; split; [lia | eexists; reflexivity]
                | intros _; eexists; reflexivity]. }
    destruct (Z.ltb_spec m count) as [Hmc | Hmc].
    { split; [| intros _; eexists; reflexivity].
      intros _. right. right. exists m, f. repeat split; auto; lia. }
    destruct (Z.leb_spec count f) as [Hcf | Hcf].
    { split; [| intros _; eexists; reflexivity].
      intros _. right. right. exists m, f. repeat split; auto; lia. }
    split.
    + intros [e He]. destruct (m =? count); discriminate.
    + intros [[e He] | [[_ [e He]] | (m' & f' & Hm' & _ & Hf' & Hbad)]];
        try discriminate.
      specialize (Hf' Hlt). simplify_eq. lia.
  - assert (batch = 0) as -> by (unfold u64 in Hb; lia). simpl.
    destruct (Z.ltb_spec m count) as [Hmc | Hmc].
    { split; [| intros _; eexists; reflexivity].
      intros _. right. right. exists m, 0. repeat split; auto; lia. }
    destruct (Z.leb_spec count 0) as [Hcf | Hcf].
    { split; [| intros _; eexists; reflexivity].
      intros _. right. right. exists m, 0. repeat split; auto; lia. }
    split.
    + intros [e He]. destruct (m =? count); discriminate.
    + intros [[e He] | [[? _] | (m' & f' & Hm' & Hf' & _ & Hbad)]];
        try discriminate; try lia.
      specialize (Hf' eq_refl). simplify_eq. lia.
Qed.

Lemma GlobalStatePositionsAtCount_fails_iff_witness :
  is_Err (GlobalStatePositionsAtCount (Examples.listTracker [3; 5] []) 6 1)
  /\ ~ is_Err (GlobalStatePositionsAtCount (Examples.listTracker [3; 5] []) 4 1).
Proof.
  split.
  - apply (GlobalStatePositionsAtCount_fails_iff
             (Examples.listTracker [3; 5] []) 6 1); [unfold u64; lia |].
    right. right. exists 5, 3. repeat split; try reflexivity; lia.
  - intros Herr.
    apply (GlobalStatePositionsAtCount_fails_iff
             (Examples.listTracker [3; 5] []) 4 1) in Herr; [| unfold u64; lia].
    destruct Herr as [[e He] | [[_ [e He]] | (m & f & Hm & _ & Hf & Hbad)]];
      try discriminate.
    specialize (Hf ltac:(lia)). vm_compute in Hm, Hf. simplify_eq. lia.
Defined.

Import StatelessBlockValidator (inboxTracker).

(** C3. The validator's position operation fails on 0 with the
    "no initial state" error and returns [((0,0), (1,0))] on 1, whatever
    the tracker holds. *)
Theorem positions_boundary (v : StatelessBlockValidator.t) :
  StatelessBlockValidator.GlobalStatePositionsAtCount v 0 = Err ErrNoInitialState
  /\ String.prefix "no initial state" (Error ErrNoInitialState) = true
  /\ StatelessBlockValidator.GlobalStatePositionsAtCount v 1
     = Ok (GlobalStatePosition.mk 0 0, GlobalStatePosition.mk 1 0).
Proof. repeat split. Qed.

(** C10. On count 1 the validator's position operation consults no
    collaborator: any two validators, whatever their trackers, return the
    same error-free result [((0,0), (1,0))] -- also a validator whose
    tracker fails every lookup, and one whose tracker has no batch. *)
Theorem positions_count_one_ignores_tracker
    (v1 v2 : StatelessBlockValidator.t) :
  StatelessBlockValidator.GlobalStatePositionsAtCount v1 1
  = StatelessBlockValidator.GlobalStatePositionsAtCount v2 1
  /\ StatelessBlockValidator.GlobalStatePositionsAtCount v1 1
     = Ok (GlobalStatePosition.mk 0 0, GlobalStatePosition.mk 1 0)
  /\ (forall spawners redis recorder reader streamer readers root,
        StatelessBlockValidator.GlobalStatePositionsAtCount
          (StatelessBlockValidator.mk spawners redis recorder reader
             Examples.failingTracker streamer readers root) 1
        = Ok (GlobalStatePosition.mk 0 0, GlobalStatePosition.mk 1 0))
  /\ (forall spawners redis recorder reader streamer readers root,
        StatelessBlockValidator.GlobalStatePositionsAtCount
          (StatelessBlockValidator.mk spawners redis recorder reader
             (Examples.listTracker [] []) streamer readers root) 1
        = Ok (GlobalStatePosition.mk 0 0, GlobalStatePosition.mk 1 0)).
Proof. repeat split. Qed.

(** C2, as the claim states it, fails: for count 2 over batches of 3 and 5
    messages the validator's operation yields [((0,1), (0,2))], while the
    package function at count 3 in batch 0 yields [((0,2), (1,0))]. *)
Lemma positions_roundtrip_succ_counterexample :
  ~ (forall (v : StatelessBlockValidator.t) pos start end_,
       2 <= pos -> u64 pos ->
       StatelessBlockValidator.GlobalStatePositionsAtCount v pos
         = Ok (start, end_) ->
       GlobalStatePositionsAtCount (inboxTracker v) (wrap64 (pos + 1))
         (GlobalStatePosition.BatchNumber start)
         = Ok (start, end_)).
Proof.
  intros H.
  specialize (H (Examples.sampleValidator [] None) 2
                (GlobalStatePosition.mk 0 1) (GlobalStatePosition.mk 0 2)).
  assert (Hr : 2 <= 2) by lia.
  assert (Hu : u64 2) by (unfold u64; lia).
  specialize (H Hr Hu eq_refl). vm_compute in H. discriminate H.
Qed.

(** C2, amended. For every count of at least 2 whose message [count-1] the
    tracker finds in a batch, the validator's operation is the package
    function called with that batch and with the same count (not
    [count+1]); so when it succeeds, calling the package function with
    the same count and the batch of the returned start position returns
    the same pair. *)
Theorem positions_roundtrip (v : StatelessBlockValidator.t) count batch :
  2 <= count -> u64 count ->
  FindInboxBatchContainingMessage (inboxTracker v) (count - 1) = Ok (batch, true) ->
  StatelessBlockValidator.GlobalStatePositionsAtCount v count
  = GlobalStatePositionsAtCount (inboxTracker v) count batch
  /\ forall start end_,
       StatelessBlockValidator.GlobalStatePositionsAtCount v count
         = Ok (start, end_) ->
       GlobalStatePosition.BatchNumber start = batch
       /\ GlobalStatePositionsAtCount (inboxTracker v) count
            (GlobalStatePosition.BatchNumber start)
          = Ok (start, end_).
Proof.
  intros Hge Hu Hfind.
  assert (Heq : StatelessBlockValidator.GlobalStatePositionsAtCount v count
                = GlobalStatePositionsAtCount (inboxTracker v) count batch).
  { unfold StatelessBlockValidator.GlobalStatePositionsAtCount.
    destruct (Z.eqb_spec count 0) as [? | _]; [lia |].
    destruct (Z.eqb_spec count 1) as [? | _]; [lia |].
    rewrite (wrap64_u64 (count - 1)) by (unfold u64 in *; lia).
    rewrite Hfind. reflexivity. }
  split; [exact Heq |].
  intros start end_ Hrun. rewrite Heq in Hrun.
  assert (Hb : GlobalStatePosition.BatchNumber start = batch).
  { unfold GlobalStatePositionsAtCount in Hrun.
    destruct (GetBatchMessageCount (inboxTracker v) batch); [| discriminate].
    simpl in Hrun.
    destruct (if 0 <? batch then _ else _); [| discriminate].
    simpl in Hrun.
    repeat match type of Hrun with
           | (if ?c then _ else _) = _ => destruct c
           end; simplify_eq; reflexivity. }
  split; [exact Hb |]. rewrite Hb. exact Hrun.
Qed.

Lemma positions_roundtrip_witness :
  StatelessBlockValidator.GlobalStatePositionsAtCount
    (Examples.sampleValidator [] None) 3
  = GlobalStatePositionsAtCount (Examples.listTracker [3; 5] []) 3 0.
Proof.
  apply (positions_roundtrip (Examples.sampleValidator [] None) 3 0);
    [lia | unfold u64; lia | reflexivity].
Defined.

(** ** Construction of validation entries *)

(** C6. Once the batch checks have passed, the constructor sets
    [HasDelayedMsg = true] and [DelayedMsgNr = prevDelayed] exactly when
    [msg.DelayedMessagesRead == prevDelayed + 1] (the [uint64] sum, which
    is [prevDelayed + 1] below the largest value); when
    [msg.DelayedMessagesRead == prevDelayed] it sets
    [HasDelayedMsg = false]; for every other value it fails with the
    "illegal validation entry delayedMessage" error. *)
Theorem newValidationEntry_delayed
    pos start end_ msg fullBatchInfo prevBatches prevDelayed chainConfig :
  u64 prevDelayed ->
  FullBatchInfo.Number fullBatchInfo = GoGlobalState.Batch start ->
  let read := MessageWithMetadata.DelayedMessagesRead msg in
  let built :=
    newValidationEntry pos start end_ msg (Some fullBatchInfo) prevBatches
      prevDelayed chainConfig in
  (read = wrap64 (prevDelayed + 1) ->
   exists e, built = Ok e
             /\ validationEntry.HasDelayedMsg e = true
             /\ validationEntry.DelayedMsgNr e = prevDelayed)
  /\ (read = prevDelayed ->
      exists e, built = Ok e /\ validationEntry.HasDelayedMsg e = false)
  /\ (read <> wrap64 (prevDelayed + 1) -> read <> prevDelayed ->
      built = Err (ErrIllegalDelayedMessage read prevDelayed))
  /\ (forall e, built = Ok e ->
      (validationEntry.HasDelayedMsg e = true
       <-> read = wrap64 (prevDelayed + 1)))
  /\ String.prefix "illegal validation entry delayedMessage"
       (Error (ErrIllegalDelayedMessage read prevDelayed)) = true
  /\ (prevDelayed < MaxUint64 -> wrap64 (prevDelayed + 1) = prevDelayed + 1).
Proof.
  intros Hu Hnum read built. subst built. unfold newValidationEntry.
  fold read. rewrite Hnum, Z.eqb_refl. simpl negb. cbv iota.
  pose proof (wrap64_succ_ne _ Hu) as Hsucc.
  repeat split.
  - intros ->. rewrite Z.eqb_refl. eexists. repeat split.
  - intros ->.
    destruct (Z.eqb_spec prevDelayed (wrap64 (prevDelayed + 1))) as [Heq | _];
      [congruence |].
    rewrite Z.eqb_refl. eexists. repeat split.
  - intros H1 H2.
    destruct (Z.eqb_spec read (wrap64 (prevDelayed + 1))); [contradiction |].
    destruct (Z.eqb_spec read prevDelayed); [contradiction |]. reflexivity.
  - destruct (Z.eqb_spec read (wrap64 (prevDelayed + 1))) as [Heq | Hne];
      [intros _; exact Heq |].
    destruct (Z.eqb_spec read prevDelayed); simpl in *; intros; simplify_eq.
  - destruct (Z.eqb_spec read (wrap64 (prevDelayed + 1))) as [Heq | Hne];
      [intros _; simplify_eq; reflexivity | contradiction].
  - intros Hlt. apply wrap64_u64. unfold u64, MaxUint64 in *. lia.
Qed.

Lemma newValidationEntry_delayed_witness :
  newValidationEntry 5 GoGlobalState.zero GoGlobalState.zero
    (Examples.sampleMessage 6) (Some (FullBatchInfo.mk 0 [] 9 ∅)) [] 4
    (ChainConfig.mk false)
  = Err (ErrIllegalDelayedMessage 6 4).
Proof.
  destruct (newValidationEntry_delayed 5 GoGlobalState.zero GoGlobalState.zero
              (Examples.sampleMessage 6) (FullBatchInfo.mk 0 [] 9 ∅) [] 4
              (ChainConfig.mk false))
    as (_ & _ & Hillegal & _); [unfold u64; lia | reflexivity |].
  apply Hillegal; vm_compute; discriminate.
Defined.

(** C8. The constructor fails when [fullBatchInfo] is nil and when
    [fullBatchInfo.Number != start.Batch]; an entry it returns has stage
    ReadyForRecord and a batch list that starts with
    [(fullBatchInfo.Number, fullBatchInfo.PostedData)] -- whose number is
    [start.Batch] -- followed by [prevBatches] in their order. *)
Theorem newValidationEntry_batches
    pos start end_ msg prevBatches prevDelayed chainConfig :
  newValidationEntry pos start end_ msg None prevBatches prevDelayed chainConfig
  = Err ErrFullBatchInfoNil
  /\ (forall fullBatchInfo,
        FullBatchInfo.Number fullBatchInfo <> GoGlobalState.Batch start ->
        newValidationEntry pos start end_ msg (Some fullBatchInfo) prevBatches
          prevDelayed chainConfig
        = Err (ErrWrongBatch (GoGlobalState.Batch start)
                 (FullBatchInfo.Number fullBatchInfo)))
  /\ (forall fullBatchInfo e,
        newValidationEntry pos start end_ msg fullBatchInfo prevBatches
          prevDelayed chainConfig = Ok e ->
        exists info,
          fullBatchInfo = Some info
          /\ validationEntry.Stage e = ReadyForRecord
          /\ validationEntry.BatchInfo e
             = BatchInfo.mk (FullBatchInfo.Number info)
                 (FullBatchInfo.PostedData info) :: prevBatches
          /\ BatchInfo.Number <$> head (validationEntry.BatchInfo e)
             = Some (GoGlobalState.Batch start)).
Proof.
  split; [reflexivity |]. split.
  - intros info Hne. unfold newValidationEntry.
    destruct (Z.eqb_spec (FullBatchInfo.Number info) (GoGlobalState.Batch start));
      [contradiction | reflexivity].
  - intros [info |] e Hbuilt; [| discriminate]. exists info.
    unfold newValidationEntry in Hbuilt.
    destruct (Z.eqb_spec (FullBatchInfo.Number info) (GoGlobalState.Batch start))
      as [Hnum | _]; [| discriminate].
    simpl in Hbuilt.
    destruct (_ =? wrap64 _).
    + simplify_eq. simpl. rewrite Hnum. repeat split.
    + destruct (_ =? prevDelayed); simpl in Hbuilt; simplify_eq.
      simpl. rewrite Hnum. repeat split.
Qed.

Lemma newValidationEntry_batches_witness :
  exists e,
    newValidationEntry 2 (GoGlobalState.mk 1%N 7%N 0 2) Examples.sampleEnd
      (Examples.sampleMessage 0) (Some (FullBatchInfo.mk 0 [] 3 ∅))
      [BatchInfo.mk 4 []] 0 (ChainConfig.mk false) = Ok e
    /\ validationEntry.Stage e = ReadyForRecord
    /\ validationEntry.BatchInfo e = [BatchInfo.mk 0 []; BatchInfo.mk 4 []].
Proof.
  eexists. split; [reflexivity |].
  destruct (newValidationEntry_batches 2 (GoGlobalState.mk 1%N 7%N 0 2)
              Examples.sampleEnd (Examples.sampleMessage 0)
              [BatchInfo.mk 4 []] 0 (ChainConfig.mk false))
    as (_ & _ & Hok).
  destruct (Hok (Some (FullBatchInfo.mk 0 [] 3 ∅)) _ eq_refl)
    as (info & Hinfo & Hstage & Hbatches & _).
  simplify_eq. split; [exact Hstage | exact Hbatches].
Defined.

(** ** Recording and dispatch *)

Section Recording.
Variable Keccak256PreimageType : PreimageType.

Local Abbreviation ValidationEntryRecord :=
  (StatelessBlockValidator.ValidationEntryRecord Keccak256PreimageType).

(** C4. Recording an entry whose stage is not ReadyForRecord fails. For an
    entry in that stage with [Pos != 0], a recorder block hash other than
    [End.BlockHash] makes the call return the hash-mismatch error and leave
    the entry as it was: stage, message, preimages, user wasms and delayed
    message are untouched, so the entry is not Ready. When the call returns
    no error, the stage is Ready and the message reference is nil; and it
    does return no error once the recorder's block hash agrees (or [Pos] is
    0) and the delayed message, if the entry has one, can be read. *)
Theorem ValidationEntryRecord_stages
    (v : StatelessBlockValidator.t) (e : validationEntry.t) :
  (validationEntry.Stage e <> ReadyForRecord ->
   ValidationEntryRecord v e
   = (e, Some (ErrNotReadyForRecord (validationEntry.Stage e))))
  /\ (forall recording,
        validationEntry.Stage e = ReadyForRecord ->
        validationEntry.Pos e <> 0 ->
        ExecutionRecorder.RecordBlockCreation
          (StatelessBlockValidator.recorder v)
          (validationEntry.Pos e) (validationEntry.msg e) = Ok recording ->
        RecordResult.BlockHash recording
          <> GoGlobalState.BlockHash (validationEntry.End e) ->
        let mismatch :=
          ErrRecordingFailed (validationEntry.Pos e)
            (GoGlobalState.BlockHash (validationEntry.End e))
            (RecordResult.BlockHash recording) in
        ValidationEntryRecord v e = (e, Some mismatch)
        /\ validationEntry.Stage (fst (ValidationEntryRecord v e)) <> Ready
        /\ String.prefix "recording failed" (Error mismatch) = true)
  /\ (forall e',
        ValidationEntryRecord v e = (e', None) ->
        validationEntry.Stage e = ReadyForRecord
        /\ validationEntry.Stage e' = Ready
        /\ validationEntry.msg e' = None)
  /\ (validationEntry.Stage e = ReadyForRecord ->
      (validationEntry.Pos e = 0
       \/ exists recording,
            ExecutionRecorder.RecordBlockCreation
              (StatelessBlockValidator.recorder v)
              (validationEntry.Pos e) (validationEntry.msg e) = Ok recording
            /\ RecordResult.BlockHash recording
               = GoGlobalState.BlockHash (validationEntry.End e)) ->
      (validationEntry.HasDelayedMsg e = true ->
       exists delayedMsg,
         GetDelayedMessageBytes (inboxTracker v) (validationEntry.DelayedMsgNr e)
         = Ok delayedMsg) ->
      exists e', ValidationEntryRecord v e = (e', None)).
Proof.
  unfold StatelessBlockValidator.ValidationEntryRecord.
  split; [| split; [| split]].
  - intros Hstage. rewrite decide_True by assumption. reflexivity.
  - intros recording Hstage Hpos Hrec Hhash.
    rewrite decide_False by (intros Hne; now apply Hne).
    unfold StatelessBlockValidator.recordBlock.
    destruct (Z.eqb_spec (validationEntry.Pos e) 0) as [? | _];
      [contradiction |].
    simpl negb. cbv iota. rewrite Hrec. simpl.
    destruct (N.eqb_spec (RecordResult.BlockHash recording)
                (GoGlobalState.BlockHash (validationEntry.End e)))
      as [? | _]; [contradiction |].
    simpl. rewrite Hstage. repeat split. discriminate.
  - intros e' Hrun.
    destruct (decide (validationEntry.Stage e ≠ ReadyForRecord)) as [? | Hst];
      [discriminate |].
    split; [now destruct (decide (validationEntry.Stage e = ReadyForRecord)) |].
    destruct (StatelessBlockValidator.recordBlock _ v e) as [e1 | ?];
      [| discriminate].
    destruct (validationEntry.HasDelayedMsg e1).
    + destruct (GetDelayedMessageBytes _ _); simpl in Hrun; simplify_eq.
      split; reflexivity.
    + simplify_eq. split; reflexivity.
  - intros Hstage Hrecorded Hdelayed.
    rewrite decide_False by (intros Hne; now apply Hne).
    assert (Hblock : exists e1,
               StatelessBlockValidator.recordBlock Keccak256PreimageType v e
               = Ok e1
               /\ validationEntry.HasDelayedMsg e1
                  = validationEntry.HasDelayedMsg e
               /\ validationEntry.DelayedMsgNr e1
                  = validationEntry.DelayedMsgNr e).
    { unfold StatelessBlockValidator.recordBlock.
      destruct (Z.eqb_spec (validationEntry.Pos e) 0) as [Hzero | Hpos].
      - exists e. repeat split.
      - destruct Hrecorded as [? | (recording & Hrec & Hhash)]; [contradiction |].
        simpl negb. cbv iota. rewrite Hrec. simpl. rewrite Hhash, N.eqb_refl.
        simpl. eexists. split; [reflexivity |].
        destruct (RecordResult.Preimages recording); split; reflexivity. }
    destruct Hblock as (e1 & -> & Hhas & Hnr). rewrite Hhas, Hnr.
    destruct (validationEntry.HasDelayedMsg e).
    + destruct (Hdelayed eq_refl) as [delayedMsg ->]. eexists. reflexivity.
    + eexists. reflexivity.
Qed.

End Recording.

Lemma ValidationEntryRecord_stages_witness :
  let v := Examples.sampleValidator [] None in
  let v' :=
    StatelessBlockValidator.mk [] None (Examples.recorderWith (fun _ => 170%N))
      Examples.sampleReader (Examples.listTracker [3; 5] [])
      Examples.sampleStreamer [] 1%N in
  let e := Examples.sampleEntry ReadyForRecord 2 187%N in
  StatelessBlockValidator.ValidationEntryRecord 0 v
    (Examples.sampleEntry Ready 2 187%N)
  = (Examples.sampleEntry Ready 2 187%N, Some (ErrNotReadyForRecord Ready))
  /\ StatelessBlockValidator.ValidationEntryRecord 0 v' e
     = (e, Some (ErrRecordingFailed 2 187%N 170%N))
  /\ validationEntry.Stage
       (fst (StatelessBlockValidator.ValidationEntryRecord 0 v
               (Examples.sampleEntry ReadyForRecord 2 (Examples.blockHashAt 2))))
     = Ready.
Proof.
  intros v v' e. split; [| split].
  - apply (ValidationEntryRecord_stages 0 v (Examples.sampleEntry Ready 2 187%N)).
    discriminate.
  - destruct (ValidationEntryRecord_stages 0 v' e) as (_ & Hmismatch & _ & _).
    apply (Hmismatch (RecordResult.mk 2 170%N None ∅));
      [reflexivity | discriminate | reflexivity | discriminate].
  - destruct (ValidationEntryRecord_stages 0 v
                (Examples.sampleEntry ReadyForRecord 2 (Examples.blockHashAt 2)))
      as (_ & _ & Hok & _).
    destruct (StatelessBlockValidator.ValidationEntryRecord 0 v
                (Examples.sampleEntry ReadyForRecord 2 (Examples.blockHashAt 2)))
      as [e' err] eqn:Hrun.
    assert (Herr : err = None) by (vm_compute in Hrun; congruence).
    subst err. apply (Hok e' eq_refl).
Defined.

Section Dispatch.
Variable ErrSeqMsgValidation : error.
Variable IsDASMessageHeaderByte : Byte.byte -> bool.
Variable Keccak256PreimageType : PreimageType.
Variable rangeOrder : gmap N (gmap string bytes) -> list (Hash * gmap string bytes).

Local Abbreviation CreateReadyValidationEntry :=
  (StatelessBlockValidator.CreateReadyValidationEntry ErrSeqMsgValidation
     IsDASMessageHeaderByte Keccak256PreimageType).
Local Abbreviation launchRun := (StatelessBlockValidator.launchRun rangeOrder).
Local Abbreviation ValidateResult :=
  (StatelessBlockValidator.ValidateResult ErrSeqMsgValidation
     IsDASMessageHeaderByte Keccak256PreimageType rangeOrder).

(** No spawner of the list supports the module root: the loop launches
    nothing. *)
Lemma launchOnSpawners_unsupported spawners entry moduleRoot :
  Forall (fun spawner => SpawnerSupportsModule spawner moduleRoot = false)
    spawners ->
  StatelessBlockValidator.launchOnSpawners rangeOrder spawners entry moduleRoot
  = Ok None.
Proof.
  induction 1 as [| spawner rest Hno _ IH]; simpl; [reflexivity |].
  rewrite Hno. exact IH.
Qed.

(** C5. Once the Ready entry is built: if the Redis client (consulted only
    when present and [useExec] is false) does not support the module root
    and no execution spawner does, the call fails with the "not supported"
    error, whose message names the module root; if a run is launched and
    its [Await] returns no error, the call returns
    [(false, observed state, nil)] when the observed global state differs
    from [entry.End] and [(true, entry.End, nil)] when it equals it. *)
Theorem ValidateResult_outcomes
    (v : StatelessBlockValidator.t) pos useExec moduleRoot entry :
  CreateReadyValidationEntry v pos = Ok entry ->
  ((forall redis, StatelessBlockValidator.redisValidator v = Some redis ->
                  useExec = false ->
                  SpawnerSupportsModule redis moduleRoot = false) ->
   Forall (fun spawner => SpawnerSupportsModule spawner moduleRoot = false)
     (StatelessBlockValidator.execSpawners v) ->
   ValidateResult v pos useExec moduleRoot
   = (false, None, Some (ErrModuleRootNotSupported moduleRoot))
   /\ Error (ErrModuleRootNotSupported moduleRoot)
      = "validation with WasmModuleRoot " +:+ Hash_String moduleRoot
          +:+ " not supported by node")
  /\ (forall run gsEnd,
        launchRun v entry useExec moduleRoot = Ok (Some run) ->
        ValidationRun.Await run = (gsEnd, None) ->
        (gsEnd <> validationEntry.End entry ->
         ValidateResult v pos useExec moduleRoot = (false, Some gsEnd, None))
        /\ (gsEnd = validationEntry.End entry ->
            ValidateResult v pos useExec moduleRoot
            = (true, Some (validationEntry.End entry), None))).
Proof.
  intros Hentry. unfold StatelessBlockValidator.ValidateResult.
  rewrite Hentry. split.
  - intros Hredis Hspawners. split; [| reflexivity].
    unfold StatelessBlockValidator.launchRun.
    destruct (StatelessBlockValidator.redisValidator v) as [redis |] eqn:Hr.
    + destruct useExec; simpl.
      * now rewrite launchOnSpawners_unsupported.
      * rewrite (Hredis redis eq_refl eq_refl). simpl.
        now rewrite launchOnSpawners_unsupported.
    + simpl. now rewrite launchOnSpawners_unsupported.
  - intros run gsEnd Hrun Hawait. rewrite Hrun, Hawait. split.
    + intros Hne. rewrite (bool_decide_eq_false_2 (None ≠ None)) by auto.
      rewrite bool_decide_eq_true_2 by assumption. reflexivity.
    + intros ->. rewrite (bool_decide_eq_false_2 (None ≠ None)) by auto.
      rewrite bool_decide_eq_false_2 by auto. reflexivity.
Qed.

End Dispatch.

Lemma ValidateResult_outcomes_witness :
  let validate spawners :=
    StatelessBlockValidator.ValidateResult Examples.sampleErrSeqMsgValidation
      Examples.sampleIsDASMessageHeaderByte Examples.sampleKeccak256PreimageType
      Examples.sampleRangeOrder (Examples.sampleValidator spawners None) 2 false in
  validate [Examples.spawnerWith [1%N] Examples.sampleEnd] 2%N
  = (false, None, Some (ErrModuleRootNotSupported 2%N))
  /\ validate [Examples.spawnerWith [1%N] Examples.otherEnd] 1%N
     = (false, Some Examples.otherEnd, None)
  /\ validate [Examples.spawnerWith [1%N] Examples.sampleEnd] 1%N
     = (true, Some Examples.sampleEnd, None).
Proof.
  intros validate. split; [| split].
  - edestruct (ValidateResult_outcomes Examples.sampleErrSeqMsgValidation
                 Examples.sampleIsDASMessageHeaderByte
                 Examples.sampleKeccak256PreimageType Examples.sampleRangeOrder
                 (Examples.sampleValidator
                    [Examples.spawnerWith [1%N] Examples.sampleEnd] None)
                 2 false 2%N) as [Hnone _]; [vm_compute; reflexivity |].
    apply Hnone.
    + intros redis Hr. discriminate Hr.
    + repeat constructor.
  - edestruct (ValidateResult_outcomes Examples.sampleErrSeqMsgValidation
                 Examples.sampleIsDASMessageHeaderByte
                 Examples.sampleKeccak256PreimageType Examples.sampleRangeOrder
                 (Examples.sampleValidator
                    [Examples.spawnerWith [1%N] Examples.otherEnd] None)
                 2 false 1%N) as [_ Hrun]; [vm_compute; reflexivity |].
    edestruct Hrun as [Hdiffer _]; [vm_compute; reflexivity | reflexivity |].
    apply Hdiffer. vm_compute. discriminate.
  - edestruct (ValidateResult_outcomes Examples.sampleErrSeqMsgValidation
                 Examples.sampleIsDASMessageHeaderByte
                 Examples.sampleKeccak256PreimageType Examples.sampleRangeOrder
                 (Examples.sampleValidator
                    [Examples.spawnerWith [1%N] Examples.sampleEnd] None)
                 2 false 1%N) as [_ Hrun]; [vm_compute; reflexivity |].
    edestruct Hrun as [_ Hagree]; [vm_compute; reflexivity | reflexivity |].
    apply Hagree. vm_compute. reflexivity.
Defined.

(** ** Conversion of an entry into a validation input *)

Section ToInputProperties.
Import validationEntry.

Lemma initTargets_lookup_from stylusArchs (acc : gmap string (gmap N bytes)) a :
  foldl (fun res stylusArch => <[stylusArch := ∅]> res) acc stylusArchs !! a
  = if decide (a ∈ stylusArchs) then Some ∅ else acc !! a.
Proof.
  revert acc. induction stylusArchs as [| a0 rest IH]; intros acc.
  - destruct (decide (a ∈ [])) as [Hin | _]; [| reflexivity].
    now apply not_elem_of_nil in Hin.
  - change (foldl _ acc (a0 :: rest)) with
      (foldl (fun res stylusArch => <[stylusArch := ∅]> res)
         (<[a0 := ∅]> acc) rest).
    rewrite IH.
    destruct (decide (a ∈ rest)) as [Hin | Hnin];
      destruct (decide (a ∈ a0 :: rest)) as [Hin' | Hnin'];
      try reflexivity.
    + exfalso. apply Hnin'. now right.
    + apply elem_of_cons in Hin' as [-> | Hin']; [| contradiction].
      apply lookup_insert_eq.
    + apply lookup_insert_ne. intros ->. apply Hnin'. left.
Qed.

Lemma initTargets_lookup stylusArchs a :
  initTargets stylusArchs !! a
  = if decide (a ∈ stylusArchs) then Some ∅ else None.
Proof. unfold initTargets. now rewrite initTargets_lookup_from, lookup_empty. Qed.

(** One code hash whose activated wasm covers every listed target: every
    listed target's map gains the hash, the others stay as they are. *)
Lemma addWasm_covered hash (asmMap : gmap string bytes) stylusArchs
    (res : gmap string (gmap N bytes)) :
  (forall a, a ∈ stylusArchs -> is_Some (asmMap !! a)) ->
  exists res',
    addWasm hash asmMap stylusArchs res = Ok res'
    /\ forall a asm, asmMap !! a = Some asm ->
         res' !! a = if decide (a ∈ stylusArchs)
                     then insert hash asm <$> res !! a
                     else res !! a.
Proof.
  revert res. induction stylusArchs as [| a0 rest IH]; intros res Hcov;
    cbn [addWasm].
  - exists res. split; [reflexivity |]. intros a asm _.
    destruct (decide (a ∈ [])) as [Hin | _]; [| reflexivity].
    now apply not_elem_of_nil in Hin.
  - destruct (Hcov a0 ltac:(left)) as [asm0 Hasm0]. rewrite Hasm0.
    destruct (IH (alter (insert hash asm0) a0 res)) as (res' & Hrun & Hres').
    { intros a Ha. apply Hcov. now right. }
    exists res'. split; [exact Hrun |]. intros a asm Hasm.
    rewrite (Hres' a asm Hasm).
    destruct (decide (a = a0)) as [-> | Hne].
    + assert (asm = asm0) as -> by congruence.
      rewrite lookup_alter_eq.
      destruct (decide (a0 ∈ a0 :: rest)) as [_ | Hnin]; [| exfalso; apply Hnin; left].
      destruct (decide (a0 ∈ rest)); [| reflexivity].
      destruct (res !! a0) as [m |]; simpl; [| reflexivity].
      now rewrite insert_insert_eq.
    + rewrite lookup_alter_ne by congruence.
      destruct (decide (a ∈ rest)) as [Hin | Hnin];
        destruct (decide (a ∈ a0 :: rest)) as [Hin' | Hnin'];
        try reflexivity.
      * exfalso. apply Hnin'. now right.
      * apply elem_of_cons in Hin' as [-> | Hin']; contradiction.
Qed.

(** One code hash that lacks code for a listed target stops the loop. *)
Lemma addWasm_missing hash (asmMap : gmap string bytes) stylusArchs
    (res : gmap string (gmap N bytes)) a :
  a ∈ stylusArchs -> asmMap !! a = None ->
  exists a', addWasm hash asmMap stylusArchs res
             = Err (ErrStylusArchNotSupported a')
             /\ a' ∈ stylusArchs /\ asmMap !! a' = None.
Proof.
  revert res. induction stylusArchs as [| a0 rest IH]; intros res Hin Hnone.
  - now apply not_elem_of_nil in Hin.
  - simpl. destruct (asmMap !! a0) as [asm0 |] eqn:Hasm0.
    + apply elem_of_cons in Hin as [-> | Hin]; [congruence |].
      destruct (IH (alter (insert hash asm0) a0 res) Hin Hnone)
        as (a' & Hrun & Ha' & Hnone').
      exists a'. split; [exact Hrun |]. split; [now right | exact Hnone'].
    + exists a0. split; [reflexivity |]. split; [left | exact Hasm0].
Qed.

Lemma addWasms_covered (visited : list (Hash * gmap string bytes)) stylusArchs
    (res : gmap string (gmap N bytes)) :
  NoDup visited.*1 ->
  (forall hash asmMap a,
     (hash, asmMap) ∈ visited -> a ∈ stylusArchs -> is_Some (asmMap !! a)) ->
  exists res',
    addWasms visited stylusArchs res = Ok res'
    /\ forall a m0, a ∈ stylusArchs -> res !! a = Some m0 ->
         exists m, res' !! a = Some m
                   /\ forall hash,
                        m !! hash
                        = match (list_to_map visited : gmap N (gmap string bytes))
                                  !! hash with
                          | Some asmMap => asmMap !! a
                          | None => m0 !! hash
                          end.
Proof.
  revert res. induction visited as [| [hash0 asmMap0] rest IH];
    intros res Hnodup Hcov; cbn [addWasms fmap list_fmap list_to_map foldr fst curry] in *.
  - exists res. split; [reflexivity |]. intros a m0 _ Hm0. exists m0.
    split; [exact Hm0 |]. intros hash. now rewrite lookup_empty.
  - apply NoDup_cons in Hnodup as [Hfresh Hnodup].
    destruct (addWasm_covered hash0 asmMap0 stylusArchs res)
      as (res1 & Hrun1 & Hres1).
    { intros a Ha. apply (Hcov hash0 asmMap0 a); [left | exact Ha]. }
    destruct (IH res1 Hnodup) as (res' & Hrun & Hres').
    { intros hash asmMap a Hin Ha. apply (Hcov hash asmMap a); [now right | exact Ha]. }
    exists res'. rewrite Hrun1. split; [exact Hrun |].
    intros a m0 Ha Hm0.
    destruct (Hcov hash0 asmMap0 a ltac:(left) Ha) as [asm Hasm].
    destruct (Hres' a (<[hash0 := asm]> m0) Ha) as (m & Hm & Hlookup).
    { rewrite (Hres1 a asm Hasm), Hm0.
      destruct (decide (a ∈ stylusArchs)); [reflexivity | contradiction]. }
    exists m. split; [exact Hm |]. intros hash. rewrite Hlookup.
    destruct (decide (hash = hash0)) as [-> | Hne].
    + rewrite (not_elem_of_list_to_map_1 rest hash0 Hfresh).
      now rewrite !lookup_insert_eq.
    + now rewrite !lookup_insert_ne by congruence.
Qed.

Lemma addWasms_missing (visited : list (Hash * gmap string bytes)) stylusArchs
    (res : gmap string (gmap N bytes)) hash asmMap a :
  (hash, asmMap) ∈ visited -> a ∈ stylusArchs -> asmMap !! a = None ->
  exists a', addWasms visited stylusArchs res
             = Err (ErrStylusArchNotSupported a') /\ a' ∈ stylusArchs.
Proof.
  revert res. induction visited as [| [hash0 asmMap0] rest IH];
    intros res Hin Ha Hnone.
  - now apply not_elem_of_nil in Hin.
  - simpl. apply elem_of_cons in Hin as [Heq | Hin].
    + simplify_eq.
      destruct (addWasm_missing hash0 asmMap0 stylusArchs res a Ha Hnone)
        as (a' & Hrun & Ha' & _).
      exists a'. rewrite Hrun. split; [reflexivity | exact Ha'].
    + destruct (addWasm hash0 asmMap0 stylusArchs res) as [res1 | err] eqn:Hrun1.
      * exact (IH res1 Hin Ha Hnone).
      * destruct (decide (Forall (fun a => is_Some (asmMap0 !! a)) stylusArchs))
          as [Hall | Hsome].
        -- rewrite Forall_forall in Hall.
           destruct (addWasm_covered hash0 asmMap0 stylusArchs res Hall)
             as (? & Hok & _). congruence.
        -- apply not_Forall_Exists in Hsome; [| intros ?; apply _].
           apply Exists_exists in Hsome as (a0 & Ha0 & Hno).
           destruct (addWasm_missing hash0 asmMap0 stylusArchs res a0 Ha0)
             as (a' & Hrun & Ha' & _).
           { now apply eq_None_not_Some. }
           exists a'. rewrite Hrun in Hrun1. simplify_eq.
           split; [reflexivity | exact Ha'].
Qed.

End ToInputProperties.

(** What a [range] order shares with the map it visits. *)
Lemma RangeOrder_elem_of rangeOrder (m : gmap N (gmap string bytes)) hash asmMap :
  RangeOrder rangeOrder ->
  (hash, asmMap) ∈ rangeOrder m <-> m !! hash = Some asmMap.
Proof. intros Hperm. rewrite (Hperm m). apply elem_of_map_to_list. Qed.

Lemma RangeOrder_NoDup rangeOrder (m : gmap N (gmap string bytes)) :
  RangeOrder rangeOrder -> NoDup (rangeOrder m).*1.
Proof. intros Hperm. rewrite (Hperm m). apply NoDup_fst_map_to_list. Qed.

Lemma RangeOrder_list_to_map rangeOrder (m : gmap N (gmap string bytes)) :
  RangeOrder rangeOrder -> list_to_map (rangeOrder m) = m.
Proof.
  intros Hperm. rewrite <- (list_to_map_to_list m) at 2.
  apply list_to_map_proper; [now apply RangeOrder_NoDup | apply Hperm].
Qed.

(** C7. [ToInput] fails on an entry that is not Ready; it fails when the
    target list is empty while the entry's user-wasm map is not; for a
    non-empty target list it fails when some code hash of the map has no
    code for some listed target, and otherwise the input it produces holds,
    under every listed target, exactly the code-hash/bytes pairs the entry
    recorded for that target. This holds in whatever order the map is
    visited. *)
Theorem ToInput_spec rangeOrder (e : validationEntry.t)
    (stylusArchs : list WasmTarget) :
  RangeOrder rangeOrder ->
  let userWasms := validationEntry.UserWasms e in
  let converted := validationEntry.ToInput rangeOrder e stylusArchs in
  (validationEntry.Stage e <> Ready -> converted = Err ErrNonReadyEntry)
  /\ (stylusArchs = [] -> userWasms <> ∅ ->
      is_Err converted
      /\ (validationEntry.Stage e = Ready -> converted = Err ErrStylusRequired))
  /\ (stylusArchs <> [] ->
      (exists hash asmMap a,
         userWasms !! hash = Some asmMap /\ a ∈ stylusArchs
         /\ asmMap !! a = None) ->
      is_Err converted)
  /\ (validationEntry.Stage e = Ready -> stylusArchs <> [] ->
      (forall hash asmMap a,
         userWasms !! hash = Some asmMap -> a ∈ stylusArchs ->
         is_Some (asmMap !! a)) ->
      exists input,
        converted = Ok input
        /\ forall a, a ∈ stylusArchs ->
             exists m,
               ValidationInput.UserWasms input !! a = Some m
               /\ forall hash asm,
                    m !! hash = Some asm
                    <-> exists asmMap,
                          userWasms !! hash = Some asmMap
                          /\ asmMap !! a = Some asm).
Proof.
  intros Hperm userWasms converted. subst converted userWasms.
  unfold validationEntry.ToInput.
  split; [| split; [| split]].
  - intros Hstage.
    destruct (decide (validationEntry.Stage e ≠ Ready)); [reflexivity | contradiction].
  - intros -> Hnonempty.
    assert (Hsize : (0 <? size (validationEntry.UserWasms e))%nat = true).
    { apply Nat.ltb_lt. apply map_size_non_empty_iff in Hnonempty. lia. }
    destruct (decide (validationEntry.Stage e ≠ Ready)) as [Hs | Hs].
    + split; [eexists; reflexivity |]. intros Hready. contradiction.
    + cbn [length Nat.eqb andb]. rewrite Hsize.
      split; [eexists; reflexivity | reflexivity].
  - intros Hne (hash & asmMap & a & Hlookup & Ha & Hnone).
    destruct (decide (validationEntry.Stage e ≠ Ready)); [eexists; reflexivity |].
    destruct (_ && _); [eexists; reflexivity |].
    destruct (addWasms_missing
                (rangeOrder (validationEntry.UserWasms e)) stylusArchs
                (validationEntry.initTargets stylusArchs) hash asmMap a)
      as (a' & Hrun & _); [now apply RangeOrder_elem_of | exact Ha | exact Hnone |].
    rewrite Hrun. eexists. reflexivity.
  - intros Hready Hne Hcov.
    destruct (decide (validationEntry.Stage e ≠ Ready)); [contradiction |].
    destruct stylusArchs as [| a0 rest]; [contradiction |].
    cbn [length Nat.eqb andb].
    destruct (addWasms_covered
                (rangeOrder (validationEntry.UserWasms e)) (a0 :: rest)
                (validationEntry.initTargets (a0 :: rest)))
      as (res' & Hrun & Hres').
    { now apply RangeOrder_NoDup. }
    { intros hash asmMap a Hin Ha.
      apply (Hcov hash asmMap a); [| exact Ha].
      now apply (RangeOrder_elem_of rangeOrder). }
    rewrite Hrun. eexists. split; [reflexivity |].
    intros a Ha. cbn [ValidationInput.UserWasms].
    destruct (Hres' a ∅ Ha) as (m & Hm & Hlookup).
    { rewrite initTargets_lookup.
      destruct (decide (a ∈ a0 :: rest)); [reflexivity | contradiction]. }
    exists m. split; [exact Hm |]. intros hash asm.
    rewrite Hlookup, (RangeOrder_list_to_map _ _ Hperm).
    destruct (validationEntry.UserWasms e !! hash) as [asmMap |].
    + split; [intros Hasm; exists asmMap; auto |].
      intros (asmMap' & Heq & Hasm). now simplify_eq.
    + rewrite lookup_empty. split; [discriminate |].
      intros (asmMap' & Heq & _). discriminate.
Qed.

Lemma ToInput_spec_witness :
  exists input m,
    validationEntry.ToInput Examples.sampleRangeOrder Examples.wasmEntry ["wavm"]
      = Ok input
    /\ ValidationInput.UserWasms input !! "wavm" = Some m
    /\ m !! 17%N = Some [Byte.x00].
Proof.
  destruct (ToInput_spec Examples.sampleRangeOrder Examples.wasmEntry ["wavm"])
    as (_ & _ & _ & Hok); [intros m; reflexivity |].
  destruct Hok as (input & Hrun & Hwasms).
  - reflexivity.
  - discriminate.
  - intros hash asmMap a Hlookup Ha.
    apply list_elem_of_singleton in Ha as ->.
    change (validationEntry.UserWasms Examples.wasmEntry)
      with ({[ 17%N := {[ "wavm" := [Byte.x00]; "arm64" := [Byte.x01] ]} ]}
            : gmap N (gmap string bytes)) in Hlookup.
    apply lookup_singleton_Some in Hlookup as [_ <-].
    exists [Byte.x00]. reflexivity.
  - destruct (Hwasms "wavm" ltac:(left)) as (m & Hm & Hpairs).
    exists input, m. split; [exact Hrun |]. split; [exact Hm |].
    apply Hpairs. eexists. split; reflexivity.
Defined.

(** * Further properties *)

(** ** Position algebra: shape of the results *)

(** The function, evaluated once both lookups are known. *)
Lemma GlobalStatePositionsAtCount_run
    tracker count batch msgCountInBatch firstInBatch :
  u64 count -> u64 batch -> u64 firstInBatch ->
  GetBatchMessageCount tracker batch = Ok msgCountInBatch ->
  (batch = 0 -> firstInBatch = 0) ->
  (0 < batch -> GetBatchMessageCount tracker (batch - 1) = Ok firstInBatch) ->
  GlobalStatePositionsAtCount tracker count batch
  = if msgCountInBatch <? count then
      Err (ErrBatchMsgCount batch (wrap64 (msgCountInBatch - 1)) count)
    else if count <=? firstInBatch then
      Err (ErrBatchStartsFrom batch firstInBatch count)
    else
      Ok (GlobalStatePosition.mk batch (count - firstInBatch - 1),
          if msgCountInBatch =? count
          then GlobalStatePosition.mk (wrap64 (batch + 1)) 0
          else GlobalStatePosition.mk batch (count - firstInBatch)).
Proof.
  intros Hc Hb Hf Hm H0 Hpos. unfold GlobalStatePositionsAtCount.
  rewrite (result_bind_Ok _ _ _ Hm).
  rewrite (result_bind_Ok _ _ _ (firstInBatch_lookup _ _ _ Hb H0 Hpos)).
  destruct (Z.ltb_spec msgCountInBatch count); [reflexivity |].
  destruct (Z.leb_spec count firstInBatch); [reflexivity |].
  rewrite (wrap64_u64 (count - firstInBatch)) by (unfold u64 in *; lia).
  rewrite (wrap64_u64 (count - firstInBatch - 1)) by (unfold u64 in *; lia).
  rewrite (wrap64_u64 (count - firstInBatch - 1 + 1)) by (unfold u64 in *; lia).
  replace (count - firstInBatch - 1 + 1) with (count - firstInBatch) by lia.
  destruct (msgCountInBatch =? count); reflexivity.
Qed.

(** A successful call has seen both lookups succeed. *)
Lemma GlobalStatePositionsAtCount_lookups tracker count batch start end_ :
  u64 batch ->
  GlobalStatePositionsAtCount tracker count batch = Ok (start, end_) ->
  exists msgCountInBatch firstInBatch,
    GetBatchMessageCount tracker batch = Ok msgCountInBatch
    /\ (batch = 0 -> firstInBatch = 0)
    /\ (0 < batch -> GetBatchMessageCount tracker (batch - 1) = Ok firstInBatch).
Proof.
  intros Hb Hrun. unfold GlobalStatePositionsAtCount in Hrun.
  destruct (GetBatchMessageCount tracker batch) as [m |] eqn:Hm; [| discriminate].
  simpl in Hrun. destruct (Z.ltb_spec 0 batch) as [Hlt | Hge].
  - rewrite (wrap64_u64 (batch - 1)) in Hrun by (unfold u64 in *; lia).
    destruct (GetBatchMessageCount tracker (batch - 1)) as [f |] eqn:Hf;
      [| discriminate].
    exists m, f. repeat split; auto. lia.
  - exists m, 0. repeat split; auto. lia.
Qed.

Lemma firstInBatch_u64 tracker batch firstInBatch :
  TrackerCountsInRange tracker ->
  (batch = 0 -> firstInBatch = 0) ->
  (0 < batch -> GetBatchMessageCount tracker (batch - 1) = Ok firstInBatch) ->
  u64 batch -> u64 firstInBatch.
Proof.
  intros Hwf H0 Hpos Hb. destruct (Z.eq_dec batch 0) as [Hz | Hnz].
  - rewrite (H0 Hz). unfold u64. lia.
  - apply (Hwf (batch - 1)). apply Hpos. unfold u64 in Hb. lia.
Qed.

(** The list-backed tracker returns the counts of its list. *)
Lemma listTracker_counts_in_range counts delayed :
  Forall u64 counts -> TrackerCountsInRange (Examples.listTracker counts delayed).
Proof.
  intros Hall batch msgCount Hcount. cbn in Hcount.
  case_match eqn:Hc; simplify_eq.
  rewrite Forall_lookup in Hall. exact (Hall _ _ Hc).
Qed.

(** X1. Positions chain: the end position of the message at [count] is the
    start position of the message at [count + 1], looked up in the batch
    the end position names. *)
Theorem GlobalStatePositionsAtCount_chain
    tracker count batch start end_ start' end' :
  TrackerCountsInRange tracker ->
  u64 count -> count < MaxUint64 -> u64 batch -> batch < MaxUint64 ->
  GlobalStatePositionsAtCount tracker count batch = Ok (start, end_) ->
  GlobalStatePositionsAtCount tracker (count + 1)
    (GlobalStatePosition.BatchNumber end_) = Ok (start', end') ->
  start' = end_.
Proof.
  intros Hwf Hc Hcmax Hb Hbmax Hrun Hnext.
  destruct (GlobalStatePositionsAtCount_lookups _ _ _ _ _ Hb Hrun)
    as (m & f & Hm & H0 & Hpos).
  pose proof (firstInBatch_u64 _ _ _ Hwf H0 Hpos Hb) as Hf.
  rewrite (GlobalStatePositionsAtCount_run _ _ _ _ _ Hc Hb Hf Hm H0 Hpos) in Hrun.
  destruct (Z.ltb_spec m count); [discriminate |].
  destruct (Z.leb_spec count f); [discriminate |].
  assert (Hc1 : u64 (count + 1)) by (unfold u64, MaxUint64 in *; lia).
  destruct (Z.eqb_spec m count) as [Hlast | Hmore]; simplify_eq; simpl in Hnext.
  - rewrite (wrap64_u64 (batch + 1)) in * by (unfold u64, MaxUint64 in *; lia).
    assert (Hb1 : u64 (batch + 1)) by (unfold u64, MaxUint64 in *; lia).
    destruct (GlobalStatePositionsAtCount_lookups _ _ _ _ _ Hb1 Hnext)
      as (m' & f' & Hm' & H0' & Hpos').
    assert (f' = count) as ->.
    { specialize (Hpos' ltac:(unfold u64 in Hb; lia)).
      replace (batch + 1 - 1) with batch in Hpos' by lia. congruence. }
    rewrite (GlobalStatePositionsAtCount_run _ _ _ _ _ Hc1 Hb1 Hc Hm' H0' Hpos')
      in Hnext.
    destruct (m' <? count + 1); [discriminate |].
    destruct (count + 1 <=? count); [discriminate |].
    simplify_eq. f_equal. lia.
  - rewrite (GlobalStatePositionsAtCount_run _ _ _ _ _ Hc1 Hb Hf Hm H0 Hpos)
      in Hnext.
    destruct (m <? count + 1); [discriminate |].
    destruct (count + 1 <=? f); [discriminate |].
    simplify_eq. f_equal. lia.
Qed.

Lemma GlobalStatePositionsAtCount_chain_witness :
  exists start' end',
    GlobalStatePositionsAtCount (Examples.listTracker [3; 5] []) 4 1
      = Ok (start', end')
    /\ start' = GlobalStatePosition.mk 1 0.
Proof.
  eexists _, _. split; [reflexivity |].
  apply (GlobalStatePositionsAtCount_chain (Examples.listTracker [3; 5] [])
           3 0 (GlobalStatePosition.mk 0 2) (GlobalStatePosition.mk 1 0)
           _ (GlobalStatePosition.mk 1 1));
    try (unfold u64, MaxUint64; lia); [| reflexivity | reflexivity].
  apply listTracker_counts_in_range. repeat constructor; unfold u64; lia.
Defined.

(** X2. A returned start position lies inside the batch and determines the
    count: [count = firstInBatch + start.PosInBatch + 1] with
    [0 <= start.PosInBatch < msgCountInBatch - firstInBatch]. The end
    position is never the start position: it is the next offset of the
    same batch while that offset is inside the batch, and the rollover
    position exactly when the next offset is the batch's size. *)
Theorem GlobalStatePositionsAtCount_inside_batch
    tracker count batch start end_ :
  TrackerCountsInRange tracker -> u64 count -> u64 batch ->
  GlobalStatePositionsAtCount tracker count batch = Ok (start, end_) ->
  exists msgCountInBatch firstInBatch,
    GetBatchMessageCount tracker batch = Ok msgCountInBatch
    /\ (batch = 0 -> firstInBatch = 0)
    /\ (0 < batch -> GetBatchMessageCount tracker (batch - 1) = Ok firstInBatch)
    /\ GlobalStatePosition.BatchNumber start = batch
    /\ count = firstInBatch + GlobalStatePosition.PosInBatch start + 1
    /\ 0 <= GlobalStatePosition.PosInBatch start
         < msgCountInBatch - firstInBatch
    /\ end_ <> start
    /\ ((end_ = GlobalStatePosition.mk batch
                  (GlobalStatePosition.PosInBatch start + 1)
         /\ GlobalStatePosition.PosInBatch start + 1
            < msgCountInBatch - firstInBatch)
        \/ (end_ = GlobalStatePosition.mk (wrap64 (batch + 1)) 0
            /\ GlobalStatePosition.PosInBatch start + 1
               = msgCountInBatch - firstInBatch)).
Proof.
  intros Hwf Hc Hb Hrun.
  destruct (GlobalStatePositionsAtCount_lookups _ _ _ _ _ Hb Hrun)
    as (m & f & Hm & H0 & Hpos).
  pose proof (firstInBatch_u64 _ _ _ Hwf H0 Hpos Hb) as Hf.
  rewrite (GlobalStatePositionsAtCount_run _ _ _ _ _ Hc Hb Hf Hm H0 Hpos) in Hrun.
  exists m, f. split; [exact Hm |]. split; [exact H0 |]. split; [exact Hpos |].
  destruct (Z.ltb_spec m count); [discriminate |].
  destruct (Z.leb_spec count f); [discriminate |].
  destruct (Z.eqb_spec m count) as [Hlast | Hmore]; simplify_eq; simpl.
  - repeat split; try lia.
    + intros Heq. injection Heq as Hbatch _. revert Hbatch.
      now apply wrap64_succ_ne.
    + right. split; [reflexivity | lia].
  - repeat split; try lia.
    + intros Heq. injection Heq as Hpos'. lia.
    + left. split; [f_equal; lia | lia].
Qed.

Lemma GlobalStatePositionsAtCount_inside_batch_witness :
  exists msgCountInBatch firstInBatch,
    GetBatchMessageCount (Examples.listTracker [3; 5] []) 1 = Ok msgCountInBatch
    /\ GetBatchMessageCount (Examples.listTracker [3; 5] []) 0 = Ok firstInBatch
    /\ 4 = firstInBatch + 0 + 1.
Proof.
  destruct (GlobalStatePositionsAtCount_inside_batch
              (Examples.listTracker [3; 5] []) 4 1
              (GlobalStatePosition.mk 1 0) (GlobalStatePosition.mk 1 1))
    as (m & f & Hm & _ & Hf & _ & Hcount & _);
    try (unfold u64; lia); [| reflexivity |].
  - apply listTracker_counts_in_range. repeat constructor; unfold u64; lia.
  - exists m, f. split; [exact Hm |]. split; [apply Hf; lia | exact Hcount].
Defined.

(** X3. The validator's shortcut for count 1 returns what the package
    function returns for count 1 in batch 0 exactly when batch 0 holds one
    message; for any other first batch the two disagree. *)
Theorem positions_count_one_vs_batch_zero (v : StatelessBlockValidator.t) :
  StatelessBlockValidator.GlobalStatePositionsAtCount v 1
  = GlobalStatePositionsAtCount (inboxTracker v) 1 0
  <-> GetBatchMessageCount (inboxTracker v) 0 = Ok 1.
Proof.
  unfold StatelessBlockValidator.GlobalStatePositionsAtCount,
    GlobalStatePositionsAtCount. simpl.
  destruct (GetBatchMessageCount (inboxTracker v) 0) as [m | e]; simpl.
  - destruct (Z.ltb_spec m 1).
    + split; [discriminate | intros ?; simplify_eq; lia].
    + destruct (Z.eqb_spec m 1) as [-> | Hne].
      * split; reflexivity.
      * split; [discriminate | intros ?; simplify_eq].
  - split; discriminate.
Qed.

(** X4. For a count of at least 2 whose batch the tracker reports as found,
    the validator's operation returns positions exactly when that batch
    contains message [count - 1], that is when
    [firstInBatch <= count - 1 < msgCountInBatch]; a tracker that names a
    batch not containing the message makes the operation fail. *)
Theorem positions_succeed_iff_batch_contains
    (v : StatelessBlockValidator.t) count batch msgCountInBatch firstInBatch :
  u64 count -> 2 <= count -> u64 batch -> u64 firstInBatch ->
  FindInboxBatchContainingMessage (inboxTracker v) (count - 1) = Ok (batch, true) ->
  GetBatchMessageCount (inboxTracker v) batch = Ok msgCountInBatch ->
  (batch = 0 -> firstInBatch = 0) ->
  (0 < batch ->
   GetBatchMessageCount (inboxTracker v) (batch - 1) = Ok firstInBatch) ->
  (exists start end_,
     StatelessBlockValidator.GlobalStatePositionsAtCount v count
     = Ok (start, end_))
  <-> firstInBatch <= count - 1 < msgCountInBatch.
Proof.
  intros Hc Hge Hb Hf Hfind Hm H0 Hpos.
  unfold StatelessBlockValidator.GlobalStatePositionsAtCount.
  destruct (Z.eqb_spec count 0) as [? | _]; [lia |].
  destruct (Z.eqb_spec count 1) as [? | _]; [lia |].
  rewrite (wrap64_u64 (count - 1)) by (unfold u64 in *; lia).
  rewrite Hfind. simpl.
  rewrite (GlobalStatePositionsAtCount_run _ _ _ _ _ Hc Hb Hf Hm H0 Hpos).
  destruct (Z.ltb_spec msgCountInBatch count).
  { split; [intros (? & ? & ?); discriminate | lia]. }
  destruct (Z.leb_spec count firstInBatch).
  { split; [intros (? & ? & ?); discriminate | lia]. }
  split; [lia |]. intros _. eexists _, _. reflexivity.
Qed.

Lemma positions_succeed_iff_batch_contains_witness :
  exists start end_,
    StatelessBlockValidator.GlobalStatePositionsAtCount
      (Examples.sampleValidator [] None) 4 = Ok (start, end_).
Proof.
  apply (positions_succeed_iff_batch_contains
           (Examples.sampleValidator [] None) 4 1 5 3);
    try (unfold u64; lia); reflexivity.
Defined.

(** ** Merging preimages *)

Lemma copy_inner_union (inner piMap : gmap N bytes) :
  map_fold (fun hash preimage inner => <[hash := preimage]> inner) inner piMap
  = piMap ∪ inner.
Proof.
  apply (map_fold_weak_ind
           (fun r (m : gmap N bytes) => r = m ∪ inner)).
  - now rewrite (left_id_L ∅ (∪)).
  - intros hash preimage m r _ ->. now rewrite insert_union_l.
Qed.

(** The merged map, one preimage type at a time. *)
Lemma copyPreimagesInto_lookup (dest source : PreimagesMap) piType :
  copyPreimagesInto dest source !! piType
  = match source !! piType with
    | Some piMap => Some (piMap ∪ default ∅ (dest !! piType))
    | None => dest !! piType
    end.
Proof.
  unfold copyPreimagesInto. revert piType.
  apply (map_fold_weak_ind
           (fun r (m : PreimagesMap) =>
              forall piType,
                r !! piType
                = match m !! piType with
                  | Some piMap => Some (piMap ∪ default ∅ (dest !! piType))
                  | None => dest !! piType
                  end)).
  - intros piType. now rewrite lookup_empty.
  - intros i piMap m r Hfresh IH piType. cbv zeta. rewrite copy_inner_union.
    destruct (decide (piType = i)) as [-> | Hne].
    + rewrite !lookup_insert_eq. now rewrite IH, Hfresh.
    + rewrite !lookup_insert_ne by congruence. apply IH.
Qed.

(** The merged map, one preimage at a time. *)
Lemma copyPreimagesInto_lookup_hash (dest source : PreimagesMap) piType hash :
  copyPreimagesInto dest source !! piType ≫= (fun piMap => piMap !! hash)
  = match source !! piType ≫= (fun piMap => piMap !! hash) with
    | Some preimage => Some preimage
    | None => dest !! piType ≫= (fun piMap => piMap !! hash)
    end.
Proof.
  rewrite copyPreimagesInto_lookup.
  destruct (source !! piType) as [piMap |]; simpl; [| reflexivity].
  destruct (piMap !! hash) as [preimage |] eqn:Hp; simpl.
  - now apply lookup_union_Some_l.
  - rewrite lookup_union_r by exact Hp.
    destruct (dest !! piType); simpl; [reflexivity | apply lookup_empty].
Qed.

(** X5. [copyPreimagesInto] is a deep union in which the source wins: under
    every preimage type and hash the merged map holds the source's preimage
    if the source has one, and otherwise what the destination held. *)
Theorem copyPreimagesInto_preimage (dest source : PreimagesMap) piType hash :
  copyPreimagesInto dest source !! piType ≫= (fun piMap => piMap !! hash)
  = match source !! piType ≫= (fun piMap => piMap !! hash) with
    | Some preimage => Some preimage
    | None => dest !! piType ≫= (fun piMap => piMap !! hash)
    end.
Proof.
  rewrite copyPreimagesInto_lookup.
  destruct (source !! piType) as [piMap |]; simpl; [| reflexivity].
  destruct (piMap !! hash) as [preimage |] eqn:Hp; simpl.
  - now apply lookup_union_Some_l.
  - rewrite lookup_union_r by exact Hp.
    destruct (dest !! piType); simpl; [reflexivity | apply lookup_empty].
Qed.

(** X6. Merging is idempotent: merging a map into itself changes nothing,
    and merging the same source a second time changes nothing. *)
Theorem copyPreimagesInto_idempotent (dest source : PreimagesMap) :
  copyPreimagesInto source source = source
  /\ copyPreimagesInto (copyPreimagesInto dest source) source
     = copyPreimagesInto dest source.
Proof.
  split; apply map_eq; intros piType; rewrite !copyPreimagesInto_lookup.
  - destruct (source !! piType) as [piMap |]; simpl; [| reflexivity].
    now rewrite (idemp_L (∪)).
  - destruct (source !! piType) as [piMap |]; simpl; [| reflexivity].
    now rewrite (assoc_L (∪)), (idemp_L (∪)).
Qed.

Lemma copyPreimagesInto_empty (source : PreimagesMap) :
  copyPreimagesInto ∅ source = source.
Proof.
  apply map_eq. intros piType. rewrite copyPreimagesInto_lookup, lookup_empty.
  destruct (source !! piType) as [piMap |]; simpl; [| reflexivity].
  now rewrite (right_id_L ∅ (∪)).
Qed.

(** X7. An entry the constructor returns carries its arguments: position,
    start and end state, chain configuration and message are those given;
    its preimages are exactly the batch's preimages; it has no user wasms
    and no delayed-message payload yet; and [DelayedMsgNr] is 0 when the
    entry has no delayed message. *)
Theorem newValidationEntry_fields
    pos start end_ msg fullBatchInfo prevBatches prevDelayed chainConfig e :
  newValidationEntry pos start end_ msg (Some fullBatchInfo) prevBatches
    prevDelayed chainConfig = Ok e ->
  validationEntry.Pos e = pos
  /\ validationEntry.Start e = start
  /\ validationEntry.End e = end_
  /\ validationEntry.ChainConfig e = chainConfig
  /\ validationEntry.msg e = Some msg
  /\ validationEntry.Preimages e = FullBatchInfo.Preimages fullBatchInfo
  /\ validationEntry.UserWasms e = ∅
  /\ validationEntry.DelayedMsg e = []
  /\ (validationEntry.HasDelayedMsg e = false ->
      validationEntry.DelayedMsgNr e = 0).
Proof.
  unfold newValidationEntry. intros Hbuilt.
  destruct (negb _); [discriminate |].
  rewrite copyPreimagesInto_empty in Hbuilt.
  destruct (_ =? wrap64 _).
  - simplify_eq. simpl. repeat split. discriminate.
  - destruct (negb _); simplify_eq. simpl. repeat split.
Qed.

Lemma newValidationEntry_fields_witness :
  exists e,
    newValidationEntry 2 (GoGlobalState.mk 1%N 7%N 0 2) Examples.sampleEnd
      (Examples.sampleMessage 0)
      (Some (FullBatchInfo.mk 0 [] 3 {[ 0 := {[ 5%N := [Byte.x01] ]} ]}))
      [] 0 (ChainConfig.mk false) = Ok e
    /\ validationEntry.Preimages e = {[ 0 := {[ 5%N := [Byte.x01] ]} ]}.
Proof.
  eexists. split; [reflexivity |].
  destruct (newValidationEntry_fields 2 (GoGlobalState.mk 1%N 7%N 0 2)
              Examples.sampleEnd (Examples.sampleMessage 0)
              (FullBatchInfo.mk 0 [] 3 {[ 0 := {[ 5%N := [Byte.x01] ]} ]})
              [] 0 (ChainConfig.mk false) _ eq_refl)
    as (_ & _ & _ & _ & _ & Hpreimages & _).
  exact Hpreimages.
Defined.

(** ** Conversion into a validation input: the whole result *)

Lemma addWasm_frame hash (asmMap : gmap string bytes) stylusArchs
    (res res' : gmap string (gmap N bytes)) a :
  validationEntry.addWasm hash asmMap stylusArchs res = Ok res' ->
  a ∉ stylusArchs -> res' !! a = res !! a.
Proof.
  revert res. induction stylusArchs as [| a0 rest IH]; intros res Hrun Hnin;
    cbn [validationEntry.addWasm] in Hrun.
  - now simplify_eq.
  - destruct (asmMap !! a0) as [asm0 |]; [| discriminate].
    rewrite (IH _ Hrun) by (intros Hin; apply Hnin; now right).
    apply lookup_alter_ne. intros ->. apply Hnin. left.
Qed.

Lemma addWasms_frame (visited : list (Hash * gmap string bytes)) stylusArchs
    (res res' : gmap string (gmap N bytes)) a :
  validationEntry.addWasms visited stylusArchs res = Ok res' ->
  a ∉ stylusArchs -> res' !! a = res !! a.
Proof.
  revert res. induction visited as [| [hash0 asmMap0] rest IH];
    intros res Hrun Hnin; cbn [validationEntry.addWasms] in Hrun.
  - now simplify_eq.
  - destruct (validationEntry.addWasm hash0 asmMap0 stylusArchs res)
      as [res1 |] eqn:Hrun1; [| discriminate].
    simpl in Hrun. rewrite (IH _ Hrun Hnin).
    exact (addWasm_frame _ _ _ _ _ _ Hrun1 Hnin).
Qed.

(** The two loops of [ToInput] together, when they run to the end: every
    code hash covers every listed target, and the map they build has, under
    each listed target and no other, the code the entry holds for it. *)
Lemma addWasms_total rangeOrder (userWasms : gmap N (gmap string bytes))
    stylusArchs (res : gmap string (gmap N bytes)) :
  RangeOrder rangeOrder ->
  validationEntry.addWasms (rangeOrder userWasms) stylusArchs
    (validationEntry.initTargets stylusArchs) = Ok res ->
  (forall hash asmMap a,
     userWasms !! hash = Some asmMap -> a ∈ stylusArchs -> is_Some (asmMap !! a))
  /\ forall a,
       res !! a = if decide (a ∈ stylusArchs)
                  then Some (omap (fun asmMap : gmap string bytes => asmMap !! a)
                               userWasms)
                  else None.
Proof.
  intros Hperm Hrun.
  assert (Hcov : forall hash asmMap a,
             userWasms !! hash = Some asmMap -> a ∈ stylusArchs ->
             is_Some (asmMap !! a)).
  { intros hash asmMap a Hlookup Ha.
    destruct (asmMap !! a) as [asm |] eqn:Hasm; [eauto |].
    destruct (addWasms_missing (rangeOrder userWasms) stylusArchs
                (validationEntry.initTargets stylusArchs) hash asmMap a)
      as (a' & Herr & _); [now apply RangeOrder_elem_of | exact Ha | exact Hasm |].
    congruence. }
  split; [exact Hcov |]. intros a.
  destruct (decide (a ∈ stylusArchs)) as [Ha | Hnin].
  - destruct (addWasms_covered (rangeOrder userWasms) stylusArchs
                (validationEntry.initTargets stylusArchs))
      as (res' & Hrun' & Hres').
    { now apply RangeOrder_NoDup. }
    { intros hash asmMap a' Hin Ha'.
      apply (Hcov hash asmMap a'); [| exact Ha'].
      now apply (RangeOrder_elem_of rangeOrder). }
    assert (res' = res) as -> by congruence.
    destruct (Hres' a ∅ Ha) as (m & Hm & Hlookup).
    { rewrite initTargets_lookup.
      destruct (decide (a ∈ stylusArchs)); [reflexivity | contradiction]. }
    rewrite Hm. f_equal. apply map_eq. intros hash.
    rewrite Hlookup, (RangeOrder_list_to_map _ _ Hperm), lookup_omap.
    destruct (userWasms !! hash); [reflexivity | apply lookup_empty].
  - rewrite (addWasms_frame _ _ _ _ _ Hrun Hnin), initTargets_lookup.
    destruct (decide (a ∈ stylusArchs)); [contradiction | reflexivity].
Qed.

(** X8. The input [ToInput] returns does not depend on the order in which
    Go visits the entry's user-wasm map: what one order produces, every
    other order produces. *)
Theorem ToInput_order_independent rangeOrder1 rangeOrder2
    (e : validationEntry.t) (stylusArchs : list WasmTarget) input :
  RangeOrder rangeOrder1 -> RangeOrder rangeOrder2 ->
  validationEntry.ToInput rangeOrder1 e stylusArchs = Ok input ->
  validationEntry.ToInput rangeOrder2 e stylusArchs = Ok input.
Proof.
  intros Hperm1 Hperm2. unfold validationEntry.ToInput.
  destruct (decide (validationEntry.Stage e ≠ Ready)); [discriminate |].
  destruct (_ && _); [discriminate |].
  destruct (validationEntry.addWasms (rangeOrder1 _) _ _) as [res1 |] eqn:Hrun1;
    [| discriminate].
  destruct (addWasms_total _ _ _ _ Hperm1 Hrun1) as [Hcov Hres1].
  destruct (addWasms_covered (rangeOrder2 (validationEntry.UserWasms e))
              stylusArchs (validationEntry.initTargets stylusArchs))
    as (res2 & Hrun2 & _).
  { now apply RangeOrder_NoDup. }
  { intros hash asmMap a Hin Ha. apply (Hcov hash asmMap a); [| exact Ha].
    now apply (RangeOrder_elem_of rangeOrder2). }
  rewrite Hrun2. simpl. intros Hinput.
  destruct (addWasms_total _ _ _ _ Hperm2 Hrun2) as [_ Hres2].
  assert (res2 = res1) as ->; [| exact Hinput].
  apply map_eq. intros a. now rewrite Hres1, Hres2.
Qed.

Lemma reverseRangeOrder_RangeOrder : RangeOrder Examples.reverseRangeOrder.
Proof. intros m. unfold Examples.reverseRangeOrder. apply reverse_Permutation. Qed.

Lemma sampleRangeOrder_RangeOrder : RangeOrder Examples.sampleRangeOrder.
Proof. intros m. reflexivity. Qed.

Lemma ToInput_order_independent_witness :
  exists input,
    validationEntry.ToInput Examples.sampleRangeOrder Examples.twoWasmsEntry
      ["wavm"] = Ok input
    /\ validationEntry.ToInput Examples.reverseRangeOrder Examples.twoWasmsEntry
         ["wavm"] = Ok input.
Proof.
  eexists. split; [vm_compute; reflexivity |].
  apply (ToInput_order_independent Examples.sampleRangeOrder
           Examples.reverseRangeOrder Examples.twoWasmsEntry ["wavm"]).
  - exact sampleRangeOrder_RangeOrder.
  - exact reverseRangeOrder_RangeOrder.
  - vm_compute. reflexivity.
Defined.

Lemma ToInput_guard_false (stylusArchs : list WasmTarget)
    (userWasms : gmap N (gmap string bytes)) :
  (length stylusArchs =? 0)%nat && (0 <? size userWasms)%nat = false
  <-> (stylusArchs = [] -> userWasms = ∅).
Proof.
  rewrite andb_false_iff, Nat.eqb_neq, Nat.ltb_ge. split.
  - intros [Hlen | Hsize] Hnil.
    + subst. now contradiction Hlen.
    + apply map_size_empty_iff. lia.
  - intros Himp. destruct stylusArchs as [| a rest].
    + right. rewrite (Himp eq_refl), map_size_empty. lia.
    + left. discriminate.
Qed.

(** X9. [ToInput] returns an input exactly when the entry is Ready, the
    target list is non-empty or the entry has no user wasms, and every code
    hash of the entry has code for every listed target. *)
Theorem ToInput_succeeds_iff rangeOrder (e : validationEntry.t)
    (stylusArchs : list WasmTarget) :
  RangeOrder rangeOrder ->
  (exists input, validationEntry.ToInput rangeOrder e stylusArchs = Ok input)
  <-> validationEntry.Stage e = Ready
      /\ (stylusArchs = [] -> validationEntry.UserWasms e = ∅)
      /\ (forall hash asmMap a,
            validationEntry.UserWasms e !! hash = Some asmMap ->
            a ∈ stylusArchs -> is_Some (asmMap !! a)).
Proof.
  intros Hperm. unfold validationEntry.ToInput. split.
  - intros [input Hrun].
    destruct (decide (validationEntry.Stage e ≠ Ready)) as [| Hready];
      [discriminate |].
    destruct (_ && _) eqn:Hguard; [discriminate |].
    destruct (validationEntry.addWasms _ _ _) as [res |] eqn:Hloops;
      [| discriminate].
    split; [now destruct (decide (validationEntry.Stage e = Ready)) |].
    split; [now apply ToInput_guard_false |].
    now destruct (addWasms_total _ _ _ _ Hperm Hloops).
  - intros (Hready & Hguard & Hcov).
    destruct (decide (validationEntry.Stage e ≠ Ready)); [contradiction |].
    apply ToInput_guard_false in Hguard. rewrite Hguard.
    destruct (addWasms_covered
                (rangeOrder (validationEntry.UserWasms e)) stylusArchs
                (validationEntry.initTargets stylusArchs))
      as (res & Hrun & _).
    { now apply RangeOrder_NoDup. }
    { intros hash asmMap a Hin Ha. apply (Hcov hash asmMap a); [| exact Ha].
      now apply (RangeOrder_elem_of rangeOrder). }
    rewrite Hrun. eexists. reflexivity.
Qed.

Lemma ToInput_succeeds_iff_witness :
  (exists input,
     validationEntry.ToInput Examples.sampleRangeOrder Examples.twoWasmsEntry
       ["wavm"] = Ok input)
  /\ ~ (exists input,
          validationEntry.ToInput Examples.sampleRangeOrder
            Examples.twoWasmsEntry ["wavm"; "arm64"] = Ok input).
Proof.
  split.
  - eexists. vm_compute. reflexivity.
  - intros Hok.
    apply (ToInput_succeeds_iff Examples.sampleRangeOrder Examples.twoWasmsEntry
             ["wavm"; "arm64"] sampleRangeOrder_RangeOrder) in Hok
      as (_ & _ & Hcov).
    destruct (Hcov 18%N {[ "wavm" := [Byte.x02] ]} "arm64") as [asm Hasm].
    + reflexivity.
    + right. left.
    + vm_compute in Hasm. discriminate.
Defined.

Lemma addWasm_failure hash (asmMap : gmap string bytes) stylusArchs
    (res : gmap string (gmap N bytes)) err :
  validationEntry.addWasm hash asmMap stylusArchs res = Err err ->
  exists a, err = ErrStylusArchNotSupported a
            /\ a ∈ stylusArchs /\ asmMap !! a = None.
Proof.
  revert res. induction stylusArchs as [| a0 rest IH]; intros res Hrun;
    cbn [validationEntry.addWasm] in Hrun; [discriminate |].
  destruct (asmMap !! a0) as [asm0 |] eqn:Hasm0.
  - destruct (IH _ Hrun) as (a & -> & Ha & Hnone).
    exists a. split; [reflexivity |]. split; [now right | exact Hnone].
  - simplify_eq. exists a0. split; [reflexivity |]. split; [left | exact Hasm0].
Qed.

Lemma addWasms_failure (visited : list (Hash * gmap string bytes)) stylusArchs
    (res : gmap string (gmap N bytes)) err :
  validationEntry.addWasms visited stylusArchs res = Err err ->
  exists hash asmMap a,
    err = ErrStylusArchNotSupported a
    /\ (hash, asmMap) ∈ visited /\ a ∈ stylusArchs /\ asmMap !! a = None.
Proof.
  revert res. induction visited as [| [hash0 asmMap0] rest IH]; intros res Hrun;
    cbn [validationEntry.addWasms] in Hrun; [discriminate |].
  destruct (validationEntry.addWasm hash0 asmMap0 stylusArchs res)
    as [res1 |] eqn:Hrun1; simpl in Hrun.
  - destruct (IH _ Hrun) as (hash & asmMap & a & -> & Hin & Ha & Hnone).
    exists hash, asmMap, a. split; [reflexivity |].
    split; [now right |]. split; assumption.
  - simplify_eq.
    destruct (addWasm_failure _ _ _ _ _ Hrun1) as (a & -> & Ha & Hnone).
    exists hash0, asmMap0, a. split; [reflexivity |].
    split; [left |]. split; assumption.
Qed.

(** X10. Every error of [ToInput] is justified: it is the non-ready error
    on an entry that is not Ready, the stylus-required error on a Ready
    entry with user wasms and no target, or the unsupported-target error
    naming a listed target for which some code hash of the Ready entry has
    no code. *)
Theorem ToInput_error_sound rangeOrder (e : validationEntry.t)
    (stylusArchs : list WasmTarget) err :
  RangeOrder rangeOrder ->
  validationEntry.ToInput rangeOrder e stylusArchs = Err err ->
  (err = ErrNonReadyEntry /\ validationEntry.Stage e <> Ready)
  \/ (err = ErrStylusRequired /\ validationEntry.Stage e = Ready
      /\ stylusArchs = [] /\ validationEntry.UserWasms e <> ∅)
  \/ (exists hash asmMap a,
        err = ErrStylusArchNotSupported a
        /\ validationEntry.Stage e = Ready
        /\ a ∈ stylusArchs
        /\ validationEntry.UserWasms e !! hash = Some asmMap
        /\ asmMap !! a = None).
Proof.
  intros Hperm. unfold validationEntry.ToInput.
  destruct (decide (validationEntry.Stage e ≠ Ready)) as [Hstage | Hstage].
  { intros Herr. left. split; [congruence | exact Hstage]. }
  assert (Hready : validationEntry.Stage e = Ready)
    by now destruct (decide (validationEntry.Stage e = Ready)).
  destruct (_ && _) eqn:Hguard.
  { intros Herr. right. left. split; [congruence |]. split; [exact Hready |].
    apply andb_true_iff in Hguard as [Hlen Hsize].
    apply Nat.eqb_eq in Hlen. apply Nat.ltb_lt in Hsize.
    split; [now destruct stylusArchs |].
    intros Hempty. rewrite Hempty, map_size_empty in Hsize. lia. }
  destruct (validationEntry.addWasms _ _ _) as [res | err'] eqn:Hloops;
    [discriminate |].
  simpl. intros Herr. simplify_eq. right. right.
  destruct (addWasms_failure _ _ _ _ Hloops)
    as (hash & asmMap & a & -> & Hin & Ha & Hnone).
  exists hash, asmMap, a. split; [reflexivity |]. split; [exact Hready |].
  split; [exact Ha |]. split; [| exact Hnone].
  now apply (RangeOrder_elem_of rangeOrder).
Qed.

Lemma ToInput_error_sound_witness :
  validationEntry.ToInput Examples.sampleRangeOrder Examples.twoWasmsEntry
    ["wavm"; "arm64"] = Err (ErrStylusArchNotSupported "arm64").
Proof.
  destruct (ToInput_error_sound Examples.sampleRangeOrder Examples.twoWasmsEntry
              ["wavm"; "arm64"] (ErrStylusArchNotSupported "arm64")
              sampleRangeOrder_RangeOrder)
    as [[Hne _] | [[Hne _] | (hash & asmMap & a & Herr & _)]];
    [vm_compute; reflexivity | discriminate Hne | discriminate Hne |].
  vm_compute. reflexivity.
Defined.

(** X11. The input [ToInput] returns: position, start state, delayed
    message data, batches, preimages and debug flag are the entry's; its
    user-wasm map has an entry for each listed target and for no other
    target, holding for every code hash of the entry the code recorded
    for that target. *)
Theorem ToInput_result rangeOrder (e : validationEntry.t)
    (stylusArchs : list WasmTarget) input :
  RangeOrder rangeOrder ->
  validationEntry.ToInput rangeOrder e stylusArchs = Ok input ->
  ValidationInput.Id input = validationEntry.Pos e
  /\ ValidationInput.StartState input = validationEntry.Start e
  /\ ValidationInput.HasDelayedMsg input = validationEntry.HasDelayedMsg e
  /\ ValidationInput.DelayedMsgNr input = validationEntry.DelayedMsgNr e
  /\ ValidationInput.DelayedMsg input = validationEntry.DelayedMsg e
  /\ ValidationInput.BatchInfo input = validationEntry.BatchInfo e
  /\ ValidationInput.Preimages input = validationEntry.Preimages e
  /\ ValidationInput.DebugChain input
     = ChainConfig.DebugMode (validationEntry.ChainConfig e)
  /\ dom (ValidationInput.UserWasms input) = list_to_set stylusArchs
  /\ forall a, a ∈ stylusArchs ->
       ValidationInput.UserWasms input !! a
       = Some (omap (fun asmMap : gmap string bytes => asmMap !! a)
                 (validationEntry.UserWasms e)).
Proof.
  intros Hperm. unfold validationEntry.ToInput.
  destruct (decide (validationEntry.Stage e ≠ Ready)); [discriminate |].
  destruct (_ && _); [discriminate |].
  destruct (validationEntry.addWasms _ _ _) as [res |] eqn:Hloops;
    [| discriminate].
  simpl. intros Hinput. simplify_eq. simpl.
  destruct (addWasms_total _ _ _ _ Hperm Hloops) as [_ Hres].
  repeat split.
  - apply set_eq. intros a. rewrite elem_of_dom, Hres, elem_of_list_to_set.
    destruct (decide (a ∈ stylusArchs)) as [Ha | Hnin].
    + split; [intros _; exact Ha | intros _; eauto].
    + split; [intros [? ?]; discriminate | contradiction].
  - intros a Ha. rewrite Hres.
    destruct (decide (a ∈ stylusArchs)); [reflexivity | contradiction].
Qed.

Lemma ToInput_result_witness :
  exists input,
    validationEntry.ToInput Examples.sampleRangeOrder Examples.twoWasmsEntry
      ["wavm"] = Ok input
    /\ dom (ValidationInput.UserWasms input) = {["wavm"]}
    /\ ValidationInput.Id input = 2.
Proof.
  assert (Hrun : exists input,
             validationEntry.ToInput Examples.sampleRangeOrder
               Examples.twoWasmsEntry ["wavm"] = Ok input)
    by (eexists; vm_compute; reflexivity).
  destruct Hrun as [input Hrun]. exists input. split; [exact Hrun |].
  destruct (ToInput_result Examples.sampleRangeOrder Examples.twoWasmsEntry
              ["wavm"] input sampleRangeOrder_RangeOrder Hrun)
    as (Hid & _ & _ & _ & _ & _ & _ & _ & Hdom & _).
  split; [| exact Hid]. rewrite Hdom. simpl. apply (right_id_L ∅ (∪)).
Defined.

(** ** Recording: what changes and what does not *)

Section RecordingFurther.
Variable Keccak256PreimageType : PreimageType.

Local Abbreviation ValidationEntryRecord :=
  (StatelessBlockValidator.ValidationEntryRecord Keccak256PreimageType).
Local Abbreviation recordBlock :=
  (StatelessBlockValidator.recordBlock Keccak256PreimageType).

(** What [recordBlock] leaves alone. *)
Lemma recordBlock_frame (v : StatelessBlockValidator.t) e e1 :
  recordBlock v e = Ok e1 ->
  validationEntry.Stage e1 = validationEntry.Stage e
  /\ validationEntry.Pos e1 = validationEntry.Pos e
  /\ validationEntry.Start e1 = validationEntry.Start e
  /\ validationEntry.End e1 = validationEntry.End e
  /\ validationEntry.HasDelayedMsg e1 = validationEntry.HasDelayedMsg e
  /\ validationEntry.DelayedMsgNr e1 = validationEntry.DelayedMsgNr e
  /\ validationEntry.ChainConfig e1 = validationEntry.ChainConfig e
  /\ validationEntry.msg e1 = validationEntry.msg e
  /\ validationEntry.BatchInfo e1 = validationEntry.BatchInfo e
  /\ validationEntry.DelayedMsg e1 = validationEntry.DelayedMsg e.
Proof.
  unfold StatelessBlockValidator.recordBlock.
  destruct (negb _).
  - destruct (ExecutionRecorder.RecordBlockCreation _ _ _) as [recording |];
      [| discriminate].
    simpl. destruct (negb _); [discriminate |].
    intros Hrun. simplify_eq.
    destruct (RecordResult.Preimages recording); repeat split.
  - intros Hrun. simplify_eq. repeat split.
Qed.

(** X12. Whatever [ValidationEntryRecord] returns, the entry it leaves
    behind has the position, start and end state, delayed-message flag and
    number, chain configuration and batch list it had before. *)
Theorem ValidationEntryRecord_frame (v : StatelessBlockValidator.t) e :
  let e' := fst (ValidationEntryRecord v e) in
  validationEntry.Pos e' = validationEntry.Pos e
  /\ validationEntry.Start e' = validationEntry.Start e
  /\ validationEntry.End e' = validationEntry.End e
  /\ validationEntry.HasDelayedMsg e' = validationEntry.HasDelayedMsg e
  /\ validationEntry.DelayedMsgNr e' = validationEntry.DelayedMsgNr e
  /\ validationEntry.ChainConfig e' = validationEntry.ChainConfig e
  /\ validationEntry.BatchInfo e' = validationEntry.BatchInfo e.
Proof.
  cbv zeta. unfold StatelessBlockValidator.ValidationEntryRecord.
  destruct (decide _); [repeat split |].
  destruct (recordBlock v e) as [e1 |] eqn:Hblock; [| repeat split].
  destruct (recordBlock_frame _ _ _ Hblock)
    as (_ & Hpos & Hstart & Hend & Hhas & Hnr & Hcfg & _ & Hbatch & _).
  destruct (validationEntry.HasDelayedMsg e1) eqn:Hhas1;
    [destruct (GetDelayedMessageBytes _ _) |]; simpl;
    rewrite ?Hhas1; repeat split; congruence.
Qed.

(** X13. An entry is recorded once: after a call that returned no error, a
    second call on the resulting entry fails with the stage error and
    leaves the entry as it is. *)
Theorem ValidationEntryRecord_once (v : StatelessBlockValidator.t) e e' :
  ValidationEntryRecord v e = (e', None) ->
  ValidationEntryRecord v e' = (e', Some (ErrNotReadyForRecord Ready)).
Proof.
  unfold StatelessBlockValidator.ValidationEntryRecord at 1.
  destruct (decide _) as [| _]; [discriminate |].
  destruct (recordBlock v e) as [e1 |]; [| discriminate].
  assert (Hstage : forall e2,
             StatelessBlockValidator.ValidationEntryRecord
               Keccak256PreimageType v
               (validationEntry.set_Stage Ready
                  (validationEntry.set_msg None e2))
             = (validationEntry.set_Stage Ready
                  (validationEntry.set_msg None e2),
                Some (ErrNotReadyForRecord Ready))).
  { intros e2. unfold StatelessBlockValidator.ValidationEntryRecord.
    simpl. reflexivity. }
  destruct (validationEntry.HasDelayedMsg e1);
    [destruct (GetDelayedMessageBytes _ _) |];
    intros Hrun; simplify_eq; apply Hstage.
Qed.

(** X14. For the entry of message 0 the recorder is not consulted: the
    outcome is the same with any other recorder in its place, and the
    entry's preimages and user wasms stay as they were. *)
Theorem ValidationEntryRecord_genesis (v : StatelessBlockValidator.t) e recorder' :
  validationEntry.Pos e = 0 ->
  ValidationEntryRecord (StatelessBlockValidator.OverrideRecorder v recorder') e
  = ValidationEntryRecord v e
  /\ validationEntry.Preimages (fst (ValidationEntryRecord v e))
     = validationEntry.Preimages e
  /\ validationEntry.UserWasms (fst (ValidationEntryRecord v e))
     = validationEntry.UserWasms e.
Proof.
  intros Hpos.
  unfold StatelessBlockValidator.ValidationEntryRecord,
    StatelessBlockValidator.recordBlock.
  rewrite Hpos. simpl.
  destruct (decide _); [repeat split |].
  destruct (validationEntry.HasDelayedMsg e);
    [destruct (GetDelayedMessageBytes _ _) |]; repeat split.
Qed.

(** X15. What a successful recording of a message other than message 0
    puts into the entry: the recorder ran on the entry's position and
    message and arrived at the entry's end block hash; the entry's user
    wasms are the recorder's; every recorded preimage is in the entry under
    the keccak type; every other preimage of the entry is as it was; and the
    delayed-message payload is the tracker's for [DelayedMsgNr] if the entry
    has a delayed message and untouched otherwise. *)
Theorem ValidationEntryRecord_recorded (v : StatelessBlockValidator.t) e e' :
  validationEntry.Pos e <> 0 ->
  ValidationEntryRecord v e = (e', None) ->
  exists recording,
    ExecutionRecorder.RecordBlockCreation (StatelessBlockValidator.recorder v)
      (validationEntry.Pos e) (validationEntry.msg e) = Ok recording
    /\ RecordResult.BlockHash recording
       = GoGlobalState.BlockHash (validationEntry.End e)
    /\ validationEntry.UserWasms e' = RecordResult.UserWasms recording
    /\ (forall recorded hash preimage,
          RecordResult.Preimages recording = Some recorded ->
          recorded !! hash = Some preimage ->
          validationEntry.Preimages e' !! Keccak256PreimageType
            ≫= (fun piMap => piMap !! hash) = Some preimage)
    /\ (forall piType hash,
          (piType <> Keccak256PreimageType
           \/ forall recorded,
                RecordResult.Preimages recording = Some recorded ->
                recorded !! hash = None) ->
          validationEntry.Preimages e' !! piType ≫= (fun piMap => piMap !! hash)
          = validationEntry.Preimages e !! piType
              ≫= (fun piMap => piMap !! hash))
    /\ (validationEntry.HasDelayedMsg e = true ->
        GetDelayedMessageBytes (inboxTracker v) (validationEntry.DelayedMsgNr e)
        = Ok (validationEntry.DelayedMsg e'))
    /\ (validationEntry.HasDelayedMsg e = false ->
        validationEntry.DelayedMsg e' = validationEntry.DelayedMsg e).
Proof.
  intros Hpos. unfold StatelessBlockValidator.ValidationEntryRecord.
  destruct (decide _) as [| _]; [discriminate |].
  destruct (recordBlock v e) as [e1 |] eqn:Hblock; [| discriminate].
  destruct (recordBlock_frame _ _ _ Hblock)
    as (_ & _ & _ & _ & Hhas & Hnr & _ & _ & _ & Hdelayed).
  unfold StatelessBlockValidator.recordBlock in Hblock.
  destruct (Z.eqb_spec (validationEntry.Pos e) 0) as [? | _]; [contradiction |].
  simpl negb in Hblock. cbv iota in Hblock.
  destruct (ExecutionRecorder.RecordBlockCreation _ _ _) as [recording |];
    [| discriminate].
  simpl in Hblock.
  destruct (N.eqb_spec (RecordResult.BlockHash recording)
              (GoGlobalState.BlockHash (validationEntry.End e)))
    as [Hhash | _]; [| discriminate].
  simpl in Hblock. intros Hrun. exists recording.
  split; [reflexivity |]. split; [exact Hhash |].
  assert (Hwasms : validationEntry.UserWasms e1 = RecordResult.UserWasms recording)
    by (simplify_eq; reflexivity).
  assert (Hpre : validationEntry.Preimages e1
                 = match RecordResult.Preimages recording with
                   | Some recorded =>
                       copyPreimagesInto (validationEntry.Preimages e)
                         {[Keccak256PreimageType := recorded]}
                   | None => validationEntry.Preimages e
                   end).
  { simplify_eq. destruct (RecordResult.Preimages recording); reflexivity. }
  assert (Hfinal : validationEntry.UserWasms e' = validationEntry.UserWasms e1
                   /\ validationEntry.Preimages e' = validationEntry.Preimages e1
                   /\ (validationEntry.HasDelayedMsg e1 = true ->
                       GetDelayedMessageBytes (inboxTracker v)
                         (validationEntry.DelayedMsgNr e1)
                       = Ok (validationEntry.DelayedMsg e'))
                   /\ (validationEntry.HasDelayedMsg e1 = false ->
                       validationEntry.DelayedMsg e'
                       = validationEntry.DelayedMsg e1)).
  { clear Hblock. destruct (validationEntry.HasDelayedMsg e1).
    - destruct (GetDelayedMessageBytes _ _) as [delayedMsg |] eqn:Hfetch;
        simpl in Hrun; simplify_eq.
      repeat split; intros; first [exact Hfetch | easy].
    - simplify_eq. repeat split; intros; easy. }
  destruct Hfinal as (-> & -> & Hfetched & Hkept).
  rewrite Hhas, Hnr in Hfetched. rewrite Hhas, Hdelayed in Hkept.
  rewrite Hpre. repeat split; try assumption.
  - intros recorded hash preimage -> Hrec.
    rewrite copyPreimagesInto_lookup_hash, lookup_singleton_eq. simpl.
    now rewrite Hrec.
  - intros piType hash Hother.
    destruct (RecordResult.Preimages recording) as [recorded |]; [| reflexivity].
    rewrite copyPreimagesInto_lookup_hash.
    destruct Hother as [Hne | Hnone].
    + now rewrite lookup_singleton_ne by congruence.
    + destruct (decide (Keccak256PreimageType = piType)) as [<- | Hne].
      * rewrite lookup_singleton_eq. simpl. now rewrite (Hnone _ eq_refl).
      * now rewrite lookup_singleton_ne by congruence.
Qed.

(** X16. When only the delayed message cannot be read, the call returns
    the tracker's error wrapped as "error while trying to read delayed msg
    for proving", and the entry stays in stage ReadyForRecord with its
    message -- but the recorder's user wasms are already in it. *)
Theorem ValidationEntryRecord_delayed_failure
    (v : StatelessBlockValidator.t) e recording err :
  validationEntry.Stage e = ReadyForRecord ->
  validationEntry.Pos e <> 0 ->
  ExecutionRecorder.RecordBlockCreation (StatelessBlockValidator.recorder v)
    (validationEntry.Pos e) (validationEntry.msg e) = Ok recording ->
  RecordResult.BlockHash recording
  = GoGlobalState.BlockHash (validationEntry.End e) ->
  validationEntry.HasDelayedMsg e = true ->
  GetDelayedMessageBytes (inboxTracker v) (validationEntry.DelayedMsgNr e)
  = Err err ->
  exists e1,
    ValidationEntryRecord v e = (e1, Some (ErrReadDelayedMsg err))
    /\ validationEntry.Stage e1 = ReadyForRecord
    /\ validationEntry.msg e1 = validationEntry.msg e
    /\ validationEntry.UserWasms e1 = RecordResult.UserWasms recording
    /\ String.prefix "error while trying to read delayed msg for proving"
         (Error (ErrReadDelayedMsg err)) = true.
Proof.
  intros Hstage Hpos Hrec Hhash Hhas Hfetch.
  unfold StatelessBlockValidator.ValidationEntryRecord.
  rewrite decide_False by (intros Hne; now apply Hne).
  destruct (recordBlock v e) as [e1 | err1] eqn:Hblock.
  - destruct (recordBlock_frame _ _ _ Hblock)
      as (Hst & _ & _ & _ & Hhas1 & Hnr & _ & Hmsg & _).
    rewrite Hhas1, Hhas, Hnr, Hfetch. exists e1.
    split; [reflexivity |]. split; [congruence |]. split; [exact Hmsg |].
    split; [| reflexivity].
    unfold StatelessBlockValidator.recordBlock in Hblock.
    destruct (Z.eqb_spec (validationEntry.Pos e) 0) as [? | _]; [contradiction |].
    simpl negb in Hblock. cbv iota in Hblock. rewrite Hrec in Hblock.
    simpl in Hblock. rewrite Hhash, N.eqb_refl in Hblock. simpl in Hblock.
    simplify_eq. reflexivity.
  - exfalso. unfold StatelessBlockValidator.recordBlock in Hblock.
    destruct (Z.eqb_spec (validationEntry.Pos e) 0) as [? | _]; [contradiction |].
    simpl negb in Hblock. cbv iota in Hblock. rewrite Hrec in Hblock.
    simpl in Hblock. rewrite Hhash, N.eqb_refl in Hblock. discriminate.
Qed.

End RecordingFurther.

Lemma ValidationEntryRecord_once_witness :
  exists e',
    StatelessBlockValidator.ValidationEntryRecord 0
      (Examples.recordingValidator [[Byte.x07]]) Examples.delayedEntry
    = (e', None)
    /\ StatelessBlockValidator.ValidationEntryRecord 0
         (Examples.recordingValidator [[Byte.x07]]) e'
       = (e', Some (ErrNotReadyForRecord Ready)).
Proof.
  assert (Hrun : exists e',
             StatelessBlockValidator.ValidationEntryRecord 0
               (Examples.recordingValidator [[Byte.x07]]) Examples.delayedEntry
             = (e', None)) by (eexists; vm_compute; reflexivity).
  destruct Hrun as [e' Hrun]. exists e'. split; [exact Hrun |].
  exact (ValidationEntryRecord_once 0 _ _ _ Hrun).
Defined.

Lemma ValidationEntryRecord_genesis_witness :
  StatelessBlockValidator.ValidationEntryRecord 0
    (StatelessBlockValidator.OverrideRecorder (Examples.sampleValidator [] None)
       Examples.richRecorder)
    (Examples.sampleEntry ReadyForRecord 0 187%N)
  = StatelessBlockValidator.ValidationEntryRecord 0
      (Examples.sampleValidator [] None)
      (Examples.sampleEntry ReadyForRecord 0 187%N).
Proof.
  apply (ValidationEntryRecord_genesis 0 (Examples.sampleValidator [] None)
           (Examples.sampleEntry ReadyForRecord 0 187%N) Examples.richRecorder).
  reflexivity.
Defined.

Lemma ValidationEntryRecord_recorded_witness :
  exists e',
    StatelessBlockValidator.ValidationEntryRecord 0
      (Examples.recordingValidator [[Byte.x07]]) Examples.delayedEntry
    = (e', None)
    /\ validationEntry.UserWasms e' = {[ 17%N := {[ "wavm" := [Byte.x00] ]} ]}
    /\ validationEntry.DelayedMsg e' = [Byte.x07].
Proof.
  assert (Hrun : exists e',
             StatelessBlockValidator.ValidationEntryRecord 0
               (Examples.recordingValidator [[Byte.x07]]) Examples.delayedEntry
             = (e', None)) by (eexists; vm_compute; reflexivity).
  destruct Hrun as [e' Hrun]. exists e'. split; [exact Hrun |].
  destruct (ValidationEntryRecord_recorded 0
              (Examples.recordingValidator [[Byte.x07]]) Examples.delayedEntry e')
    as (recording & Hrec & _ & Hwasms & _ & _ & Hfetched & _);
    [discriminate | exact Hrun |].
  split.
  - rewrite Hwasms. cbn in Hrec. now simplify_eq.
  - specialize (Hfetched eq_refl). vm_compute in Hfetched.
    injection Hfetched as Hfetched. symmetry. exact Hfetched.
Defined.

Lemma ValidationEntryRecord_delayed_failure_witness :
  exists e1,
    StatelessBlockValidator.ValidationEntryRecord 0
      (Examples.recordingValidator []) Examples.delayedEntry
    = (e1, Some (ErrReadDelayedMsg (ErrExternal "delayed message not found")))
    /\ validationEntry.Stage e1 = ReadyForRecord
    /\ validationEntry.UserWasms e1 = {[ 17%N := {[ "wavm" := [Byte.x00] ]} ]}.
Proof.
  destruct (ValidationEntryRecord_delayed_failure 0
              (Examples.recordingValidator []) Examples.delayedEntry
              (RecordResult.mk 2 (Examples.blockHashAt 2)
                 (Some {[ 5%N := [Byte.x01] ]})
                 {[ 17%N := {[ "wavm" := [Byte.x00] ]} ]})
              (ErrExternal "delayed message not found"))
    as (e1 & Hrun & Hstage & _ & Hwasms & _);
    [reflexivity | discriminate | reflexivity | reflexivity | reflexivity
    | reflexivity |].
  exists e1. split; [exact Hrun |]. split; [exact Hstage | exact Hwasms].
Defined.

(** ** Batch assembly *)

Section BatchAssembly.
Variable ErrSeqMsgValidation : error.
Variable IsDASMessageHeaderByte : Byte.byte -> bool.

Local Abbreviation readFullBatch :=
  (StatelessBlockValidator.readFullBatch ErrSeqMsgValidation
     IsDASMessageHeaderByte).
Local Abbreviation recoverFromReaders :=
  (StatelessBlockValidator.recoverFromReaders ErrSeqMsgValidation
     IsDASMessageHeaderByte).

(** Readers that decline the header byte are passed over. *)
Lemma recoverFromReaders_declined readers rest batchNum batchBlockHash
    postedData headerByte preimages :
  Forall (readerDeclines headerByte) readers ->
  recoverFromReaders (readers ++ rest) batchNum batchBlockHash postedData
    headerByte preimages
  = recoverFromReaders rest batchNum batchBlockHash postedData headerByte
      preimages.
Proof.
  induction 1 as [| reader readers Hdecl _ IH]; [reflexivity |].
  cbn [app StatelessBlockValidator.recoverFromReaders].
  destruct reader as [dapReader |]; [| exact IH].
  cbn in Hdecl. rewrite Hdecl. exact IH.
Qed.

(** X17. [readFullBatch] and [readPostedBatch] on the same batch number:
    [readFullBatch] reports [found] exactly when it returns a batch, and
    reports not-found -- without an error -- exactly when the tracker's
    batch count does not exceed the number, in which case [readPostedBatch]
    fails with "batch not found"; a batch it returns has the requested
    number, the tracker's message count, and the posted data that
    [readPostedBatch] returns. *)
Theorem readFullBatch_found (v : StatelessBlockValidator.t) batchNum found info :
  readFullBatch v batchNum = Ok (found, info) ->
  (found = true <-> info <> None)
  /\ (found = false ->
      (exists batchCount,
         GetBatchCount (inboxTracker v) = Ok batchCount
         /\ batchCount <= batchNum)
      /\ StatelessBlockValidator.readPostedBatch v batchNum
         = Err (ErrPostedBatchNotFound batchNum))
  /\ (forall fullBatchInfo,
        info = Some fullBatchInfo ->
        (exists batchCount,
           GetBatchCount (inboxTracker v) = Ok batchCount
           /\ batchNum < batchCount)
        /\ FullBatchInfo.Number fullBatchInfo = batchNum
        /\ GetBatchMessageCount (inboxTracker v) batchNum
           = Ok (FullBatchInfo.MsgCount fullBatchInfo)
        /\ StatelessBlockValidator.readPostedBatch v batchNum
           = Ok (FullBatchInfo.PostedData fullBatchInfo)).
Proof.
  unfold StatelessBlockValidator.readFullBatch,
    StatelessBlockValidator.readPostedBatch.
  destruct (GetBatchCount (inboxTracker v)) as [batchCount |]; [| discriminate].
  simpl. destruct (Z.leb_spec batchCount batchNum) as [Hle | Hlt].
  - intros Hrun. simplify_eq. split; [split; [discriminate | congruence] |].
    split; [| discriminate]. intros _. split; [eauto | reflexivity].
  - destruct (GetBatchMessageCount _ _) as [batchMsgCount |]; [| discriminate].
    simpl.
    destruct (InboxReaderInterface.GetSequencerMessageBytes _ _)
      as [[postedData batchBlockHash] |]; [| discriminate].
    simpl.
    destruct (postedData !! 40%nat) as [headerByte |].
    + destruct (StatelessBlockValidator.recoverFromReaders _ _ _ _ _ _ _ _)
        as [[foundDA preimages] |]; [| discriminate].
      simpl. intros Hrun. simplify_eq.
      split; [split; [discriminate | reflexivity] |].
      split; [discriminate |]. intros ? ?. simplify_eq. simpl.
      repeat split. eauto.
    + simpl. intros Hrun. simplify_eq.
      split; [split; [discriminate | reflexivity] |].
      split; [discriminate |]. intros ? ?. simplify_eq. simpl.
      repeat split. eauto.
Qed.

(** X18. A batch whose posted data has at most 40 bytes, or whose header
    byte (the byte at offset 40) no configured reader recognises, is
    returned with an empty preimage map. *)
Theorem readFullBatch_no_recovery
    (v : StatelessBlockValidator.t) batchNum batchCount batchMsgCount
    postedData batchBlockHash :
  GetBatchCount (inboxTracker v) = Ok batchCount ->
  batchNum < batchCount ->
  GetBatchMessageCount (inboxTracker v) batchNum = Ok batchMsgCount ->
  InboxReaderInterface.GetSequencerMessageBytes
    (StatelessBlockValidator.inboxReader v) batchNum
  = Ok (postedData, batchBlockHash) ->
  (length postedData <= 40)%nat
  \/ (exists headerByte,
        postedData !! 40%nat = Some headerByte
        /\ Forall (readerDeclines headerByte)
             (StatelessBlockValidator.dapReaders v)) ->
  readFullBatch v batchNum
  = Ok (true, Some (FullBatchInfo.mk batchNum postedData batchMsgCount ∅)).
Proof.
  intros Hcount Hlt Hmsg Hdata Hcase.
  unfold StatelessBlockValidator.readFullBatch.
  rewrite Hcount. simpl.
  destruct (Z.leb_spec batchCount batchNum); [lia |].
  rewrite Hmsg. simpl. rewrite Hdata. simpl.
  destruct Hcase as [Hshort | (headerByte & Hbyte & Hdecl)].
  - rewrite (lookup_ge_None_2 postedData 40) by exact Hshort. reflexivity.
  - rewrite Hbyte.
    rewrite <- (app_nil_r (StatelessBlockValidator.dapReaders v)).
    rewrite (recoverFromReaders_declined _ [] _ _ _ _ _ Hdecl). reflexivity.
Qed.

(** X19. The first reader that recognises the header byte decides: it is
    given the empty preimage map, and readers after it are not consulted.
    If it recovers the payload the batch carries the preimages it returns;
    if it fails, the error is returned -- unless its message contains the
    message of [ErrSeqMsgValidation] and the header byte is a DAS header
    byte, in which case the batch is returned with whatever the reader had
    written into the map it was given. *)
Theorem readFullBatch_first_reader
    (v : StatelessBlockValidator.t) batchNum batchCount batchMsgCount
    postedData batchBlockHash headerByte declined dapReader rest
    written recovered :
  GetBatchCount (inboxTracker v) = Ok batchCount ->
  batchNum < batchCount ->
  GetBatchMessageCount (inboxTracker v) batchNum = Ok batchMsgCount ->
  InboxReaderInterface.GetSequencerMessageBytes
    (StatelessBlockValidator.inboxReader v) batchNum
  = Ok (postedData, batchBlockHash) ->
  postedData !! 40%nat = Some headerByte ->
  StatelessBlockValidator.dapReaders v = declined ++ Some dapReader :: rest ->
  Forall (readerDeclines headerByte) declined ->
  DAReader.IsValidHeaderByte dapReader headerByte = true ->
  DAReader.RecoverPayloadFromBatch dapReader batchNum batchBlockHash postedData
    ∅ true = (written, recovered) ->
  readFullBatch v batchNum
  = match recovered with
    | Ok (_, preimagesRecorded) =>
        Ok (true, Some (FullBatchInfo.mk batchNum postedData batchMsgCount
                          preimagesRecorded))
    | Err err =>
        if strings_Contains (Error err) (Error ErrSeqMsgValidation)
           && IsDASMessageHeaderByte headerByte
        then Ok (true, Some (FullBatchInfo.mk batchNum postedData batchMsgCount
                               written))
        else Err err
    end.
Proof.
  intros Hcount Hlt Hmsg Hdata Hbyte Hreaders Hdecl Haccepts Hrecover.
  unfold StatelessBlockValidator.readFullBatch.
  rewrite Hcount. simpl.
  destruct (Z.leb_spec batchCount batchNum); [lia |].
  rewrite Hmsg. simpl. rewrite Hdata. simpl. rewrite Hbyte, Hreaders.
  rewrite (recoverFromReaders_declined _ _ _ _ _ _ _ Hdecl).
  cbn [StatelessBlockValidator.recoverFromReaders].
  rewrite Haccepts, Hrecover.
  destruct recovered as [[payload preimagesRecorded] | err]; [reflexivity |].
  destruct (_ && _); reflexivity.
Qed.

End BatchAssembly.

Lemma readFullBatch_found_witness :
  StatelessBlockValidator.readPostedBatch (Examples.sampleValidator [] None) 0
  = Ok []
  /\ StatelessBlockValidator.readPostedBatch (Examples.sampleValidator [] None) 7
     = Err (ErrPostedBatchNotFound 7).
Proof.
  split.
  - destruct (readFullBatch_found Examples.sampleErrSeqMsgValidation
                Examples.sampleIsDASMessageHeaderByte
                (Examples.sampleValidator [] None) 0 true
                (Some (FullBatchInfo.mk 0 [] 3 ∅)) eq_refl)
      as (_ & _ & Hinfo).
    destruct (Hinfo _ eq_refl) as (_ & _ & _ & Hposted). exact Hposted.
  - destruct (readFullBatch_found Examples.sampleErrSeqMsgValidation
                Examples.sampleIsDASMessageHeaderByte
                (Examples.sampleValidator [] None) 7 false None eq_refl)
      as (_ & Hmissing & _).
    destruct (Hmissing eq_refl) as [_ Hposted]. exact Hposted.
Defined.

Lemma readFullBatch_no_recovery_witness :
  StatelessBlockValidator.readFullBatch Examples.sampleErrSeqMsgValidation
    Examples.sampleIsDASMessageHeaderByte
    (Examples.daValidator
       [None; Some (Examples.daReader (fun _ => false)
                      (∅, Err (ErrExternal "unused")))]) 1
  = Ok (true, Some (FullBatchInfo.mk 1 Examples.dasBatchData 5 ∅)).
Proof.
  apply (readFullBatch_no_recovery Examples.sampleErrSeqMsgValidation
           Examples.sampleIsDASMessageHeaderByte _ 1 2 5
           Examples.dasBatchData 9%N); try reflexivity.
  right. exists Byte.x80. split; [reflexivity |].
  repeat constructor.
Defined.

Lemma readFullBatch_first_reader_witness :
  let lenient :=
    Examples.daReader (Byte.eqb Byte.x80)
      ({[ 3 := {[ 1%N := [Byte.x05] ]} ]},
       Err (ErrExternal
              "error validating recovered payload from batch: bad keyset")) in
  let later :=
    Examples.daReader (fun _ => true) (∅, Ok ([], {[ 0 := ∅ ]})) in
  StatelessBlockValidator.readFullBatch Examples.sampleErrSeqMsgValidation
    Examples.sampleIsDASMessageHeaderByte
    (Examples.daValidator [None; Some lenient; Some later]) 1
  = Ok (true, Some (FullBatchInfo.mk 1 Examples.dasBatchData 5
                      {[ 3 := {[ 1%N := [Byte.x05] ]} ]})).
Proof.
  intros lenient later.
  exact (readFullBatch_first_reader Examples.sampleErrSeqMsgValidation
           Examples.sampleIsDASMessageHeaderByte
           (Examples.daValidator [None; Some lenient; Some later]) 1 2 5
           Examples.dasBatchData 9%N Byte.x80 [None] lenient [Some later]
           {[ 3 := {[ 1%N := [Byte.x05] ]} ]}
           (Err (ErrExternal
                   "error validating recovered payload from batch: bad keyset"))
           eq_refl ltac:(lia) eq_refl eq_refl eq_refl eq_refl
           ltac:(repeat constructor) eq_refl eq_refl).
Defined.

(** ** Building a Ready entry *)

(** What a returned entry says about the constructor's arguments. *)
Lemma newValidationEntry_inv
    pos start end_ msg fullBatchInfo prevBatches prevDelayed chainConfig e :
  newValidationEntry pos start end_ msg fullBatchInfo prevBatches prevDelayed
    chainConfig = Ok e ->
  exists info hasDelayed delayedNum,
    fullBatchInfo = Some info
    /\ FullBatchInfo.Number info = GoGlobalState.Batch start
    /\ (hasDelayed = true
        <-> MessageWithMetadata.DelayedMessagesRead msg
            = wrap64 (prevDelayed + 1))
    /\ e = validationEntry.mk ReadyForRecord pos start end_ hasDelayed
             delayedNum chainConfig (Some msg)
             (BatchInfo.mk (FullBatchInfo.Number info)
                (FullBatchInfo.PostedData info) :: prevBatches)
             (FullBatchInfo.Preimages info) ∅ [].
Proof.
  unfold newValidationEntry. destruct fullBatchInfo as [info |]; [| discriminate].
  destruct (Z.eqb_spec (FullBatchInfo.Number info) (GoGlobalState.Batch start))
    as [Hnum | _]; [| discriminate].
  simpl negb. cbv iota zeta. rewrite copyPreimagesInto_empty.
  destruct (Z.eqb_spec (MessageWithMetadata.DelayedMessagesRead msg)
              (wrap64 (prevDelayed + 1))) as [Hread | Hread].
  - intros Hbuilt. simplify_eq. eexists info, true, _.
    repeat split; auto.
  - destruct (negb _); [discriminate |]. intros Hbuilt. simplify_eq.
    eexists info, false, _. repeat split; auto; discriminate.
Qed.

Section RecordingInversion.
Variable Keccak256PreimageType : PreimageType.

(** What an error-free recording says about the entry before and after. *)
Lemma ValidationEntryRecord_inv (v : StatelessBlockValidator.t) e e' :
  StatelessBlockValidator.ValidationEntryRecord Keccak256PreimageType v e
  = (e', None) ->
  validationEntry.Stage e' = Ready
  /\ validationEntry.msg e' = None
  /\ validationEntry.Pos e' = validationEntry.Pos e
  /\ validationEntry.Start e' = validationEntry.Start e
  /\ validationEntry.End e' = validationEntry.End e
  /\ validationEntry.HasDelayedMsg e' = validationEntry.HasDelayedMsg e
  /\ validationEntry.DelayedMsgNr e' = validationEntry.DelayedMsgNr e
  /\ validationEntry.ChainConfig e' = validationEntry.ChainConfig e
  /\ validationEntry.BatchInfo e' = validationEntry.BatchInfo e
  /\ (validationEntry.Pos e = 0 ->
      validationEntry.UserWasms e' = validationEntry.UserWasms e
      /\ validationEntry.Preimages e' = validationEntry.Preimages e)
  /\ (validationEntry.Pos e <> 0 ->
      exists recording,
        ExecutionRecorder.RecordBlockCreation
          (StatelessBlockValidator.recorder v)
          (validationEntry.Pos e) (validationEntry.msg e) = Ok recording
        /\ RecordResult.BlockHash recording
           = GoGlobalState.BlockHash (validationEntry.End e)
        /\ validationEntry.UserWasms e' = RecordResult.UserWasms recording)
  /\ (validationEntry.HasDelayedMsg e = true ->
      GetDelayedMessageBytes (inboxTracker v) (validationEntry.DelayedMsgNr e)
      = Ok (validationEntry.DelayedMsg e')).
Proof.
  unfold StatelessBlockValidator.ValidationEntryRecord.
  destruct (decide _) as [| _]; [discriminate |].
  destruct (StatelessBlockValidator.recordBlock _ v e) as [e1 |] eqn:Hblock;
    [| discriminate].
  assert (Hrec :
            (validationEntry.Pos e = 0 ->
             validationEntry.UserWasms e1 = validationEntry.UserWasms e
             /\ validationEntry.Preimages e1 = validationEntry.Preimages e)
            /\ (validationEntry.Pos e <> 0 ->
                exists recording,
                  ExecutionRecorder.RecordBlockCreation
                    (StatelessBlockValidator.recorder v)
                    (validationEntry.Pos e) (validationEntry.msg e)
                  = Ok recording
                  /\ RecordResult.BlockHash recording
                     = GoGlobalState.BlockHash (validationEntry.End e)
                  /\ validationEntry.UserWasms e1
                     = RecordResult.UserWasms recording)).
  { pose proof Hblock as Hblock'.
    unfold StatelessBlockValidator.recordBlock in Hblock'.
    destruct (Z.eqb_spec (validationEntry.Pos e) 0) as [Hz | Hnz];
      simpl negb in Hblock'; cbv iota in Hblock'.
    - simplify_eq. split; [intros _; split; reflexivity | contradiction].
    - split; [contradiction |]. intros _.
      destruct (ExecutionRecorder.RecordBlockCreation _ _ _) as [recording |];
        [| discriminate].
      simpl in Hblock'.
      destruct (N.eqb_spec (RecordResult.BlockHash recording)
                  (GoGlobalState.BlockHash (validationEntry.End e)))
        as [Hhash | _]; [| discriminate].
      simpl in Hblock'. simplify_eq. exists recording. repeat split. exact Hhash. }
  destruct Hrec as [Hzero Hnonzero].
  destruct (recordBlock_frame _ _ _ _ Hblock)
    as (_ & Hpos & Hstart & Hend & Hhas & Hnr & Hcfg & _ & Hbatch & _).
  rewrite <- Hhas, <- Hnr.
  destruct (validationEntry.HasDelayedMsg e1) eqn:Hhas1.
  - destruct (GetDelayedMessageBytes _ _) as [delayedMsg |] eqn:Hfetch;
      [| discriminate].
    intros Hrun. simplify_eq. simpl.
    repeat split; try assumption; try (intros; now apply Hzero);
      try (intros; now apply Hnonzero).
  - intros Hrun. simplify_eq. simpl.
    repeat split; try assumption; try (intros; now apply Hzero);
      try (intros; now apply Hnonzero); discriminate.
Qed.

End RecordingInversion.

Section EntryCreation.
Variable ErrSeqMsgValidation : error.
Variable IsDASMessageHeaderByte : Byte.byte -> bool.
Variable Keccak256PreimageType : PreimageType.

Local Abbreviation readFullBatch :=
  (StatelessBlockValidator.readFullBatch ErrSeqMsgValidation
     IsDASMessageHeaderByte).
Local Abbreviation ValidationEntryRecord :=
  (StatelessBlockValidator.ValidationEntryRecord Keccak256PreimageType).
Local Abbreviation CreateReadyValidationEntry :=
  (StatelessBlockValidator.CreateReadyValidationEntry ErrSeqMsgValidation
     IsDASMessageHeaderByte Keccak256PreimageType).

Lemma readFullBatch_Some (v : StatelessBlockValidator.t) batchNum found info :
  readFullBatch v batchNum = Ok (found, Some info) ->
  FullBatchInfo.Number info = batchNum
  /\ exists batchBlockHash,
       InboxReaderInterface.GetSequencerMessageBytes
         (StatelessBlockValidator.inboxReader v) batchNum
       = Ok (FullBatchInfo.PostedData info, batchBlockHash).
Proof.
  unfold StatelessBlockValidator.readFullBatch.
  destruct (GetBatchCount _); [| discriminate]. simpl.
  destruct (_ <=? _); [discriminate |].
  destruct (GetBatchMessageCount _ _); [| discriminate]. simpl.
  destruct (InboxReaderInterface.GetSequencerMessageBytes _ _)
    as [[postedData batchBlockHash] |]; [| discriminate].
  simpl. destruct (postedData !! 40%nat).
  - destruct (StatelessBlockValidator.recoverFromReaders _ _ _ _ _ _ _ _)
      as [[? ?] |]; [| discriminate].
    simpl. intros Hrun. simplify_eq. simpl. eauto.
  - simpl. intros Hrun. simplify_eq. simpl. eauto.
Qed.

(** The steps a successful [CreateReadyValidationEntry] went through. *)
Lemma CreateReadyValidationEntry_inv
    (v : StatelessBlockValidator.t) pos entry :
  CreateReadyValidationEntry v pos = Ok entry ->
  exists msg result prevDelayed prevResult startPos endPos info prevBatches e0,
    TransactionStreamerInterface.GetMessage
      (StatelessBlockValidator.streamer v) pos = Ok msg
    /\ TransactionStreamerInterface.ResultAtMessageIndex
         (StatelessBlockValidator.streamer v) pos = Ok result
    /\ (pos <= 0 -> prevDelayed = 0 /\ prevResult = MessageResult.zero)
    /\ (0 < pos ->
        exists prev,
          TransactionStreamerInterface.GetMessage
            (StatelessBlockValidator.streamer v) (wrap64 (pos - 1)) = Ok prev
          /\ prevDelayed = MessageWithMetadata.DelayedMessagesRead prev
          /\ TransactionStreamerInterface.ResultAtMessageIndex
               (StatelessBlockValidator.streamer v) (wrap64 (pos - 1))
             = Ok prevResult)
    /\ StatelessBlockValidator.GlobalStatePositionsAtCount v (wrap64 (pos + 1))
       = Ok (startPos, endPos)
    /\ readFullBatch v (GlobalStatePosition.BatchNumber startPos)
       = Ok (true, Some info)
    /\ newValidationEntry pos (BuildGlobalState prevResult startPos)
         (BuildGlobalState result endPos) msg (Some info) prevBatches
         prevDelayed
         (TransactionStreamerInterface.ChainConfig
            (StatelessBlockValidator.streamer v)) = Ok e0
    /\ ValidationEntryRecord v e0 = (entry, None).
Proof.
  unfold StatelessBlockValidator.CreateReadyValidationEntry.
  destruct (TransactionStreamerInterface.GetMessage _ pos) as [msg |];
    [| discriminate].
  simpl.
  destruct (TransactionStreamerInterface.ResultAtMessageIndex _ pos)
    as [result |]; [| discriminate].
  simpl.
  destruct (if 0 <? pos then _ else _) as [[prevDelayed prevResult] |] eqn:Hprev;
    [| discriminate].
  simpl.
  destruct (StatelessBlockValidator.GlobalStatePositionsAtCount _ _)
    as [[startPos endPos] |]; [| discriminate].
  destruct (StatelessBlockValidator.readFullBatch _ _ v _)
    as [[found fullBatchInfo] |] eqn:Hbatch; [| discriminate].
  simpl. simpl in Hbatch. destruct found; [| discriminate].
  simpl.
  destruct (MessageWithMetadata.PastBatchesRequired msg) as [prevBatchNums |];
    [| discriminate].
  simpl.
  destruct (StatelessBlockValidator.readPrevBatches v prevBatchNums)
    as [prevBatches |]; [| discriminate].
  simpl.
  destruct (newValidationEntry _ _ _ _ _ _ _ _) as [e0 |] eqn:Hnew;
    [| discriminate].
  simpl.
  destruct (newValidationEntry_inv _ _ _ _ _ _ _ _ _ Hnew)
    as (info & _ & _ & -> & _).
  destruct (StatelessBlockValidator.ValidationEntryRecord _ v e0)
    as [entry' [err |]] eqn:Hrecord; [discriminate |].
  intros Hrun. simplify_eq.
  exists msg, result, prevDelayed, prevResult, startPos, endPos, info,
    prevBatches, e0.
  repeat split; try assumption.
  - destruct (Z.ltb_spec 0 pos); [lia | now simplify_eq].
  - destruct (Z.ltb_spec 0 pos); [lia | now simplify_eq].
  - intros Hpos. destruct (Z.ltb_spec 0 pos); [| lia].
    destruct (TransactionStreamerInterface.GetMessage _ _) as [prev |];
      [| discriminate].
    simpl in Hprev.
    destruct (TransactionStreamerInterface.ResultAtMessageIndex _ _)
      as [prevResult' |]; [| discriminate].
    simpl in Hprev. simplify_eq. exists prev. repeat split.
Qed.

(** X20. An entry [CreateReadyValidationEntry] returns for [pos] is Ready,
    has no message reference, and is the entry of [pos]: its end state is
    the streamer's result for [pos] at the end position of count [pos+1],
    its start state lies at the start position, its first batch is the
    batch of the start position with the data the inbox reader holds for
    it, a delayed message it has was read from the tracker, and for
    [pos != 0] the recorder re-executed the message and arrived at the
    streamer's block hash. *)
Theorem CreateReadyValidationEntry_ready
    (v : StatelessBlockValidator.t) pos entry :
  CreateReadyValidationEntry v pos = Ok entry ->
  validationEntry.Stage entry = Ready
  /\ validationEntry.msg entry = None
  /\ validationEntry.Pos entry = pos
  /\ validationEntry.ChainConfig entry
     = TransactionStreamerInterface.ChainConfig
         (StatelessBlockValidator.streamer v)
  /\ (validationEntry.HasDelayedMsg entry = true ->
      GetDelayedMessageBytes (inboxTracker v)
        (validationEntry.DelayedMsgNr entry)
      = Ok (validationEntry.DelayedMsg entry))
  /\ exists msg result startPos endPos,
       TransactionStreamerInterface.GetMessage
         (StatelessBlockValidator.streamer v) pos = Ok msg
       /\ TransactionStreamerInterface.ResultAtMessageIndex
            (StatelessBlockValidator.streamer v) pos = Ok result
       /\ StatelessBlockValidator.GlobalStatePositionsAtCount v
            (wrap64 (pos + 1)) = Ok (startPos, endPos)
       /\ validationEntry.End entry = BuildGlobalState result endPos
       /\ GoGlobalState.Batch (validationEntry.Start entry)
          = GlobalStatePosition.BatchNumber startPos
       /\ GoGlobalState.PosInBatch (validationEntry.Start entry)
          = GlobalStatePosition.PosInBatch startPos
       /\ (exists data batchBlockHash rest,
             validationEntry.BatchInfo entry
             = BatchInfo.mk (GlobalStatePosition.BatchNumber startPos) data
                 :: rest
             /\ InboxReaderInterface.GetSequencerMessageBytes
                  (StatelessBlockValidator.inboxReader v)
                  (GlobalStatePosition.BatchNumber startPos)
                = Ok (data, batchBlockHash))
       /\ (pos <> 0 ->
           exists recording,
             ExecutionRecorder.RecordBlockCreation
               (StatelessBlockValidator.recorder v) pos (Some msg)
             = Ok recording
             /\ RecordResult.BlockHash recording = MessageResult.BlockHash result
             /\ validationEntry.UserWasms entry
                = RecordResult.UserWasms recording).
Proof.
  intros Hrun.
  destruct (CreateReadyValidationEntry_inv _ _ _ Hrun)
    as (msg & result & prevDelayed & prevResult & startPos & endPos & info
        & prevBatches & e0 & Hmsg & Hresult & _ & _ & Hpositions & Hbatch
        & Hnew & Hrecord).
  destruct (newValidationEntry_inv _ _ _ _ _ _ _ _ _ Hnew)
    as (info' & hasDelayed & delayedNum & Hinfo & Hnum & _ & He0).
  simplify_eq.
  destruct (ValidationEntryRecord_inv _ _ _ _ Hrecord)
    as (Hstage & Hnil & Hpos & Hstart & Hend & Hhas & Hnr & Hcfg & Hbatches
        & _ & Hrecorded & Hdelayed).
  simpl in *.
  destruct (readFullBatch_Some _ _ _ _ Hbatch) as (Hnumber & hash & Hdata).
  split; [exact Hstage |]. split; [exact Hnil |]. split; [exact Hpos |].
  split; [exact Hcfg |].
  split; [intros Hhas'; rewrite Hhas, Hnr in *; now apply Hdelayed |].
  exists msg, result, startPos, endPos.
  split; [exact Hmsg |]. split; [exact Hresult |]. split; [exact Hpositions |].
  split; [exact Hend |]. rewrite Hstart. simpl.
  split; [reflexivity |]. split; [reflexivity |]. split.
  - eexists _, hash, _. rewrite Hbatches, Hnumber. split; [reflexivity | exact Hdata].
  - intros Hne. destruct (Hrecorded Hne) as (recording & Hrec & Hhash & Hwasms).
    exists recording. split; [exact Hrec |]. split; [exact Hhash | exact Hwasms].
Qed.

(** X21. At the largest message index the count [pos + 1] wraps around to
    0: once the streamer has answered, the call fails with the
    "no initial state" error wrapped as a position failure. *)
Theorem CreateReadyValidationEntry_max_index
    (v : StatelessBlockValidator.t) msg result prev prevResult :
  TransactionStreamerInterface.GetMessage
    (StatelessBlockValidator.streamer v) MaxUint64 = Ok msg ->
  TransactionStreamerInterface.ResultAtMessageIndex
    (StatelessBlockValidator.streamer v) MaxUint64 = Ok result ->
  TransactionStreamerInterface.GetMessage
    (StatelessBlockValidator.streamer v) (MaxUint64 - 1) = Ok prev ->
  TransactionStreamerInterface.ResultAtMessageIndex
    (StatelessBlockValidator.streamer v) (MaxUint64 - 1) = Ok prevResult ->
  CreateReadyValidationEntry v MaxUint64
  = Err (ErrCalculatingPosition ErrNoInitialState)
  /\ String.prefix "failed calculating position for validation: no initial state"
       (Error (ErrCalculatingPosition ErrNoInitialState)) = true.
Proof.
  intros Hmsg Hresult Hprev HprevResult.
  split; [| reflexivity].
  unfold StatelessBlockValidator.CreateReadyValidationEntry.
  rewrite Hmsg. simpl. rewrite Hresult. simpl.
  change (0 <? MaxUint64) with true. cbv iota.
  change (wrap64 (MaxUint64 - 1)) with (MaxUint64 - 1).
  rewrite Hprev. simpl. rewrite HprevResult. simpl.
  change (wrap64 (MaxUint64 + 1)) with 0. reflexivity.
Qed.

(** X22. The entry of message 0 starts from the zero global state and ends
    at batch 1, offset 0, with the streamer's result; its first batch is
    batch 0; no recorder output is in it; and it has a delayed message
    exactly when message 0 read one delayed message. *)
Theorem CreateReadyValidationEntry_genesis
    (v : StatelessBlockValidator.t) entry :
  CreateReadyValidationEntry v 0 = Ok entry ->
  validationEntry.Start entry = GoGlobalState.zero
  /\ validationEntry.UserWasms entry = ∅
  /\ (exists data rest,
        validationEntry.BatchInfo entry = BatchInfo.mk 0 data :: rest)
  /\ exists msg result,
       TransactionStreamerInterface.GetMessage
         (StatelessBlockValidator.streamer v) 0 = Ok msg
       /\ TransactionStreamerInterface.ResultAtMessageIndex
            (StatelessBlockValidator.streamer v) 0 = Ok result
       /\ validationEntry.End entry
          = GoGlobalState.mk (MessageResult.BlockHash result)
              (MessageResult.SendRoot result) 1 0
       /\ (validationEntry.HasDelayedMsg entry = true
           <-> MessageWithMetadata.DelayedMessagesRead msg = 1).
Proof.
  intros Hrun.
  destruct (CreateReadyValidationEntry_inv _ _ _ Hrun)
    as (msg & result & prevDelayed & prevResult & startPos & endPos & info
        & prevBatches & e0 & Hmsg & Hresult & Hzero & _ & Hpositions & Hbatch
        & Hnew & Hrecord).
  destruct (Hzero ltac:(lia)) as [-> ->].
  change (wrap64 (0 + 1)) with 1 in Hpositions.
  assert (startPos = GlobalStatePosition.mk 0 0
          /\ endPos = GlobalStatePosition.mk 1 0) as [-> ->].
  { unfold StatelessBlockValidator.GlobalStatePositionsAtCount in Hpositions.
    simpl in Hpositions. now simplify_eq. }
  destruct (newValidationEntry_inv _ _ _ _ _ _ _ _ _ Hnew)
    as (info' & hasDelayed & delayedNum & Hinfo & Hnum & Hdelayed & He0).
  simplify_eq.
  destruct (ValidationEntryRecord_inv _ _ _ _ Hrecord)
    as (_ & _ & _ & Hstart & Hend & Hhas & _ & _ & Hbatches & Hgenesis & _).
  simpl in *. destruct (Hgenesis eq_refl) as [Hwasms _].
  split; [exact Hstart |]. split; [exact Hwasms |].
  split; [rewrite Hbatches, Hnum; eauto |].
  exists msg, result. split; [exact Hmsg |]. split; [exact Hresult |].
  split; [exact Hend |]. rewrite Hhas. exact Hdelayed.
Qed.

End EntryCreation.

Lemma CreateReadyValidationEntry_ready_witness :
  exists entry,
    StatelessBlockValidator.CreateReadyValidationEntry
      Examples.sampleErrSeqMsgValidation Examples.sampleIsDASMessageHeaderByte
      Examples.sampleKeccak256PreimageType (Examples.sampleValidator [] None) 2
    = Ok entry
    /\ validationEntry.Stage entry = Ready
    /\ validationEntry.Pos entry = 2.
Proof.
  assert (Hrun : exists entry,
             StatelessBlockValidator.CreateReadyValidationEntry
               Examples.sampleErrSeqMsgValidation
               Examples.sampleIsDASMessageHeaderByte
               Examples.sampleKeccak256PreimageType
               (Examples.sampleValidator [] None) 2 = Ok entry)
    by (eexists; vm_compute; reflexivity).
  destruct Hrun as [entry Hrun]. exists entry. split; [exact Hrun |].
  destruct (CreateReadyValidationEntry_ready _ _ _ _ _ _ Hrun)
    as (Hstage & _ & Hpos & _).
  split; [exact Hstage | exact Hpos].
Defined.

Lemma CreateReadyValidationEntry_max_index_witness :
  StatelessBlockValidator.CreateReadyValidationEntry
    Examples.sampleErrSeqMsgValidation Examples.sampleIsDASMessageHeaderByte
    Examples.sampleKeccak256PreimageType (Examples.sampleValidator [] None)
    MaxUint64
  = Err (ErrCalculatingPosition ErrNoInitialState).
Proof.
  apply (CreateReadyValidationEntry_max_index
           Examples.sampleErrSeqMsgValidation
           Examples.sampleIsDASMessageHeaderByte
           Examples.sampleKeccak256PreimageType
           (Examples.sampleValidator [] None)
           (Examples.sampleMessage 0)
           (MessageResult.mk (Examples.blockHashAt MaxUint64) 7%N)
           (Examples.sampleMessage 0)
           (MessageResult.mk (Examples.blockHashAt (MaxUint64 - 1)) 7%N));
    reflexivity.
Defined.

Lemma CreateReadyValidationEntry_genesis_witness :
  exists entry,
    StatelessBlockValidator.CreateReadyValidationEntry
      Examples.sampleErrSeqMsgValidation Examples.sampleIsDASMessageHeaderByte
      Examples.sampleKeccak256PreimageType (Examples.sampleValidator [] None) 0
    = Ok entry
    /\ validationEntry.Start entry = GoGlobalState.zero.
Proof.
  assert (Hrun : exists entry,
             StatelessBlockValidator.CreateReadyValidationEntry
               Examples.sampleErrSeqMsgValidation
               Examples.sampleIsDASMessageHeaderByte
               Examples.sampleKeccak256PreimageType
               (Examples.sampleValidator [] None) 0 = Ok entry)
    by (eexists; vm_compute; reflexivity).
  destruct Hrun as [entry Hrun]. exists entry. split; [exact Hrun |].
  now destruct (CreateReadyValidationEntry_genesis _ _ _ _ _ Hrun).
Defined.

(** ** Dispatch: which backend runs, and what the call reports *)

Section DispatchFurther.
Variable ErrSeqMsgValidation : error.
Variable IsDASMessageHeaderByte : Byte.byte -> bool.
Variable Keccak256PreimageType : PreimageType.
Variable rangeOrder : gmap N (gmap string bytes) -> list (Hash * gmap string bytes).

Local Abbreviation CreateReadyValidationEntry :=
  (StatelessBlockValidator.CreateReadyValidationEntry ErrSeqMsgValidation
     IsDASMessageHeaderByte Keccak256PreimageType).
Local Abbreviation launchRun := (StatelessBlockValidator.launchRun rangeOrder).
Local Abbreviation launchOnSpawners :=
  (StatelessBlockValidator.launchOnSpawners rangeOrder).
Local Abbreviation ValidateResult :=
  (StatelessBlockValidator.ValidateResult ErrSeqMsgValidation
     IsDASMessageHeaderByte Keccak256PreimageType rangeOrder).

(** [ValidateResult], once the entry is built, in terms of the launch. *)
Lemma ValidateResult_launch (v : StatelessBlockValidator.t) pos useExec
    moduleRoot entry :
  CreateReadyValidationEntry v pos = Ok entry ->
  ValidateResult v pos useExec moduleRoot
  = match launchRun v entry useExec moduleRoot with
    | Err err => (false, None, Some err)
    | Ok None => (false, None, Some (ErrModuleRootNotSupported moduleRoot))
    | Ok (Some run) => runOutcome run entry
    end.
Proof.
  intros Hentry. unfold StatelessBlockValidator.ValidateResult.
  rewrite Hentry. reflexivity.
Qed.

(** Spawners that do not support the module root are passed over. *)
Lemma launchOnSpawners_skip unsupported rest entry moduleRoot :
  Forall (fun spawner => SpawnerSupportsModule spawner moduleRoot = false)
    unsupported ->
  launchOnSpawners (unsupported ++ rest) entry moduleRoot
  = launchOnSpawners rest entry moduleRoot.
Proof.
  induction 1 as [| spawner unsupported Hno _ IH]; [reflexivity |].
  cbn [app StatelessBlockValidator.launchOnSpawners]. rewrite Hno. exact IH.
Qed.

(** X23. What the triple of [ValidateResult] can be: agreement is reported
    only without an error and with the entry's own end state; a missing
    global state always comes with an error and no agreement; and
    disagreement without error reports a global state other than the
    entry's end state. *)
Theorem ValidateResult_triple (v : StatelessBlockValidator.t) pos useExec
    moduleRoot agreed observed err :
  ValidateResult v pos useExec moduleRoot = (agreed, observed, err) ->
  (agreed = true ->
   err = None
   /\ exists entry,
        CreateReadyValidationEntry v pos = Ok entry
        /\ observed = Some (validationEntry.End entry))
  /\ (observed = None -> agreed = false /\ err <> None)
  /\ (agreed = false -> err = None ->
      exists entry gsEnd,
        CreateReadyValidationEntry v pos = Ok entry
        /\ observed = Some gsEnd
        /\ gsEnd <> validationEntry.End entry).
Proof.
  destruct (CreateReadyValidationEntry v pos) as [entry | err0] eqn:Hentry.
  - rewrite (ValidateResult_launch _ _ _ _ _ Hentry).
    destruct (launchRun v entry useExec moduleRoot) as [[run |] | err1].
    + unfold runOutcome.
      destruct (ValidationRun.Await run) as [gsEnd [awaitErr |]].
      * simpl. intros Hrun. simplify_eq. repeat split; discriminate.
      * destruct (decide (gsEnd = validationEntry.End entry)) as [Heq | Hne].
        -- rewrite (bool_decide_eq_false_2 (None ≠ None)) by auto.
           rewrite bool_decide_eq_false_2 by auto.
           simpl. intros Hrun. simplify_eq.
           repeat split; try discriminate. eauto.
        -- rewrite (bool_decide_eq_false_2 (None ≠ None)) by auto.
           rewrite bool_decide_eq_true_2 by assumption.
           simpl. intros Hrun. simplify_eq.
           repeat split; try discriminate. intros _ _. eauto.
    + intros Hrun. simplify_eq. repeat split; discriminate.
    + intros Hrun. simplify_eq. repeat split; discriminate.
  - unfold StatelessBlockValidator.ValidateResult. rewrite Hentry.
    intros Hrun. simplify_eq. repeat split; discriminate.
Qed.

(** X24. The Redis client comes first. With [useExec] false and a Redis
    client that supports the module root: if the entry cannot be converted
    for the client's targets the call fails with the conversion error and no
    spawner is tried; if the client launches a run, that run decides,
    whatever the spawners are; only if its launch returns no run do the
    spawners get their turn, as they do when [useExec] is true. *)
Theorem ValidateResult_redis_first (v : StatelessBlockValidator.t) pos
    moduleRoot entry redis :
  CreateReadyValidationEntry v pos = Ok entry ->
  StatelessBlockValidator.redisValidator v = Some redis ->
  SpawnerSupportsModule redis moduleRoot = true ->
  match validationEntry.ToInput rangeOrder entry
          (ExecutionSpawner.StylusArchs redis) with
  | Err err => ValidateResult v pos false moduleRoot = (false, None, Some err)
  | Ok input =>
      match ExecutionSpawner.Launch redis input moduleRoot with
      | Some run => ValidateResult v pos false moduleRoot = runOutcome run entry
      | None =>
          ValidateResult v pos false moduleRoot
          = ValidateResult v pos true moduleRoot
      end
  end.
Proof.
  intros Hentry Hredis Hsupports.
  rewrite !(ValidateResult_launch _ _ _ _ _ Hentry).
  unfold StatelessBlockValidator.launchRun. rewrite Hredis, Hsupports. simpl.
  destruct (validationEntry.ToInput _ _ _) as [input | err]; [| reflexivity].
  simpl. destruct (ExecutionSpawner.Launch redis input moduleRoot); reflexivity.
Qed.

(** X25. When the Redis client is not used (absent, [useExec] set, or not
    supporting the module root), the first execution spawner that supports
    the module root decides, whatever comes after it: the entry is
    converted for its targets and launched there. If its launch returns no run, the call
    fails with the "not supported" error even if a later spawner supports
    the module root. *)
Theorem ValidateResult_first_spawner (v : StatelessBlockValidator.t) pos
    useExec moduleRoot entry unsupported spawner rest input :
  CreateReadyValidationEntry v pos = Ok entry ->
  (forall redis, StatelessBlockValidator.redisValidator v = Some redis ->
                 useExec = false ->
                 SpawnerSupportsModule redis moduleRoot = false) ->
  StatelessBlockValidator.execSpawners v = unsupported ++ spawner :: rest ->
  Forall (fun s => SpawnerSupportsModule s moduleRoot = false) unsupported ->
  SpawnerSupportsModule spawner moduleRoot = true ->
  validationEntry.ToInput rangeOrder entry
    (ExecutionSpawner.StylusArchs spawner) = Ok input ->
  ValidateResult v pos useExec moduleRoot
  = match ExecutionSpawner.Launch spawner input moduleRoot with
    | Some run => runOutcome run entry
    | None => (false, None, Some (ErrModuleRootNotSupported moduleRoot))
    end.
Proof.
  intros Hentry Hredis Hspawners Hskip Hsupports Hinput.
  rewrite (ValidateResult_launch _ _ _ _ _ Hentry).
  assert (Hlaunch : launchRun v entry useExec moduleRoot
                    = Ok (ExecutionSpawner.Launch spawner input moduleRoot)).
  { unfold StatelessBlockValidator.launchRun.
    assert (Hnone : match StatelessBlockValidator.redisValidator v with
                    | Some redis =>
                        negb useExec && SpawnerSupportsModule redis moduleRoot
                    | None => false
                    end = false).
    { destruct (StatelessBlockValidator.redisValidator v) as [redis |];
        [| reflexivity].
      destruct useExec; [reflexivity |]. simpl. now apply Hredis. }
    destruct (StatelessBlockValidator.redisValidator v) as [redis |];
      [rewrite Hnone |]; simpl;
      rewrite Hspawners, (launchOnSpawners_skip _ _ _ _ Hskip);
      cbn [StatelessBlockValidator.launchOnSpawners];
      rewrite Hsupports, Hinput; reflexivity. }
  rewrite Hlaunch.
  destruct (ExecutionSpawner.Launch spawner input moduleRoot); reflexivity.
Qed.

End DispatchFurther.

Lemma sample_entry_built spawners redis :
  StatelessBlockValidator.CreateReadyValidationEntry
    Examples.sampleErrSeqMsgValidation Examples.sampleIsDASMessageHeaderByte
    Examples.sampleKeccak256PreimageType
    (Examples.sampleValidator spawners redis) 2
  = Ok Examples.readyEntry2.
Proof. vm_compute. reflexivity. Qed.

Lemma ValidateResult_triple_witness :
  exists entry,
    StatelessBlockValidator.CreateReadyValidationEntry
      Examples.sampleErrSeqMsgValidation Examples.sampleIsDASMessageHeaderByte
      Examples.sampleKeccak256PreimageType
      (Examples.sampleValidator
         [Examples.spawnerWith [1%N] Examples.sampleEnd] None) 2
    = Ok entry
    /\ Some Examples.sampleEnd = Some (validationEntry.End entry).
Proof.
  destruct (ValidateResult_triple Examples.sampleErrSeqMsgValidation
              Examples.sampleIsDASMessageHeaderByte
              Examples.sampleKeccak256PreimageType Examples.sampleRangeOrder
              (Examples.sampleValidator
                 [Examples.spawnerWith [1%N] Examples.sampleEnd] None)
              2 false 1%N true (Some Examples.sampleEnd) None)
    as (Hagreed & _); [vm_compute; reflexivity |].
  destruct (Hagreed eq_refl) as [_ Hentry]. exact Hentry.
Defined.

Lemma ValidateResult_redis_first_witness :
  StatelessBlockValidator.ValidateResult Examples.sampleErrSeqMsgValidation
    Examples.sampleIsDASMessageHeaderByte Examples.sampleKeccak256PreimageType
    Examples.sampleRangeOrder
    (Examples.sampleValidator [Examples.spawnerWith [1%N] Examples.otherEnd]
       (Some (Examples.spawnerWith [1%N] Examples.sampleEnd))) 2 false 1%N
  = runOutcome (ValidationRun.mk (Examples.sampleEnd, None))
      Examples.readyEntry2.
Proof.
  exact (ValidateResult_redis_first Examples.sampleErrSeqMsgValidation
           Examples.sampleIsDASMessageHeaderByte
           Examples.sampleKeccak256PreimageType Examples.sampleRangeOrder
           (Examples.sampleValidator
              [Examples.spawnerWith [1%N] Examples.otherEnd]
              (Some (Examples.spawnerWith [1%N] Examples.sampleEnd)))
           2 1%N Examples.readyEntry2
           (Examples.spawnerWith [1%N] Examples.sampleEnd)
           (sample_entry_built _ _) eq_refl eq_refl).
Defined.

Lemma ValidateResult_first_spawner_witness :
  StatelessBlockValidator.ValidateResult Examples.sampleErrSeqMsgValidation
    Examples.sampleIsDASMessageHeaderByte Examples.sampleKeccak256PreimageType
    Examples.sampleRangeOrder
    (Examples.sampleValidator
       [Examples.spawnerWith [2%N] Examples.sampleEnd;
        Examples.silentSpawner [1%N];
        Examples.spawnerWith [1%N] Examples.sampleEnd] None) 2 false 1%N
  = (false, None, Some (ErrModuleRootNotSupported 1%N)).
Proof.
  eapply eq_trans;
    [eapply (ValidateResult_first_spawner Examples.sampleErrSeqMsgValidation
               Examples.sampleIsDASMessageHeaderByte
               Examples.sampleKeccak256PreimageType Examples.sampleRangeOrder
               _ 2 false 1%N Examples.readyEntry2
               [Examples.spawnerWith [2%N] Examples.sampleEnd]
               (Examples.silentSpawner [1%N])
               [Examples.spawnerWith [1%N] Examples.sampleEnd]) |].
  - apply sample_entry_built.
  - intros redis Hredis. discriminate Hredis.
  - reflexivity.
  - repeat constructor.
  - reflexivity.
  - vm_compute. reflexivity.
  - reflexivity.
Defined.

(** ** Exporting validation inputs *)

Section ExportInputs.
Variable ErrSeqMsgValidation : error.
Variable IsDASMessageHeaderByte : Byte.byte -> bool.
Variable Keccak256PreimageType : PreimageType.
Variable rangeOrder : gmap N (gmap string bytes) -> list (Hash * gmap string bytes).
Variable InputJSON : Type.
Variable ValidationInputToJson : ValidationInput.t -> InputJSON.

Local Abbreviation CreateReadyValidationEntry :=
  (StatelessBlockValidator.CreateReadyValidationEntry ErrSeqMsgValidation
     IsDASMessageHeaderByte Keccak256PreimageType).
Local Abbreviation ValidationInputsAt :=
  (StatelessBlockValidator.ValidationInputsAt ErrSeqMsgValidation
     IsDASMessageHeaderByte Keccak256PreimageType rangeOrder InputJSON
     ValidationInputToJson).

(** X26. What [ValidationInputsAt] exports for [pos] and [targets] is the
    transport form of the input of the Ready entry of [pos]: its id is
    [pos], its user-wasm map has exactly the listed targets, and its first
    batch is the batch of its start state. *)
Theorem ValidationInputsAt_exports (v : StatelessBlockValidator.t) pos
    (targets : list WasmTarget) json :
  RangeOrder rangeOrder ->
  ValidationInputsAt v pos targets = Ok json ->
  exists entry input,
    CreateReadyValidationEntry v pos = Ok entry
    /\ validationEntry.ToInput rangeOrder entry targets = Ok input
    /\ json = ValidationInputToJson input
    /\ ValidationInput.Id input = pos
    /\ dom (ValidationInput.UserWasms input) = list_to_set targets
    /\ exists data rest,
         ValidationInput.BatchInfo input
         = BatchInfo.mk (GoGlobalState.Batch (ValidationInput.StartState input))
             data :: rest.
Proof.
  intros Hperm. unfold StatelessBlockValidator.ValidationInputsAt.
  destruct (CreateReadyValidationEntry v pos) as [entry |] eqn:Hentry;
    [| discriminate].
  simpl.
  destruct (validationEntry.ToInput rangeOrder entry targets) as [input |]
    eqn:Hinput; [| discriminate].
  simpl. intros Hjson. simplify_eq. exists entry, input.
  split; [first [reflexivity | assumption] |].
  split; [first [reflexivity | assumption] |]. split; [reflexivity |].
  destruct (CreateReadyValidationEntry_inv _ _ _ _ _ _ Hentry)
    as (msg & result & prevDelayed & prevResult & startPos & endPos & info
        & prevBatches & e0 & _ & _ & _ & _ & _ & _ & Hnew & Hrecord).
  destruct (newValidationEntry_inv _ _ _ _ _ _ _ _ _ Hnew)
    as (info' & hasDelayed & delayedNum & Hinfo & Hnum & _ & He0).
  destruct (ValidationEntryRecord_inv _ _ _ _ Hrecord)
    as (_ & _ & Hpos & Hstart & _ & _ & _ & _ & Hbatches & _).
  subst e0. simpl in Hpos, Hstart, Hbatches.
  unfold validationEntry.ToInput in Hinput.
  destruct (decide _); [discriminate |].
  destruct (_ && _); [discriminate |].
  destruct (validationEntry.addWasms _ _ _) as [res |] eqn:Hloops;
    [| discriminate].
  simpl in Hinput. simplify_eq. simpl.
  destruct (addWasms_total _ _ _ _ Hperm Hloops) as [_ Hres].
  split; [first [reflexivity | assumption] |]. split.
  - apply set_eq. intros a. rewrite elem_of_dom, Hres, elem_of_list_to_set.
    destruct (decide (a ∈ targets)) as [Ha | Hnin].
    + split; [intros _; exact Ha | intros _; eauto].
    + split; [intros [? ?]; discriminate | contradiction].
  - rewrite Hbatches, Hstart, Hnum. simpl. eauto.
Qed.

End ExportInputs.

Lemma ValidationInputsAt_exports_witness :
  exists input,
    StatelessBlockValidator.ValidationInputsAt
      Examples.sampleErrSeqMsgValidation Examples.sampleIsDASMessageHeaderByte
      Examples.sampleKeccak256PreimageType Examples.sampleRangeOrder
      ValidationInput.t (fun input => input)
      (Examples.sampleValidator [] None) 2 ["wavm"]
    = Ok input
    /\ ValidationInput.Id input = 2.
Proof.
  assert (Hrun : exists input,
             StatelessBlockValidator.ValidationInputsAt
               Examples.sampleErrSeqMsgValidation
               Examples.sampleIsDASMessageHeaderByte
               Examples.sampleKeccak256PreimageType Examples.sampleRangeOrder
               ValidationInput.t (fun input => input)
               (Examples.sampleValidator [] None) 2 ["wavm"] = Ok input)
    by (eexists; vm_compute; reflexivity).
  destruct Hrun as [json Hrun]. exists json. split; [exact Hrun |].
  destruct (ValidationInputsAt_exports _ _ _ _ _ _ _ _ _ _
              sampleRangeOrder_RangeOrder Hrun)
    as (entry & input & _ & _ & -> & Hid & _).
  exact Hid.
Defined.

(** ** Starting and stopping the backends *)

Section LifecycleProperties.
Variable startOf : ExecutionSpawner.t -> option error.

Local Abbreviation Start := (StatelessBlockValidator.Start startOf).

Lemma startSpawners_outcome spawners started err :
  StatelessBlockValidator.startSpawners startOf spawners = (started, err) ->
  exists rest,
    spawners = started ++ rest
    /\ (err = None ->
        rest = [] /\ Forall (fun s => startOf s = None) started)
    /\ (forall cause,
          err = Some cause ->
          exists before failing,
            started = before ++ [failing]
            /\ Forall (fun s => startOf s = None) before
            /\ startOf failing = Some cause).
Proof.
  revert started err. induction spawners as [| spawner spawners IH];
    intros started err; cbn [StatelessBlockValidator.startSpawners].
  - intros Hrun. simplify_eq. exists []. repeat split; [constructor |].
    intros cause Hcause. discriminate.
  - destruct (startOf spawner) as [cause0 |] eqn:Hstart.
    + intros Hrun. simplify_eq. exists spawners. split; [reflexivity |].
      split; [discriminate |]. intros cause Hcause. simplify_eq.
      exists [], spawner. repeat split; [constructor | exact Hstart].
    + destruct (StatelessBlockValidator.startSpawners startOf spawners)
        as [started' err'] eqn:Hrest.
      intros Hrun. simplify_eq.
      destruct (IH _ _ eq_refl) as (rest & -> & Hok & Hfail).
      exists rest. split; [reflexivity |]. split.
      * intros Hnone. destruct (Hok Hnone) as [-> Hall].
        split; [reflexivity | now constructor].
      * intros cause Hcause.
        destruct (Hfail cause Hcause) as (before & failing & -> & Hall & Hbad).
        exists (spawner :: before), failing.
        split; [reflexivity |]. split; [now constructor | exact Hbad].
Qed.

(** X27. [Start] starts the Redis client, if there is one, and then the
    execution spawners in their order, and stops at the first backend whose
    start fails: the backends it called are a prefix of that sequence, all
    of it if no error is returned; on an error every backend before the
    last one called had started and the last one failed. A failure of the
    Redis client is returned wrapped as "starting execution spawner", a
    spawner's failure as it is. *)
Theorem Start_outcome (v : StatelessBlockValidator.t) started err :
  Start v = (started, err) ->
  let backends :=
    option_list (StatelessBlockValidator.redisValidator v)
      ++ StatelessBlockValidator.execSpawners v in
  (exists rest, backends = started ++ rest)
  /\ (err = None ->
      started = backends /\ Forall (fun s => startOf s = None) started)
  /\ (forall e,
        err = Some e ->
        exists before failing cause,
          started = before ++ [failing]
          /\ Forall (fun s => startOf s = None) before
          /\ startOf failing = Some cause
          /\ ((before = []
               /\ StatelessBlockValidator.redisValidator v = Some failing
               /\ e = StatelessBlockValidator.ErrStartingRedis cause)
              \/ ((before <> []
                   \/ StatelessBlockValidator.redisValidator v = None)
                  /\ e = StatelessBlockValidator.ErrStartingSpawner cause))).
Proof.
  unfold StatelessBlockValidator.Start.
  destruct (StatelessBlockValidator.redisValidator v) as [redis |]; simpl.
  - destruct (startOf redis) as [cause0 |] eqn:Hredis.
    + intros Hrun. simplify_eq. split; [eauto |]. split; [discriminate |].
      intros e He. simplify_eq. exists [], redis, cause0.
      repeat split; [constructor | exact Hredis |]. left. repeat split.
    + destruct (StatelessBlockValidator.startSpawners startOf _)
        as [started' err'] eqn:Hrest.
      intros Hrun. simplify_eq.
      destruct (startSpawners_outcome _ _ _ Hrest) as (rest & Heq & Hok & Hfail).
      split; [exists rest; now rewrite Heq |]. split.
      * intros Hnone. destruct err'; [discriminate |].
        destruct (Hok eq_refl) as [-> Hall]. rewrite Heq, app_nil_r.
        split; [reflexivity | now constructor].
      * intros e He. destruct err' as [cause |]; [| discriminate].
        simpl in He. simplify_eq.
        destruct (Hfail cause eq_refl) as (before & failing & -> & Hall & Hbad).
        exists (redis :: before), failing, cause.
        split; [reflexivity |]. split; [now constructor |].
        split; [exact Hbad |]. right. split; [left; discriminate | reflexivity].
  - destruct (StatelessBlockValidator.startSpawners startOf _)
      as [started' err'] eqn:Hrest.
    intros Hrun. simplify_eq.
    destruct (startSpawners_outcome _ _ _ Hrest) as (rest & Heq & Hok & Hfail).
    split; [exists rest; exact Heq |]. split.
    + intros Hnone. destruct err'; [discriminate |].
      destruct (Hok eq_refl) as [-> Hall]. rewrite Heq, app_nil_r.
      split; [reflexivity | exact Hall].
    + intros e He. destruct err' as [cause |]; [| discriminate].
      simpl in He. simplify_eq.
      destruct (Hfail cause eq_refl) as (before & failing & -> & Hall & Hbad).
      exists before, failing, cause.
      split; [reflexivity |]. split; [exact Hall |].
      split; [exact Hbad |]. right. split; [now right | reflexivity].
Qed.

(** X28. [Stop] stops every backend, the execution spawners first, in
    their order, and the Redis client last: after a [Start] that returned
    no error these are exactly the backends that were started, the Redis
    client having been started first. *)
Theorem Stop_after_Start (v : StatelessBlockValidator.t) started :
  Start v = (started, None) ->
  StatelessBlockValidator.Stop v ≡ₚ started
  /\ StatelessBlockValidator.Stop v
     = StatelessBlockValidator.execSpawners v
       ++ option_list (StatelessBlockValidator.redisValidator v)
  /\ started
     = option_list (StatelessBlockValidator.redisValidator v)
       ++ StatelessBlockValidator.execSpawners v.
Proof.
  intros Hrun.
  assert (Hstarted : started
                     = option_list (StatelessBlockValidator.redisValidator v)
                       ++ StatelessBlockValidator.execSpawners v).
  { revert Hrun. unfold StatelessBlockValidator.Start.
    destruct (StatelessBlockValidator.redisValidator v) as [redis |]; simpl.
    - destruct (startOf redis); [discriminate |].
      destruct (StatelessBlockValidator.startSpawners startOf _)
        as [started' err'] eqn:Hrest.
      intros Hrun. destruct err'; [discriminate |]. simplify_eq.
      destruct (startSpawners_outcome _ _ _ Hrest) as (rest & Heq & Hok & _).
      destruct (Hok eq_refl) as [-> _]. now rewrite Heq, app_nil_r.
    - destruct (StatelessBlockValidator.startSpawners startOf _)
        as [started' err'] eqn:Hrest.
      intros Hrun. destruct err'; [discriminate |]. simplify_eq.
      destruct (startSpawners_outcome _ _ _ Hrest) as (rest & Heq & Hok & _).
      destruct (Hok eq_refl) as [-> _]. now rewrite Heq, app_nil_r. }
  assert (Hstop : StatelessBlockValidator.Stop v
                  = StatelessBlockValidator.execSpawners v
                    ++ option_list (StatelessBlockValidator.redisValidator v)).
  { unfold StatelessBlockValidator.Stop.
    destruct (StatelessBlockValidator.redisValidator v); reflexivity. }
  split; [| split; [exact Hstop | exact Hstarted]].
  rewrite Hstop, Hstarted. apply Permutation_app_comm.
Qed.

End LifecycleProperties.

Lemma Start_outcome_witness :
  let spawners :=
    [Examples.spawnerWith [1%N] Examples.sampleEnd;
     Examples.spawnerWith [9%N] Examples.sampleEnd;
     Examples.spawnerWith [2%N] Examples.sampleEnd] in
  exists before failing,
    fst (StatelessBlockValidator.Start Examples.failsOnRoot9
           (Examples.sampleValidator spawners None))
    = before ++ [failing]
    /\ Examples.failsOnRoot9 failing = Some (ErrExternal "dial failed").
Proof.
  intros spawners.
  destruct (StatelessBlockValidator.Start Examples.failsOnRoot9
              (Examples.sampleValidator spawners None))
    as [started err] eqn:Hrun.
  destruct (Start_outcome Examples.failsOnRoot9 _ _ _ Hrun) as (_ & _ & Hfail).
  assert (Herr : err = Some (StatelessBlockValidator.ErrStartingSpawner
                               (ErrExternal "dial failed")))
    by (vm_compute in Hrun; congruence).
  destruct (Hfail _ Herr) as (before & failing & cause & Hstarted & _ & Hbad & Hkind).
  exists before, failing. split; [exact Hstarted |].
  destruct Hkind as [(_ & Hredis & _) | (_ & He)]; [discriminate Hredis |].
  injection He as <-. exact Hbad.
Defined.

Lemma Stop_after_Start_witness :
  StatelessBlockValidator.Stop
    (Examples.sampleValidator [Examples.spawnerWith [1%N] Examples.sampleEnd]
       (Some (Examples.spawnerWith [2%N] Examples.sampleEnd)))
  ≡ₚ [Examples.spawnerWith [2%N] Examples.sampleEnd;
      Examples.spawnerWith [1%N] Examples.sampleEnd].
Proof.
  apply (Stop_after_Start Examples.failsOnRoot9
           (Examples.sampleValidator
              [Examples.spawnerWith [1%N] Examples.sampleEnd]
              (Some (Examples.spawnerWith [2%N] Examples.sampleEnd)))).
  reflexivity.
Defined.

(** ** Batches a message refers to *)

Lemma readPrevBatches_batches (v : StatelessBlockValidator.t) prevBatchNums
    prevBatches :
  StatelessBlockValidator.readPrevBatches v prevBatchNums = Ok prevBatches ->
  Forall2
    (fun batchNum info =>
       BatchInfo.Number info = batchNum
       /\ StatelessBlockValidator.readPostedBatch v batchNum
          = Ok (BatchInfo.Data info))
    prevBatchNums prevBatches.
Proof.
  revert prevBatches. induction prevBatchNums as [| batchNum rest IH];
    intros prevBatches; cbn [StatelessBlockValidator.readPrevBatches].
  - intros Hrun. simplify_eq. constructor.
  - destruct (StatelessBlockValidator.readPostedBatch v batchNum) as [data |]
      eqn:Hdata; [| discriminate].
    simpl.
    destruct (StatelessBlockValidator.readPrevBatches v rest) as [tl |];
      [| discriminate].
    simpl. intros Hrun. simplify_eq. constructor; [| now apply IH].
    split; [reflexivity | exact Hdata].
Qed.

Section ReferencedBatches.
Variable ErrSeqMsgValidation : error.
Variable IsDASMessageHeaderByte : Byte.byte -> bool.
Variable Keccak256PreimageType : PreimageType.

Local Abbreviation CreateReadyValidationEntry :=
  (StatelessBlockValidator.CreateReadyValidationEntry ErrSeqMsgValidation
     IsDASMessageHeaderByte Keccak256PreimageType).

(** X29. After its containing batch, the batch list of a built entry holds
    one batch for each batch number the message requires, in the order the
    message lists them, each with the posted data [readPostedBatch] returns
    for it -- so every required batch is known to the tracker. *)
Theorem CreateReadyValidationEntry_past_batches
    (v : StatelessBlockValidator.t) pos entry :
  CreateReadyValidationEntry v pos = Ok entry ->
  exists msg prevBatchNums containing prevBatches,
    TransactionStreamerInterface.GetMessage
      (StatelessBlockValidator.streamer v) pos = Ok msg
    /\ MessageWithMetadata.PastBatchesRequired msg = Ok prevBatchNums
    /\ validationEntry.BatchInfo entry = containing :: prevBatches
    /\ Forall2
         (fun batchNum info =>
            BatchInfo.Number info = batchNum
            /\ StatelessBlockValidator.readPostedBatch v batchNum
               = Ok (BatchInfo.Data info)
            /\ exists batchCount,
                 GetBatchCount (inboxTracker v) = Ok batchCount
                 /\ batchNum < batchCount)
         prevBatchNums prevBatches.
Proof.
  unfold StatelessBlockValidator.CreateReadyValidationEntry.
  destruct (TransactionStreamerInterface.GetMessage _ pos) as [msg |];
    [| discriminate].
  simpl.
  destruct (TransactionStreamerInterface.ResultAtMessageIndex _ pos)
    as [result |]; [| discriminate].
  simpl.
  destruct (if 0 <? pos then _ else _) as [[prevDelayed prevResult] |];
    [| discriminate].
  simpl.
  destruct (StatelessBlockValidator.GlobalStatePositionsAtCount _ _)
    as [[startPos endPos] |]; [| discriminate].
  destruct (StatelessBlockValidator.readFullBatch _ _ v _)
    as [[found fullBatchInfo] |]; [| discriminate].
  simpl. destruct found; [| discriminate]. simpl.
  destruct (MessageWithMetadata.PastBatchesRequired msg) as [prevBatchNums |]
    eqn:Hpast; [| discriminate].
  simpl.
  destruct (StatelessBlockValidator.readPrevBatches v prevBatchNums)
    as [prevBatches |] eqn:Hprev; [| discriminate].
  simpl.
  destruct (newValidationEntry _ _ _ _ _ _ _ _) as [e0 |] eqn:Hnew;
    [| discriminate].
  simpl.
  destruct (StatelessBlockValidator.ValidationEntryRecord _ v e0)
    as [entry' [err |]] eqn:Hrecord; [discriminate |].
  intros Hrun. simplify_eq.
  destruct (newValidationEntry_inv _ _ _ _ _ _ _ _ _ Hnew)
    as (info & hasDelayed & delayedNum & _ & _ & _ & ->).
  destruct (ValidationEntryRecord_inv _ _ _ _ Hrecord)
    as (_ & _ & _ & _ & _ & _ & _ & _ & Hbatches & _).
  simpl in Hbatches.
  eexists msg, prevBatchNums, _, prevBatches.
  split; [reflexivity |]. split; [exact Hpast |]. split; [exact Hbatches |].
  eapply Forall2_impl; [exact (readPrevBatches_batches _ _ _ Hprev) |].
  intros batchNum batch [Hnum Hdata]. split; [exact Hnum |].
  split; [exact Hdata |].
  unfold StatelessBlockValidator.readPostedBatch in Hdata.
  destruct (GetBatchCount (inboxTracker v)) as [batchCount |]; [| discriminate].
  simpl in Hdata. exists batchCount. split; [reflexivity |].
  destruct (Z.leb_spec batchCount batchNum); [discriminate | assumption].
Qed.

End ReferencedBatches.

Lemma CreateReadyValidationEntry_past_batches_witness :
  exists entry containing,
    StatelessBlockValidator.CreateReadyValidationEntry
      Examples.sampleErrSeqMsgValidation Examples.sampleIsDASMessageHeaderByte
      Examples.sampleKeccak256PreimageType Examples.reportValidator 2
    = Ok entry
    /\ validationEntry.BatchInfo entry = [containing; BatchInfo.mk 1 []].
Proof.
  assert (Hrun : exists entry,
             StatelessBlockValidator.CreateReadyValidationEntry
               Examples.sampleErrSeqMsgValidation
               Examples.sampleIsDASMessageHeaderByte
               Examples.sampleKeccak256PreimageType Examples.reportValidator 2
             = Ok entry) by (eexists; vm_compute; reflexivity).
  destruct Hrun as [entry Hrun].
  destruct (CreateReadyValidationEntry_past_batches _ _ _ _ _ _ Hrun)
    as (msg & prevBatchNums & containing & prevBatches & Hmsg & Hpast
        & Hbatches & Hall).
  exists entry, containing. split; [exact Hrun |].
  cbn in Hmsg. simplify_eq. cbn in Hpast. simplify_eq.
  apply Forall2_cons_inv_l in Hall as (info & rest & (Hnum & Hdata & _) & Hrest & ->).
  apply Forall2_nil_inv_l in Hrest as ->.
  rewrite Hbatches. f_equal. f_equal.
  destruct info as [number data]. simpl in *. subst number.
  vm_compute in Hdata. now simplify_eq.
Defined.
